(** * Living Legacy: the interview question selector

    A shallow embedding of [question_bank.py] (the three module-level
    tables and [generate_questions]), of the catalog [LEGACY_TYPES] of
    [legacy_data.py], and of the part of [build_project_data] in [app.py]
    that assembles the [scoping_details] dict.

    Python strings are [string]s holding the UTF-8 bytes of the source
    literal.  Dicts that are only read with [.get] are [gmap string _];
    dicts whose iteration order is observable (the input's
    [scoping_details], the returned [OrderedDict]) are association lists in
    insertion order.  Python lists that are shared between the module
    tables and callers live in an explicit heap, so that copying and
    aliasing are visible. *)

From stdpp Require Import gmap strings list fin_maps.

(* [pyval] is nested through [list] and [prod]; [naive_solver] clears
   hypotheses that may be gone. *)
Set Warnings "-register-all,-clear-no-such-hyp".

(** ** Python values of the input

    [project_data] is only read by the selector, so its contents are
    modelled as immutable values.  Dict keys are strings, as in the dict
    built by [build_project_data] and in its JSON export.  [PyNone] and
    [PyInt] stand for the hashable values that are neither [str] nor
    [list]; lists and dicts are the unhashable ones. *)

Inductive pyval : Type :=
  | PyNone
  | PyInt (n : Z)
  | PyStr (s : string)
  | PyList (xs : list pyval)
  | PyDict (kvs : list (string * pyval)).

(** The exceptions the modelled code can raise. *)
Inductive pyerr : Type :=
  | KeyError
  | TypeError
  | AttributeError.

(** [d[k] = v] on an insertion-ordered dict: an existing key keeps its
    position and gets the new value, a new key goes to the end. *)
Fixpoint dict_set {V : Type} (d : list (string * V)) (k : string) (v : V)
  : list (string * V) :=
  match d with
  | [] => [(k, v)]
  | (k', v') :: d' =>
      if decide (k' = k) then (k, v) :: d' else (k', v') :: dict_set d' k v
  end.

(** [d.get(k)] on an insertion-ordered dict with string keys. *)
Fixpoint dict_get {V : Type} (d : list (string * V)) (k : string) : option V :=
  match d with
  | [] => None
  | (k', v) :: d' => if decide (k' = k) then Some v else dict_get d' k
  end.

(** Evaluation of a dict display [{k1: v1, k2: v2, ...}] whose result is
    only ever read with [.get]: entries are stored left to right, a later
    duplicate key overwrites an earlier one. *)
Definition dict_display {V : Type} (kvs : list (string * V)) : gmap string V :=
  foldl (λ m kv, <[kv.1 := kv.2]> m) ∅ kvs.

(** ** The tables of [question_bank.py], as written

    The three dict displays, entry by entry in source order. *)

Definition QUESTIONS_BY_CATEGORY_literal : list (string * list string) :=
  [
    ("Childhood & Growing Up",
     [ "What is your earliest memory?";
       "Where did you grow up, and what was your neighborhood like?";
       "Describe the home you grew up in — what did it look like, smell like, sound like?";
       "Who were the most important people in your childhood?";
       "What were your favorite games, toys, or ways to spend time as a kid?";
       "What was school like for you? Did you have a favorite teacher?";
       "What got you in trouble as a kid?";
       "What was dinnertime like in your family?";
       "What holidays or traditions did your family celebrate, and how?";
       "Was there a moment in your childhood that changed the direction of your life?";
       "What was the best summer you remember as a kid?";
       "What did you want to be when you grew up?";
       "What were your parents like when you were young?";
       "What music, TV shows, or movies do you remember from growing up?";
       "What was the hardest thing about being a kid in that era?" ]);
    ("Family & Relationships",
     [ "How did you meet your spouse or life partner?";
       "What was your wedding day like?";
       "What's the secret to a lasting relationship, in your experience?";
       "What was it like becoming a parent for the first time?";
       "What's a favorite memory with each of your children?";
       "How would you describe your parenting style?";
       "What traditions have you created with your own family?";
       "What do you admire most about your parents?";
       "Tell me about a family challenge you overcame together.";
       "What do you most want your children or grandchildren to know about you?";
       "Is there a family recipe, song, or saying that's been passed down?";
       "What has being a grandparent meant to you?";
       "Describe a perfect ordinary day with your family.";
       "What's the funniest thing that ever happened in your family?";
       "Who in your extended family had the biggest impact on you?" ]);
    ("Career & Professional Life",
     [ "What was your very first job?";
       "How did you end up in the career or industry you spent your life in?";
       "Who was the most influential mentor in your professional life?";
       "What accomplishment are you most proud of professionally?";
       "Tell me about a time you failed at work and what you learned from it.";
       "How did your career change you as a person?";
       "What was the biggest risk you took professionally?";
       "What was the hardest decision you ever made at work?";
       "What leadership lesson took you the longest to learn?";
       "If you could give one piece of career advice to a young person, what would it be?";
       "How did you handle the balance between work and family?";
       "What do you think your colleagues would say about you?";
       "What industry changes did you witness during your career?";
       "Describe the moment you knew it was time to retire or move on.";
       "What legacy did you leave at the place you worked the longest?" ]);
    ("Values & Life Lessons",
     [ "What values were you raised with that you still hold today?";
       "What's the most important lesson life has taught you?";
       "What do you know now that you wish you'd known at 20?";
       "What does 'success' mean to you — has that definition changed?";
       "What advice would you give about handling money?";
       "How do you define a good life?";
       "What's the best advice anyone ever gave you?";
       "What's a mistake you made that taught you something valuable?";
       "How do you handle disagreements or conflict?";
       "What does courage mean to you? When have you had to be courageous?";
       "How do you decide what's right when the answer isn't clear?";
       "What's worth fighting for?";
       "If you could write a letter to your younger self, what would it say?";
       "What keeps you going when life gets hard?";
       "What do you hope people learn from your life?" ]);
    ("Faith & Spirituality",
     [ "How would you describe your relationship with faith or spirituality?";
       "Were you raised in a religious tradition? How did that shape you?";
       "Was there a defining moment in your spiritual life?";
       "How has your faith helped you through difficult times?";
       "Have you ever had doubts? How did you work through them?";
       "What spiritual practices are most meaningful to you?";
       "Is there a scripture, prayer, or saying that guides your life?";
       "Who has been a spiritual mentor or model for you?";
       "How has your faith changed or deepened over the years?";
       "What do you hope to pass down about your faith?";
       "Describe a moment you felt truly at peace.";
       "How does your faith community matter to you?" ]);
    ("Military & Service",
     [ "Why did you join the military / enter service?";
       "What was basic training like?";
       "Where were you stationed, and what was life like there?";
       "Tell me about the people you served with — who stands out?";
       "What was your most meaningful experience during your service?";
       "How did military life affect your family?";
       "Was there a moment that tested everything you had?";
       "What did you learn about leadership in the military?";
       "How did you transition back to civilian life?";
       "Is there a fallen comrade you'd like to honor or remember?";
       "What do civilians most misunderstand about military life?";
       "How did your service shape the person you became?";
       "What's the funniest thing that happened during your service?";
       "If you could talk to a young person considering enlisting, what would you say?" ]);
    ("Adventures & Experiences",
     [ "What's the greatest adventure you've ever had?";
       "Where is the most memorable place you've ever traveled?";
       "Tell me about a time you stepped completely outside your comfort zone.";
       "What's the most spontaneous thing you've ever done?";
       "Is there an experience that fundamentally changed how you see the world?";
       "What's a hobby or passion that has brought you the most joy?";
       "Describe a perfect day doing something you love.";
       "What's a risk you took that paid off — or didn't?";
       "Tell me about a time you were truly awestruck.";
       "What's on your bucket list that you still hope to do?" ]);
    ("Health & Resilience",
     [ "Have you faced a serious health challenge? How did you cope?";
       "What kept you strong during the hardest period of your life?";
       "How did your family support you through a difficult time?";
       "What did you learn about yourself through adversity?";
       "Has a loss or hardship changed your perspective on life?";
       "What advice would you give someone going through something similar?";
       "How do you take care of your mental and emotional health?";
       "Who or what gave you hope when things looked dark?" ]);
    ("Cultural Heritage & Traditions",
     [ "What is your cultural or ethnic heritage?";
       "What traditions from your culture are most important to you?";
       "Are there family customs you'd like to see continue?";
       "What language(s) were spoken in your home growing up?";
       "Tell me about a food or recipe that connects you to your heritage.";
       "What cultural values were instilled in you?";
       "How has your heritage shaped your identity?";
       "Is there a family history or origin story that's been passed down?" ]);
    ("Reflection & Legacy",
     [ "When you look back on your life, what are you most grateful for?";
       "What are you most proud of?";
       "Is there anything you wish you'd done differently?";
       "What do you want people to remember about you?";
       "If you could live one day over again, which would it be and why?";
       "What brings you the most joy right now?";
       "What does the word 'legacy' mean to you?";
       "What message would you like to leave for future generations?";
       "How would you like to be remembered by those who knew you best?";
       "If you had one more thing to say to the people you love, what would it be?" ])
  ].

Definition LEGACY_TYPE_CATEGORIES_literal : list (string * list string) :=
  [
    ("Full Life Story",
     [ "Childhood & Growing Up";
       "Family & Relationships";
       "Career & Professional Life";
       "Values & Life Lessons";
       "Adventures & Experiences";
       "Reflection & Legacy" ]);
    ("Words of Wisdom",
     [ "Values & Life Lessons";
       "Reflection & Legacy" ]);
    ("Growing Up",
     [ "Childhood & Growing Up";
       "Cultural Heritage & Traditions" ]);
    ("Professional Life: My Career",
     [ "Career & Professional Life";
       "Values & Life Lessons" ]);
    ("Love & Family",
     [ "Family & Relationships";
       "Reflection & Legacy" ]);
    ("Military & Service",
     [ "Military & Service";
       "Values & Life Lessons";
       "Reflection & Legacy" ]);
    ("Faith & Spiritual Journey",
     [ "Faith & Spirituality";
       "Values & Life Lessons";
       "Reflection & Legacy" ]);
    ("A Specific Chapter",
     [ "Adventures & Experiences";
       "Health & Resilience";
       "Reflection & Legacy" ])
  ].

Definition THEME_TO_CATEGORY_literal : list (string * string) :=
  [
    ("Family & Relationships", "Family & Relationships");
    ("Career & Professional Life", "Career & Professional Life");
    ("Education & Learning", "Childhood & Growing Up");
    ("Travel & Adventures", "Adventures & Experiences");
    ("Faith & Spirituality", "Faith & Spirituality");
    ("Health & Overcoming Challenges", "Health & Resilience");
    ("Hobbies & Passions", "Adventures & Experiences");
    ("Community & Volunteering", "Cultural Heritage & Traditions");
    ("Military Service", "Military & Service");
    ("Cultural Heritage & Traditions", "Cultural Heritage & Traditions");
    ("Life lessons & general advice", "Values & Life Lessons");
    ("Relationship & marriage wisdom", "Family & Relationships");
    ("Parenting insights", "Family & Relationships");
    ("Career & professional guidance", "Career & Professional Life");
    ("Financial lessons learned", "Values & Life Lessons");
    ("Health & wellness advice", "Health & Resilience");
    ("Faith & spiritual guidance", "Faith & Spirituality");
    ("Dealing with adversity & resilience", "Health & Resilience");
    ("Happiness & finding purpose", "Values & Life Lessons");
    ("Mistakes I learned from", "Values & Life Lessons");
    ("Family life & home", "Family & Relationships");
    ("Neighborhood & community", "Cultural Heritage & Traditions");
    ("School days & friendships", "Childhood & Growing Up");
    ("Cultural traditions & holidays", "Cultural Heritage & Traditions");
    ("Pivotal moments & turning points", "Values & Life Lessons");
    ("Games, toys & entertainment of the era", "Childhood & Growing Up");
    ("Food, meals & family recipes", "Cultural Heritage & Traditions");
    ("Summer vacations & adventures", "Adventures & Experiences");
    ("Challenges & how I overcame them", "Health & Resilience");
    ("The historical era I grew up in", "Cultural Heritage & Traditions");
    ("How I got started & early career", "Career & Professional Life");
    ("Mentors & people who shaped my path", "Career & Professional Life");
    ("Major accomplishments & proud moments", "Career & Professional Life");
    ("Failures, setbacks & what I learned", "Health & Resilience");
    ("Leadership philosophy & management style", "Career & Professional Life");
    ("Industry changes I witnessed or drove", "Career & Professional Life");
    ("Work-life balance & sacrifices", "Family & Relationships");
    ("Advice for the next generation in my field", "Values & Life Lessons");
    ("The legacy I left at my workplace", "Reflection & Legacy");
    ("Transition to retirement", "Reflection & Legacy");
    ("My love story / marriage", "Family & Relationships");
    ("Being a parent", "Family & Relationships");
    ("Being a grandparent", "Family & Relationships");
    ("My parents & the family I came from", "Family & Relationships");
    ("Siblings & extended family", "Family & Relationships");
    ("Lifelong friendships", "Family & Relationships");
    ("Chosen family & community bonds", "Cultural Heritage & Traditions");
    ("How we met / how it all began", "Family & Relationships");
    ("Traditions & rituals we built together", "Cultural Heritage & Traditions");
    ("Challenges we faced & overcame", "Health & Resilience");
    ("Everyday moments that defined us", "Family & Relationships");
    ("Lessons I learned about love & commitment", "Values & Life Lessons");
    ("Funny stories & inside jokes", "Family & Relationships");
    ("What I want them to know", "Reflection & Legacy");
    ("Basic training & early days", "Military & Service");
    ("Deployments & duty stations", "Military & Service");
    ("Combat experiences", "Military & Service");
    ("Brotherhood & camaraderie", "Military & Service");
    ("Leadership & lessons learned", "Values & Life Lessons");
    ("Impact on family & home life", "Family & Relationships");
    ("Transition to civilian life", "Military & Service");
    ("How service shaped who I am", "Reflection & Legacy");
    ("Honoring fallen comrades", "Military & Service");
    ("Funny stories & lighter moments", "Military & Service");
    ("Foundational beliefs & values", "Faith & Spirituality");
    ("Key moments of spiritual growth", "Faith & Spirituality");
    ("How faith carried me through hard times", "Faith & Spirituality");
    ("Community & fellowship", "Cultural Heritage & Traditions");
    ("Doubts, questions & honest wrestling", "Faith & Spirituality");
    ("Prayers that were answered", "Faith & Spirituality");
    ("Spiritual mentors & teachers", "Faith & Spirituality");
    ("Faith traditions I want to pass down", "Faith & Spirituality");
    ("How my faith evolved over time", "Faith & Spirituality");
    ("It changed who I am", "Reflection & Legacy");
    ("It's a story my family should know", "Family & Relationships");
    ("It involved incredible people", "Family & Relationships");
    ("It was an adventure or unique experience", "Adventures & Experiences");
    ("I overcame something difficult", "Health & Resilience");
    ("It shaped my values or beliefs", "Values & Life Lessons");
    ("It's a piece of history", "Cultural Heritage & Traditions");
    ("It's simply a great story", "Adventures & Experiences")
  ].

(** ** The catalog ([legacy_data.py])

    A follow-up question has the keys [key], [question] and [type], and
    either [options] (radio, multiselect) or [placeholder] (text). *)

Inductive question_type : Type := radio | multiselect | text.

Record follow_up_question : Type := {
  key : string;
  question : string;
  type : question_type;
  options : option (list string);
  placeholder : option string
}.

Record legacy_type_data : Type := {
  icon : string;
  description : string;
  follow_up_questions : list follow_up_question
}.

Definition LEGACY_TYPES : list (string * legacy_type_data) :=
  [
    ("Full Life Story",
     {| icon := "📖";
        description := "A comprehensive journey through your entire life — from earliest memories to today. This is the most complete legacy, capturing every chapter.";
        follow_up_questions :=
        [ {| key := "time_depth";
           question := "How far back would you like to go?";
           type := radio;
           options := Some
            [ "As far back as I can remember";
              "Starting from my teenage years";
              "Starting from adulthood" ];
           placeholder := None |};
          {| key := "themes";
           question := "Which life themes are most important to include? (Select all that apply)";
           type := multiselect;
           options := Some
            [ "Family & Relationships";
              "Career & Professional Life";
              "Education & Learning";
              "Travel & Adventures";
              "Faith & Spirituality";
              "Health & Overcoming Challenges";
              "Hobbies & Passions";
              "Community & Volunteering";
              "Military Service";
              "Cultural Heritage & Traditions" ];
           placeholder := None |};
          {| key := "tone";
           question := "What tone or feel should the story have?";
           type := radio;
           options := Some
            [ "Warm and conversational — like sitting on the porch together";
              "Reflective and thoughtful — lessons learned along the way";
              "Celebratory and uplifting — highlighting the best moments";
              "Honest and raw — the full truth, good and hard" ];
           placeholder := None |};
          {| key := "estimated_length";
           question := "How extensive should the final piece be?";
           type := radio;
           options := Some
            [ "A concise overview (10-20 pages / 30-60 min of audio)";
              "A detailed narrative (50-100 pages / 2-4 hours of audio)";
              "A comprehensive memoir (100+ pages / 5+ hours of audio)" ];
           placeholder := None |} ] |});
    ("Words of Wisdom",
     {| icon := "💡";
        description := "The life lessons, values, and advice you want to pass down. What do you know now that you wish you'd known sooner?";
        follow_up_questions :=
        [ {| key := "wisdom_topics";
           question := "What areas of wisdom would you like to share? (Select all that apply)";
           type := multiselect;
           options := Some
            [ "Life lessons & general advice";
              "Relationship & marriage wisdom";
              "Parenting insights";
              "Career & professional guidance";
              "Financial lessons learned";
              "Health & wellness advice";
              "Faith & spiritual guidance";
              "Dealing with adversity & resilience";
              "Happiness & finding purpose";
              "Mistakes I learned from" ];
           placeholder := None |};
          {| key := "format_pref";
           question := "How would you like the wisdom presented?";
           type := radio;
           options := Some
            [ "Short, memorable sayings and principles";
              "Stories that illustrate each lesson";
              "Letters addressed to specific people";
              "A mix of stories, advice, and reflections" ];
           placeholder := None |};
          {| key := "tone";
           question := "What tone feels right?";
           type := radio;
           options := Some
            [ "Gentle and encouraging";
              "Direct and no-nonsense";
              "Humorous and lighthearted";
              "Deeply personal and heartfelt" ];
           placeholder := None |} ] |});
    ("Growing Up",
     {| icon := "🌱";
        description := "The story of your childhood and formative years — the people, places, and moments that shaped who you became.";
        follow_up_questions :=
        [ {| key := "era_focus";
           question := "Which period would you like to focus on most?";
           type := radio;
           options := Some
            [ "Early childhood (birth to age 10)";
              "Pre-teen and teenage years (10-18)";
              "The full span of growing up (birth through leaving home)" ];
           placeholder := None |};
          {| key := "growing_up_themes";
           question := "What aspects of growing up are most important to capture? (Select all that apply)";
           type := multiselect;
           options := Some
            [ "Family life & home";
              "Neighborhood & community";
              "School days & friendships";
              "Cultural traditions & holidays";
              "Pivotal moments & turning points";
              "Games, toys & entertainment of the era";
              "Food, meals & family recipes";
              "Summer vacations & adventures";
              "Challenges & how I overcame them";
              "The historical era I grew up in" ];
           placeholder := None |};
          {| key := "setting_detail";
           question := "How important is it to paint a picture of the time and place?";
           type := radio;
           options := Some
            [ "Very important — I want readers to feel like they're there";
              "Somewhat — mention key details but focus on the stories";
              "Not very — the stories and people matter most" ];
           placeholder := None |} ] |});
    ("Professional Life: My Career",
     {| icon := "💼";
        description := "Your professional journey — the jobs, mentors, breakthroughs, and lessons from your working life.";
        follow_up_questions :=
        [ {| key := "career_scope";
           question := "What part of your career would you like to focus on?";
           type := radio;
           options := Some
            [ "My entire career arc, start to finish";
              "A specific role or company that defined me";
              "A particular industry or field I worked in";
              "My entrepreneurial journey / business I built" ];
           placeholder := None |};
          {| key := "career_themes";
           question := "Which professional themes matter most? (Select all that apply)";
           type := multiselect;
           options := Some
            [ "How I got started & early career";
              "Mentors & people who shaped my path";
              "Major accomplishments & proud moments";
              "Failures, setbacks & what I learned";
              "Leadership philosophy & management style";
              "Industry changes I witnessed or drove";
              "Work-life balance & sacrifices";
              "Advice for the next generation in my field";
              "The legacy I left at my workplace";
              "Transition to retirement" ];
           placeholder := None |};
          {| key := "detail_level";
           question := "How technical or detailed should the career story be?";
           type := radio;
           options := Some
            [ "Keep it accessible — anyone should be able to enjoy it";
              "Some industry detail — for people familiar with my field";
              "In-depth — a record for professionals and colleagues" ];
           placeholder := None |} ] |});
    ("Love & Family",
     {| icon := "❤️";
        description := "The story of your most important relationships — your partner, your children, your family bonds.";
        follow_up_questions :=
        [ {| key := "relationship_focus";
           question := "Which relationships would you like to focus on? (Select all that apply)";
           type := multiselect;
           options := Some
            [ "My love story / marriage";
              "Being a parent";
              "Being a grandparent";
              "My parents & the family I came from";
              "Siblings & extended family";
              "Lifelong friendships";
              "Chosen family & community bonds" ];
           placeholder := None |};
          {| key := "family_themes";
           question := "What aspects of these relationships matter most? (Select all that apply)";
           type := multiselect;
           options := Some
            [ "How we met / how it all began";
              "Traditions & rituals we built together";
              "Challenges we faced & overcame";
              "Everyday moments that defined us";
              "Lessons I learned about love & commitment";
              "Funny stories & inside jokes";
              "What I want them to know" ];
           placeholder := None |};
          {| key := "tone";
           question := "What tone feels right for these stories?";
           type := radio;
           options := Some
            [ "Romantic and sentimental";
              "Warm and down-to-earth";
              "Funny and affectionate";
              "Deeply honest — the real story" ];
           placeholder := None |} ] |});
    ("Military & Service",
     {| icon := "🎖️";
        description := "Your time in uniform — the service, sacrifice, camaraderie, and experiences that shaped you.";
        follow_up_questions :=
        [ {| key := "service_scope";
           question := "What branch and era of service?";
           type := text;
           options := None;
           placeholder := Some "e.g., US Army, 1968-1972 / Navy, 1990-2010" |};
          {| key := "service_themes";
           question := "Which aspects of your service are most important to capture? (Select all that apply)";
           type := multiselect;
           options := Some
            [ "Basic training & early days";
              "Deployments & duty stations";
              "Combat experiences";
              "Brotherhood & camaraderie";
              "Leadership & lessons learned";
              "Impact on family & home life";
              "Transition to civilian life";
              "How service shaped who I am";
              "Honoring fallen comrades";
              "Funny stories & lighter moments" ];
           placeholder := None |};
          {| key := "sensitivity";
           question := "Are there aspects of your service you'd prefer to keep private?";
           type := radio;
           options := Some
            [ "I'm an open book — capture it all";
              "Some topics are off-limits — I'll let you know as we go";
              "I'd like to focus on the positive and skip the difficult parts" ];
           placeholder := None |} ] |});
    ("Faith & Spiritual Journey",
     {| icon := "🙏";
        description := "Your spiritual path — how faith has guided, challenged, and sustained you through life.";
        follow_up_questions :=
        [ {| key := "faith_scope";
           question := "What best describes your spiritual journey?";
           type := radio;
           options := Some
            [ "Lifelong faith in one tradition";
              "A journey across different beliefs or denominations";
              "Coming to faith later in life";
              "A spiritual but not religious path";
              "A complex relationship with faith" ];
           placeholder := None |};
          {| key := "faith_themes";
           question := "What aspects of your faith journey matter most? (Select all that apply)";
           type := multiselect;
           options := Some
            [ "Foundational beliefs & values";
              "Key moments of spiritual growth";
              "How faith carried me through hard times";
              "Community & fellowship";
              "Doubts, questions & honest wrestling";
              "Prayers that were answered";
              "Spiritual mentors & teachers";
              "Faith traditions I want to pass down";
              "How my faith evolved over time" ];
           placeholder := None |} ] |});
    ("A Specific Chapter",
     {| icon := "📌";
        description := "One particular period, event, or experience you want to preserve in detail — a move, an adventure, a challenge overcome.";
        follow_up_questions :=
        [ {| key := "chapter_description";
           question := "Briefly describe the chapter or experience you want to capture:";
           type := text;
           options := None;
           placeholder := Some "e.g., The year we lived in Italy, My battle with cancer, Starting my business from scratch" |};
          {| key := "chapter_timeframe";
           question := "Roughly how long did this chapter span?";
           type := radio;
           options := Some
            [ "A single event or moment";
              "Days to weeks";
              "Months";
              "A year or two";
              "Several years" ];
           placeholder := None |};
          {| key := "chapter_themes";
           question := "What makes this chapter worth preserving? (Select all that apply)";
           type := multiselect;
           options := Some
            [ "It changed who I am";
              "It's a story my family should know";
              "It involved incredible people";
              "It was an adventure or unique experience";
              "I overcame something difficult";
              "It shaped my values or beliefs";
              "It's a piece of history";
              "It's simply a great story" ];
           placeholder := None |} ] |})
  ].

(** ** Exceptions

    Fallible steps return [pyerr + A]; [x ← e; k] propagates the first
    exception, as Python does. *)

#[global] Instance pyerr_ret : MRet (sum pyerr) := λ A x, inr x.
#[global] Instance pyerr_bind : MBind (sum pyerr) :=
  λ A B f m, match m with inl e => inl e | inr x => f x end.

(** A left fold whose step may raise: a [for] loop over [xs] that updates
    one local variable. *)
Fixpoint for_each {A B : Type} (body : A → B → pyerr + A) (acc : A) (xs : list B)
  : pyerr + A :=
  match xs with
  | [] => inr acc
  | x :: xs' => acc' ← body acc x; for_each body acc' xs'
  end.

(** ** The heap of shared list objects

    The value lists of [QUESTIONS_BY_CATEGORY] and
    [LEGACY_TYPE_CATEGORIES] and the lists handed back to the caller are
    mutable Python objects.  A location is an index into the heap; objects
    are never freed; allocation appends.  Lists that never leave
    [generate_questions] (its local [categories]) are plain values. *)

Abbreviation loc := nat (only parsing).
Abbreviation heap := (list (list string)) (only parsing).

Definition alloc (h : heap) (xs : list string) : loc * heap :=
  (length h, h ++ [xs]).

(** The current contents of the list object at [l]. *)
Definition read (h : heap) (l : loc) : list string := default [] (h !! l).

(** In-place mutation of the list object at [l] (append, delete, item
    assignment, ...: any change of its contents). *)
Definition mutate (h : heap) (l : loc) (xs : list string) : heap := <[l := xs]> h.

(** Evaluation of a dict display whose values are list displays: each
    list is allocated, left to right. *)
Fixpoint alloc_display (kvs : list (string * list string)) (h : heap)
  : list (string * loc) * heap :=
  match kvs with
  | [] => ([], h)
  | (k, xs) :: kvs' =>
      let '(l, h1) := alloc h xs in
      let '(d, h2) := alloc_display kvs' h1 in
      ((k, l) :: d, h2)
  end.

(** The value an ordered dict of list objects denotes in heap [h]. *)
Definition contents (h : heap) (d : list (string * loc)) : list (string * list string) :=
  prod_map id (read h) <$> d.

(** ** [generate_questions]

    The three module globals are looked up when the function runs; they
    are the parameters of this section.  *)

(** [t.get(k)] on a dict with string keys: hashing a list or a dict
    raises [TypeError]; any other non-string key is simply absent. *)
Definition table_get {V : Type} (t : gmap string V) (k : pyval) : pyerr + option V :=
  match k with
  | PyStr s => inr (t !! s)
  | PyList _ | PyDict _ => inl TypeError
  | PyNone | PyInt _ => inr None
  end.

Section generator.
Context (QUESTIONS_BY_CATEGORY LEGACY_TYPE_CATEGORIES : gmap string loc).
Context (THEME_TO_CATEGORY : gmap string string).

(** [if mapped and mapped not in categories: categories.append(mapped)];
    [None] and the empty string are falsy. *)
Definition append_mapped (categories : list string) (mapped : option string)
  : list string :=
  match mapped with
  | Some c =>
      if bool_decide (c ≠ "") && bool_decide (c ∉ categories)
      then categories ++ [c]
      else categories
  | None => categories
  end.

(** [mapped = THEME_TO_CATEGORY.get(theme)] followed by the guarded
    append (lines 358-360 and 362-364). *)
Definition expand_theme (categories : list string) (theme : pyval)
  : pyerr + list string :=
  mapped ← table_get THEME_TO_CATEGORY theme;
  mret (append_mapped categories mapped).

(** The body of the loop over [scoping.items()] (lines 356-364). *)
Definition expand_answer (categories : list string) (answer : pyval)
  : pyerr + list string :=
  match answer with
  | PyList themes => for_each expand_theme categories themes
  | PyStr _ => expand_theme categories answer
  | PyNone | PyInt _ | PyDict _ => inr categories
  end.

(** Lines 366-368. *)
Definition close_with_reflection (categories : list string) : list string :=
  if bool_decide ("Reflection & Legacy" ∉ categories)
  then categories ++ ["Reflection & Legacy"]
  else categories.

(** Lines 348-368: the local list [categories] when the assembly loop
    starts. *)
Definition select_categories (project_data : list (string * pyval)) (h : heap)
  : pyerr + list string :=
  legacy_type ← from_option inr (inl KeyError) (dict_get project_data "legacy_type");
  defaults ← table_get LEGACY_TYPE_CATEGORIES legacy_type;
  let categories := from_option (read h) [] defaults in
  scoping ← match dict_get project_data "scoping_details" with
            | None => inr []
            | Some (PyDict kvs) => inr kvs
            | Some _ => inl AttributeError
            end;
  categories ← for_each (λ cats qa, expand_answer cats qa.2) categories scoping;
  mret (close_with_reflection categories).

(** Lines 372-375: [questions] is the pool's list object or the empty
    default; a non-empty one is copied into a new list object. *)
Fixpoint assemble (categories : list string) (result : list (string * loc)) (h : heap)
  : list (string * loc) * heap :=
  match categories with
  | [] => (result, h)
  | cat :: rest =>
      let questions := from_option (read h) [] (QUESTIONS_BY_CATEGORY !! cat) in
      if bool_decide (questions ≠ [])
      then let '(l, h') := alloc h questions in
           assemble rest (dict_set result cat l) h'
      else assemble rest result h
  end.

Definition generate_questions (project_data : list (string * pyval)) (h : heap)
  : pyerr + (list (string * loc) * heap) :=
  categories ← select_categories project_data h;
  mret (assemble categories [] h).

End generator.

(** ** The module as shipped

    Importing [question_bank] evaluates the two dict displays with list
    values in source order, which creates the list objects of
    [module_heap]. *)

Definition module_init : list (string * loc) * list (string * loc) * heap :=
  let '(qbc, h1) := alloc_display QUESTIONS_BY_CATEGORY_literal [] in
  let '(ltc, h2) := alloc_display LEGACY_TYPE_CATEGORIES_literal h1 in
  (qbc, ltc, h2).

Definition QUESTIONS_BY_CATEGORY : gmap string loc := dict_display module_init.1.1.
Definition LEGACY_TYPE_CATEGORIES : gmap string loc := dict_display module_init.1.2.
Definition THEME_TO_CATEGORY : gmap string string := dict_display THEME_TO_CATEGORY_literal.
Definition module_heap : heap := module_init.2.

(** [generate_questions] with the shipped globals. *)
Abbreviation shipped_generate_questions :=
  (generate_questions QUESTIONS_BY_CATEGORY LEGACY_TYPE_CATEGORIES THEME_TO_CATEGORY).


(** ** [build_project_data] ([app.py])

    The wizard's session state, as far as [build_project_data] reads it,
    and the two clock readings it takes. *)

Record session_state : Type := {
  st_legacy_type : pyval;
  st_scoping_answers : gmap string pyval;
  st_audiences : list pyval;
  st_audience_detail : string;
  st_delivery_formats : list pyval;
  st_subject_name : string;
  st_subject_relationship : string;
  st_timeline : string;
  st_additional_notes : string
}.

(** [LEGACY_TYPES[lt]]. *)
Definition legacy_types_item (lt : pyval) : pyerr + legacy_type_data :=
  match lt with
  | PyStr s => from_option inr (inl KeyError) (dict_get LEGACY_TYPES s)
  | PyList _ | PyDict _ => inl TypeError
  | PyNone | PyInt _ => inl KeyError
  end.

(** The loop that builds [scoping], keyed by the question text; a
    question without a stored answer gets the empty string. *)
Definition build_scoping (lt_data : legacy_type_data) (answers : gmap string pyval)
  : list (string * pyval) :=
  foldl (λ scoping q,
           dict_set scoping (question q) (default (PyStr "") (answers !! key q)))
        [] (follow_up_questions lt_data).

Definition build_project_data (st : session_state) (project_id created_at : string)
  : pyerr + list (string * pyval) :=
  lt_data ← legacy_types_item (st_legacy_type st);
  mret [ ("project_id", PyStr project_id);
         ("created_at", PyStr created_at);
         ("legacy_type", st_legacy_type st);
         ("legacy_description", PyStr (description lt_data));
         ("subject", PyDict [ ("name", PyStr (st_subject_name st));
                              ("relationship", PyStr (st_subject_relationship st)) ]);
         ("scoping_details", PyDict (build_scoping lt_data (st_scoping_answers st)));
         ("target_audience", PyList (st_audiences st));
         ("audience_notes", PyStr (st_audience_detail st));
         ("delivery_formats", PyList (st_delivery_formats st));
         ("timeline", PyStr (st_timeline st));
         ("additional_notes", PyStr (st_additional_notes st)) ].

(** The state [init_state] sets up, with a legacy type chosen and the
    given scoping answers stored. *)
Definition session (lt : string) (answers : list (string * pyval)) : session_state :=
  {| st_legacy_type := PyStr lt;
     st_scoping_answers := dict_display answers;
     st_audiences := [];
     st_audience_detail := "";
     st_delivery_formats := [];
     st_subject_name := "";
     st_subject_relationship := "";
     st_timeline := "";
     st_additional_notes := "" |}.

(** ** Vocabulary used to state the properties *)

(** The smallest [project_data] the selector can work on. *)
Definition scope (lt : pyval) (scoping : list (string * pyval)) : list (string * pyval) :=
  [ ("legacy_type", lt); ("scoping_details", PyDict scoping) ].

(** Inputs on which no step of [generate_questions] raises: the key
    [legacy_type] is present and hashable, [scoping_details] is absent or
    a dict, and every element of a list answer is hashable. *)
Definition hashable (v : pyval) : bool :=
  match v with
  | PyList _ | PyDict _ => false
  | PyNone | PyInt _ | PyStr _ => true
  end.

Definition answer_ok (answer : pyval) : bool :=
  match answer with
  | PyList themes => forallb hashable themes
  | _ => true
  end.

Definition accepts (project_data : list (string * pyval)) : bool :=
  match dict_get project_data "legacy_type" with
  | None => false
  | Some lt =>
      hashable lt &&
      match dict_get project_data "scoping_details" with
      | None => true
      | Some (PyDict kvs) => forallb (λ qa, answer_ok qa.2) kvs
      | Some _ => false
      end
  end.

(** The scoping dict the selector iterates over. *)
Definition scoping_of (project_data : list (string * pyval)) : list (string * pyval) :=
  match dict_get project_data "scoping_details" with
  | Some (PyDict kvs) => kvs
  | _ => []
  end.

(** The labels the scan looks up, in scan order: the elements of each
    list answer, and each scalar string answer. *)
Definition scanned_labels (scoping : list (string * pyval)) : list pyval :=
  scoping ≫= λ qa,
    match qa.2 with
    | PyList themes => themes
    | PyStr s => [PyStr s]
    | _ => []
    end.

(** What [t.get(v)] finds for a hashable [v]: only a string can be a
    key of the tables. *)
Definition lookup_label {V : Type} (t : gmap string V) (v : pyval) : option V :=
  match v with
  | PyStr s => t !! s
  | _ => None
  end.

(** Python truthiness of a mapped category name: the empty string is
    falsy. *)
Definition truthy (c : string) : option string :=
  if bool_decide (c ≠ "") then Some c else None.

(** The categories the scanned labels map to, in scan order, with
    repetitions.  A falsy mapped name is skipped, as [if mapped] does;
    no shipped entry is falsy. *)
Definition theme_categories (theme_map : gmap string string) (labels : list pyval)
  : list string :=
  omap (λ v, lookup_label theme_map v ≫= truthy) labels.

(** Append [x] unless it is already there. *)
Definition push_new (acc : list string) (x : string) : list string :=
  if bool_decide (x ∈ acc) then acc else acc ++ [x].

(** De-duplication by first occurrence. *)
Fixpoint dedup_first (l : list string) : list string :=
  match l with
  | [] => []
  | x :: l' => x :: filter (λ y, y ≠ x) (dedup_first l')
  end.

(** The value of [pool[c]] in heap [h], for a dict [pool] of list
    objects. *)
Definition pool_get (pool : gmap string loc) (h : heap) (c : string)
  : option (list string) :=
  l ← pool !! c; h !! l.

(** What the assembly loop sees for category [c]: the pool's list, or
    the empty default. *)
Definition questions_for (pool : gmap string loc) (h : heap) (c : string) : list string :=
  from_option (read h) [] (pool !! c).

(** The default categories of an archetype as the selector copies them. *)
Definition defaults_for (table : gmap string loc) (h : heap) (lt : pyval) : list string :=
  from_option (read h) [] (lookup_label table lt).

(** The archetype named by [project_data]. *)
Definition legacy_type_of (project_data : list (string * pyval)) : pyval :=
  default PyNone (dict_get project_data "legacy_type").

(** The category sequence the selector arrives at, written as one fold:
    start from the defaults, then append each theme-derived category and
    finally the closing category, each only if absent. *)
Definition selected (table : gmap string loc) (theme_map : gmap string string)
    (h : heap) (project_data : list (string * pyval)) : list string :=
  foldl push_new
        (defaults_for table h (legacy_type_of project_data))
        (theme_categories theme_map (scanned_labels (scoping_of project_data))
         ++ ["Reflection & Legacy"]).

(** Every list object a table refers to exists in heap [h]. *)
Definition live (table : gmap string loc) (h : heap) : Prop :=
  map_Forall (λ _ l, l < length h) table.

(** A category paired with the questions [qf] yields for it. *)
Definition with_questions (qf : string → list string) (c : string)
  : string * list string := (c, qf c).

(** The value-level effect of the assembly loop on the result dict, given
    the list [qf c] the pool yields for each category [c]. *)
Definition collect (qf : string → list string) (categories : list string)
    (result : list (string * list string)) : list (string * list string) :=
  foldl (λ r c, if bool_decide (qf c ≠ []) then dict_set r c (qf c) else r)
        result categories.

(** Position of the first occurrence of [c] in a category sequence. *)
Fixpoint index_of (c : string) (l : list string) : option nat :=
  match l with
  | [] => None
  | x :: l' => if decide (x = c) then Some 0 else S <$> index_of c l'
  end.

(** The questions the shipped master pool holds for category [c] when the
    module has just been imported. *)
Definition master_questions (c : string) : list string :=
  questions_for QUESTIONS_BY_CATEGORY module_heap c.

(** The category sequence selected for [project_data] by the shipped
    tables. *)
Definition shipped_selected (project_data : list (string * pyval)) : list string :=
  selected LEGACY_TYPE_CATEGORIES THEME_TO_CATEGORY module_heap project_data.

(** The shipped default categories of an archetype. *)
Definition shipped_defaults (lt : pyval) : list string :=
  defaults_for LEGACY_TYPE_CATEGORIES module_heap lt.

(** The category sequence of the guide generated for [project_data] right
    after import: the keys of the returned ordered dict. *)
Definition categories_for (project_data : list (string * pyval)) : pyerr + list string :=
  out ← shipped_generate_questions project_data module_heap;
  mret out.1.*1.

(** The wizard's path from a session to the guide's categories:
    [build_project_data] followed by [generate_questions] (step 5 of
    [app.py]). *)
Definition guide_categories (st : session_state) (project_id created_at : string)
  : pyerr + list string :=
  project_data ← build_project_data st project_id created_at;
  categories_for project_data.

(** Every option label of every multiselect follow-up question of the
    catalog, in declaration order. *)
Definition multiselect_labels : list string :=
  LEGACY_TYPES ≫= λ entry,
    follow_up_questions entry.2 ≫= λ q,
      match type q with
      | multiselect => default [] (options q)
      | radio | text => []
      end.

(** ** Sample inputs *)

(** "Full Life Story" with two themes that map to one category which is
    also a default, and a scalar answer that repeats a theme. *)
Definition overlapping_scope : list (string * pyval) :=
  scope (PyStr "Full Life Story")
    [ ("Which life themes are most important to include? (Select all that apply)",
       PyList [ PyStr "Travel & Adventures"; PyStr "Hobbies & Passions";
                PyStr "Military Service"; PyStr "Faith & Spirituality" ]);
      ("What tone or feel should the story have?", PyStr "Military Service") ].

(** "Full Life Story" with the themes of the order-preservation example. *)
Definition travel_then_military : list (string * pyval) :=
  scope (PyStr "Full Life Story")
    [ ("How far back would you like to go?", PyStr "As far back as I can remember");
      ("Which life themes are most important to include? (Select all that apply)",
       PyList [ PyStr "Travel & Adventures"; PyStr "Military Service" ]) ].

(** A master pool that lacks "Health & Resilience", an archetype no table
    knows, one label no table knows and one label that maps to the
    missing category. *)
Definition pool_without_health : gmap string loc :=
  delete "Health & Resilience" QUESTIONS_BY_CATEGORY.

Definition degenerate_scope : list (string * pyval) :=
  scope (PyStr "Pets & Gardens")
    ([] ++ ("Which themes?",
            PyList ([PyStr "Travel & Adventures"]
                    ++ PyStr "Stamp collecting"
                    :: [PyStr "I overcame something difficult"]))
        :: []).

(** What the call on [overlapping_scope] returns right after import. *)
Definition sample_result : list (string * loc) :=
  match shipped_generate_questions overlapping_scope module_heap with
  | inr (r, _) => r
  | inl _ => []
  end.

Definition sample_heap : heap :=
  match shipped_generate_questions overlapping_scope module_heap with
  | inr (_, h) => h
  | inl _ => []
  end.

(** The catalog entry of "Military & Service". *)
Definition military_service_data : legacy_type_data :=
  default {| icon := ""; description := ""; follow_up_questions := [] |}
          (dict_get LEGACY_TYPES "Military & Service").

(** A session for "Military & Service" with a free-text answer, a theme
    selection and an answer left over under a key of another archetype. *)
Definition military_session : session_state :=
  session "Military & Service"
    [ ("service_scope", PyStr "US Army, 1968-1972");
      ("service_themes", PyList [PyStr "Combat experiences"; PyStr "Honoring fallen comrades"]);
      ("wisdom_topics", PyList [PyStr "Parenting insights"]) ].

(** ** [_safe] ([pdf_generator.py])

    [_safe] works on single characters, so here a Python [str] is the
    list of its code points. *)

(** The [replacements] dict of [_safe], in source order: em-dash, en-dash,
    the two single and the two double curly quotes, ellipsis, bullet and
    non-breaking space, each with its ASCII stand-in. *)
Definition replacements : list (N * list N) :=
  [ (0x2014, [45; 45]);
    (0x2013, [45]);
    (0x2018, [39]);
    (0x2019, [39]);
    (0x201c, [34]);
    (0x201d, [34]);
    (0x2026, [46; 46; 46]);
    (0x2022, [45]);
    (0x00a0, [32]) ]%N.

(** [text.replace(char, repl)] for a one-character [char]. *)
Definition str_replace (char : N) (repl : list N) (text : list N) : list N :=
  text ≫= λ c, if decide (c = char) then repl else [c].

(** [text.encode("latin-1", errors="replace").decode("latin-1")]: a code
    point above 255 becomes a question mark. *)
Definition latin1_replace (text : list N) : list N :=
  (λ c, if decide (c < 256)%N then c else 63%N) <$> text.

Definition _safe (text : list N) : list N :=
  latin1_replace
    (foldl (λ text cr, str_replace cr.1 cr.2 text) text replacements).

(** A code point the core PDF fonts can take as it is: in latin-1 and
    not the non-breaking space. *)
Definition plain (c : N) : Prop := (c < 256)%N ∧ c ≠ 0xa0%N.

(** ** The wizard ([app.py])

    The script is run once per user interaction.  A run sees the values
    the widgets of the current step return and at most one pressed
    button; these, the clock readings taken by [build_project_data] and
    the outcome of writing the project file are the inputs of a run.
    Widget values are taken as the type the widget returns (a string, a
    list of strings, a flag); which of the offered options they are is
    left open.  Drawing the page, the PDF and text exports are not part
    of the model. *)

(** An entry of [AUDIENCE_OPTIONS] or [DELIVERY_FORMATS]. *)
Record option_card : Type := {
  label : string;
  card_icon : string;
  card_description : string
}.

Definition AUDIENCE_OPTIONS : list option_card :=
  [ {| label := "My Children";
       card_icon := "👶";
       card_description := "Stories and lessons for your sons and daughters" |};
    {| label := "My Grandchildren";
       card_icon := "👧";
       card_description := "Connecting generations — so they know where they come from" |};
    {| label := "Future Generations";
       card_icon := "🌳";
       card_description := "A lasting record for descendants you may never meet" |};
    {| label := "My Spouse / Partner";
       card_icon := "💑";
       card_description := "A gift of memories and love for your life partner" |};
    {| label := "Extended Family";
       card_icon := "👨‍👩‍👧‍👦";
       card_description := "Siblings, nieces, nephews, cousins — the wider family" |};
    {| label := "Friends & Community";
       card_icon := "🤝";
       card_description := "People beyond family who are part of your story" |};
    {| label := "Professional Colleagues";
       card_icon := "🏢";
       card_description := "Mentees, coworkers, and people in your industry" |};
    {| label := "The General Public";
       card_icon := "🌍";
       card_description := "Your story deserves to be shared widely" |};
    {| label := "Myself";
       card_icon := "🪞";
       card_description := "A personal reflection — capturing your story for your own sake" |} ].

Definition DELIVERY_FORMATS : list option_card :=
  [ {| label := "Written Book / Memoir";
       card_icon := "📕";
       card_description := "A printed or digital book — a classic, lasting keepsake" |};
    {| label := "Audio Recording";
       card_icon := "🎙️";
       card_description := "Stories told in your own voice — intimate and personal" |};
    {| label := "Video Documentary";
       card_icon := "🎬";
       card_description := "Visual storytelling with interviews and imagery" |};
    {| label := "Digital Archive";
       card_icon := "💻";
       card_description := "An interactive digital collection — stories, photos, and documents" |};
    {| label := "Scrapbook / Photo Essay";
       card_icon := "📸";
       card_description := "A visual journey pairing photos with narrative" |};
    {| label := "Letters Collection";
       card_icon := "✉️";
       card_description := "Personal letters to specific people — to be read now or later" |};
    {| label := "Not sure yet";
       card_icon := "🤔";
       card_description := "We'll help you decide the best format as we go" |} ].

Definition TIMELINE_OPTIONS : list string :=
  [ "I'd like to start right away";
    "Within the next month";
    "Within the next few months";
    "No rush — I'm just exploring for now" ].
Definition TOTAL_STEPS : nat := 6.

(** [st.session_state]: the wizard step, the nine answer fields read
    by [build_project_data], and the question bank state.  The two
    "saved_project_..." keys are absent until they are first set. *)
Record wizard_state : Type := {
  step : nat;
  fields : session_state;
  generated_questions : list (string * list string);
  priority_map : list (string * string);
  questions_generated : bool;
  saved_project_data : option (list (string * pyval));
  saved_project_path : option string
}.

(** [init_state] on a new session. *)
Definition init_state : wizard_state :=
  {| step := 1;
     fields := {| st_legacy_type := PyNone;
                  st_scoping_answers := ∅;
                  st_audiences := [];
                  st_audience_detail := "";
                  st_delivery_formats := [];
                  st_subject_name := "";
                  st_subject_relationship := "";
                  st_timeline := "";
                  st_additional_notes := "" |};
     generated_questions := [];
     priority_map := [];
     questions_generated := false;
     saved_project_data := None;
     saved_project_path := None |}.

Definition set_step (n : nat) (s : wizard_state) : wizard_state :=
  {| step := n;
     fields := fields s;
     generated_questions := generated_questions s;
     priority_map := priority_map s;
     questions_generated := questions_generated s;
     saved_project_data := saved_project_data s;
     saved_project_path := saved_project_path s |}.

Definition set_fields (f : session_state) (s : wizard_state) : wizard_state :=
  {| step := step s;
     fields := f;
     generated_questions := generated_questions s;
     priority_map := priority_map s;
     questions_generated := questions_generated s;
     saved_project_data := saved_project_data s;
     saved_project_path := saved_project_path s |}.

Definition set_saved (pd : list (string * pyval)) (path : option string)
    (s : wizard_state) : wizard_state :=
  {| step := step s;
     fields := fields s;
     generated_questions := generated_questions s;
     priority_map := priority_map s;
     questions_generated := questions_generated s;
     saved_project_data := Some pd;
     saved_project_path := path |}.

Definition set_questions (questions : list (string * list string))
    (priorities : list (string * string)) (generated : bool)
    (s : wizard_state) : wizard_state :=
  {| step := step s;
     fields := fields s;
     generated_questions := questions;
     priority_map := priorities;
     questions_generated := generated;
     saved_project_data := saved_project_data s;
     saved_project_path := saved_project_path s |}.

Definition set_legacy_type (lt : pyval) (f : session_state) : session_state :=
  {| st_legacy_type := lt;
     st_scoping_answers := st_scoping_answers f;
     st_audiences := st_audiences f;
     st_audience_detail := st_audience_detail f;
     st_delivery_formats := st_delivery_formats f;
     st_subject_name := st_subject_name f;
     st_subject_relationship := st_subject_relationship f;
     st_timeline := st_timeline f;
     st_additional_notes := st_additional_notes f |}.

Definition set_scoping_answers (answers : gmap string pyval) (f : session_state)
  : session_state :=
  {| st_legacy_type := st_legacy_type f;
     st_scoping_answers := answers;
     st_audiences := st_audiences f;
     st_audience_detail := st_audience_detail f;
     st_delivery_formats := st_delivery_formats f;
     st_subject_name := st_subject_name f;
     st_subject_relationship := st_subject_relationship f;
     st_timeline := st_timeline f;
     st_additional_notes := st_additional_notes f |}.

(** The four assignments of step 3. *)
Definition set_audience (audiences : list string) (detail name relationship : string)
    (f : session_state) : session_state :=
  {| st_legacy_type := st_legacy_type f;
     st_scoping_answers := st_scoping_answers f;
     st_audiences := PyStr <$> audiences;
     st_audience_detail := detail;
     st_delivery_formats := st_delivery_formats f;
     st_subject_name := name;
     st_subject_relationship := relationship;
     st_timeline := st_timeline f;
     st_additional_notes := st_additional_notes f |}.

(** The three assignments of step 4. *)
Definition set_delivery (formats : list string) (timeline notes : string)
    (f : session_state) : session_state :=
  {| st_legacy_type := st_legacy_type f;
     st_scoping_answers := st_scoping_answers f;
     st_audiences := st_audiences f;
     st_audience_detail := st_audience_detail f;
     st_delivery_formats := PyStr <$> formats;
     st_subject_name := st_subject_name f;
     st_subject_relationship := st_subject_relationship f;
     st_timeline := timeline;
     st_additional_notes := notes |}.

(** How a run ends: normally, with an exception of the modelled code, or
    with the project file not written. *)
Inductive failure : Type :=
  | Raised (e : pyerr)
  | SaveFailed.

Inductive nav : Type := Back | Next.

Inductive button6 : Type :=
  | AddQuestion (cat_idx : nat)
  | AddCategory
  | Back6
  | Finish.

#[global] Instance button6_eq_dec : EqDecision button6.
Proof. solve_decision. Defined.

(** Step 2: what the scoping widgets return, by question key. *)
Record scoping_widgets : Type := {
  radio_value : string → string;
  multiselect_value : string → list string;
  text_value : string → string
}.

(** Step 6: what the editing widgets return, by category and question
    index. *)
Record edit_widgets : Type := {
  edit_text : nat → nat → string;
  edit_pri : nat → nat → string;
  edit_delete : nat → nat → bool;
  add_text : nat → string;
  new_cat_name : string;
  new_cat_q : string
}.

(** The [answers] dict step 2 builds from its widgets. *)
Definition read_answers (w : scoping_widgets) (questions : list follow_up_question)
  : gmap string pyval :=
  foldl (λ answers q,
           <[key q := match type q with
                      | radio => PyStr (radio_value w (key q))
                      | multiselect => PyList (PyStr <$> multiselect_value w (key q))
                      | text => PyStr (text_value w (key q))
                      end]> answers)
        ∅ questions.

(** The labels of the ticked check boxes, in table order (steps 3, 4). *)
Definition selected_labels (cards : list option_card) (checked : string → bool)
  : list string :=
  filter (λ l, checked l = true) (label <$> cards).

(** The guide [generate_questions] returns for [project_data], as the
    value it denotes.  The application never changes a list of the
    question bank in place, so the heap stays an extension of
    [module_heap], in which every call returns this value. *)
Definition guide_for (project_data : list (string * pyval))
  : pyerr + list (string * list string) :=
  out ← shipped_generate_questions project_data module_heap;
  mret (contents out.2 out.1).

Section wizard.
(** [str.strip] without arguments. *)
Context (strip : string → string).

(** Step 1: a "Select" button exists for each catalog archetype. *)
Definition run_step1 (s : wizard_state) (select : option string)
  : wizard_state * option failure :=
  match select with
  | Some name =>
      if bool_decide (name ∈ LEGACY_TYPES.*1)
      then (set_step 2 (set_fields (set_legacy_type (PyStr name) (fields s)) s), None)
      else (s, None)
  | None => (s, None)
  end.

Definition run_step2 (s : wizard_state) (w : scoping_widgets) (pressed : option nav)
  : wizard_state * option failure :=
  match legacy_types_item (st_legacy_type (fields s)) with
  | inl e => (s, Some (Raised e))
  | inr data =>
      let answers := read_answers w (follow_up_questions data) in
      match pressed with
      | Some Back => (set_step 1 s, None)
      | Some Next =>
          (set_step 3 (set_fields (set_scoping_answers answers (fields s)) s), None)
      | None => (s, None)
      end
  end.

Definition run_step3 (s : wizard_state) (checked : string → bool)
    (subject_relationship subject_name audience_detail : string)
    (pressed : option nav) : wizard_state * option failure :=
  let selected_audiences := selected_labels AUDIENCE_OPTIONS checked in
  match pressed with
  | Some Back => (set_step 2 s, None)
  | Some Next =>
      if bool_decide (selected_audiences = []) then (s, None)
      else if bool_decide (strip subject_name = "") then (s, None)
      else (set_step 4
              (set_fields
                 (set_audience selected_audiences audience_detail subject_name
                    subject_relationship (fields s)) s), None)
  | None => (s, None)
  end.

Definition run_step4 (s : wizard_state) (checked : string → bool)
    (timeline additional_notes : string) (pressed : option nav)
  : wizard_state * option failure :=
  let selected_formats := selected_labels DELIVERY_FORMATS checked in
  match pressed with
  | Some Back => (set_step 3 s, None)
  | Some Next =>
      if bool_decide (selected_formats = []) then (s, None)
      else (set_step 5
              (set_fields
                 (set_delivery selected_formats timeline additional_notes (fields s))
                 s), None)
  | None => (s, None)
  end.

(** Step 5 builds the project data for the brief on every run, and
    again when "Confirm" is pressed. *)
Definition run_step5 (s : wizard_state) (brief_clock confirm_clock : string * string)
    (saved : option string) (pressed : option nav) : wizard_state * option failure :=
  match legacy_types_item (st_legacy_type (fields s)) with
  | inl e => (s, Some (Raised e))
  | inr _ =>
      match build_project_data (fields s) brief_clock.1 brief_clock.2 with
      | inl e => (s, Some (Raised e))
      | inr _ =>
          match pressed with
          | Some Back => (set_step 1 s, None)
          | Some Next =>
              match build_project_data (fields s) confirm_clock.1 confirm_clock.2 with
              | inl e => (s, Some (Raised e))
              | inr project_data =>
                  match saved with
                  | None => (s, Some SaveFailed)
                  | Some saved_path =>
                      let s1 := set_saved project_data (Some saved_path) s in
                      match guide_for project_data with
                      | inl e => (s1, Some (Raised e))
                      | inr guide => (set_step 6 (set_questions guide [] true s1), None)
                      end
                  end
              end
          | None => (s, None)
          end
      end
  end.

(** One pass of the inner editing loop: the text box, priority box and
    delete box of question [q_idx] of category [cat_idx].  The stored
    question itself only provides the widgets' initial values. *)
Definition edit_question (w : edit_widgets) (cat_idx : nat)
    (acc : list string * list (string * string)) (q_idx : nat)
  : list string * list (string * string) :=
  let new_text := strip (edit_text w cat_idx q_idx) in
  if negb (edit_delete w cat_idx q_idx) && bool_decide (new_text ≠ "")
  then (acc.1 ++ [new_text], dict_set acc.2 new_text (edit_pri w cat_idx q_idx))
  else acc.

(** The body of the loop over the categories, up to the test of
    [edited_list]. *)
Definition edit_category (w : edit_widgets) (pressed : option button6)
    (cat_idx : nat) (q_list : list string) (updated_priorities : list (string * string))
  : list string * list (string * string) :=
  let acc := foldl (edit_question w cat_idx) ([], updated_priorities)
                   (seq 0 (length q_list)) in
  if bool_decide (pressed = Some (AddQuestion cat_idx))
  then let new_q := strip (add_text w cat_idx) in
       if bool_decide (new_q ≠ "")
       then (acc.1 ++ [new_q], dict_set acc.2 new_q "Nice to Have")
       else acc
  else acc.

Definition edit_categories (w : edit_widgets) (pressed : option button6)
    (questions : list (string * list string))
  : list (string * list string) * list (string * string) :=
  foldl (λ acc ic,
           let edited := edit_category w pressed ic.1 ic.2.2 acc.2 in
           (if bool_decide (edited.1 ≠ [])
            then dict_set acc.1 ic.2.1 edited.1
            else acc.1,
            edited.2))
        ([], []) (zip (seq 0 (length questions)) questions).

(** "Add a New Category". *)
Definition add_category (w : edit_widgets) (pressed : option button6)
    (updated : list (string * list string) * list (string * string))
  : list (string * list string) * list (string * string) :=
  if bool_decide (pressed = Some AddCategory)
     && bool_decide (strip (new_cat_name w) ≠ "")
     && bool_decide (strip (new_cat_q w) ≠ "")
  then (dict_set updated.1 (strip (new_cat_name w)) [strip (new_cat_q w)],
        dict_set updated.2 (strip (new_cat_q w)) "Nice to Have")
  else updated.

(** Step 6 applies the edits on every run and keeps them only if some
    category is left. *)
Definition run_step6 (s : wizard_state) (clock : string * string)
    (w : edit_widgets) (pressed : option button6) : wizard_state * option failure :=
  match (match saved_project_data s with
         | Some _ => inr s
         | None => pd ← build_project_data (fields s) clock.1 clock.2;
                   mret (set_saved pd (saved_project_path s) s)
         end) with
  | inl e => (s, Some (Raised e))
  | inr s1 =>
      let updated := add_category w pressed
                       (edit_categories w pressed (generated_questions s1)) in
      let s2 := if bool_decide (updated.1 ≠ [])
                then set_questions updated.1 updated.2 (questions_generated s1) s1
                else s1 in
      match pressed with
      | Some Back6 => (set_step 5 s2, None)
      | _ => (s2, None)
      end
  end.

(** One run of the script. *)
Inductive event : Type :=
  | Run1 (select : option string)
  | Run2 (w : scoping_widgets) (pressed : option nav)
  | Run3 (checked : string → bool)
         (subject_relationship subject_name audience_detail : string)
         (pressed : option nav)
  | Run4 (checked : string → bool) (timeline additional_notes : string)
         (pressed : option nav)
  | Run5 (brief_clock confirm_clock : string * string) (saved : option string)
         (pressed : option nav)
  | Run6 (clock : string * string) (w : edit_widgets) (pressed : option button6).

Definition wizard_run (s : wizard_state) (ev : event) : wizard_state * option failure :=
  match step s, ev with
  | 1, Run1 select => run_step1 s select
  | 2, Run2 w pressed => run_step2 s w pressed
  | 3, Run3 checked rel name detail pressed => run_step3 s checked rel name detail pressed
  | 4, Run4 checked timeline notes pressed => run_step4 s checked timeline notes pressed
  | 5, Run5 c1 c2 saved pressed => run_step5 s c1 c2 saved pressed
  | 6, Run6 clock w pressed => run_step6 s clock w pressed
  | _, _ => (s, None)
  end.

(** The session states a user can bring about. *)
Inductive reachable : wizard_state → Prop :=
  | reachable_init : reachable init_state
  | reachable_run s ev : reachable s → reachable (wizard_run s ev).1.

(** A guide worth showing: some category, no category without
    questions, no empty question. *)
Definition guide_ok (questions : list (string * list string)) : Prop :=
  questions ≠ []
  ∧ Forall (λ cq, cq.2 ≠ [] ∧ Forall (λ q, q ≠ "") cq.2) questions.

(** What every reachable session state satisfies. *)
Definition wizard_inv (s : wizard_state) : Prop :=
  1 ≤ step s ≤ TOTAL_STEPS
  ∧ (2 ≤ step s →
     ∃ lt, st_legacy_type (fields s) = PyStr lt ∧ lt ∈ LEGACY_TYPES.*1)
  ∧ map_Forall (λ _ v, answer_ok v = true) (st_scoping_answers (fields s))
  ∧ (3 ≤ step s →
     ∃ lt lt_data w,
       st_legacy_type (fields s) = PyStr lt
       ∧ dict_get LEGACY_TYPES lt = Some lt_data
       ∧ st_scoping_answers (fields s) = read_answers w (follow_up_questions lt_data))
  ∧ (4 ≤ step s →
     st_audiences (fields s) ≠ [] ∧ strip (st_subject_name (fields s)) ≠ "")
  ∧ (5 ≤ step s → st_delivery_formats (fields s) ≠ [])
  ∧ (step s = 6 → questions_generated s = true ∧ is_Some (saved_project_data s))
  ∧ (questions_generated s = true → guide_ok (generated_questions s)).

End wizard.

(** The space character is stripped; a stand-in for [str.strip] in
    examples whose strings have no other white space. *)
Fixpoint lstrip_spaces (s : string) : string :=
  match s with
  | String (Ascii.Ascii false false false false false true false false) s' =>
      lstrip_spaces s'
  | _ => s
  end.

Definition strip_spaces (s : string) : string :=
  String.rev (lstrip_spaces (String.rev (lstrip_spaces s))).

(** A sequence of runs, one after the other. *)
Definition run_events (strip : string → string) (s : wizard_state) (evs : list event)
  : wizard_state :=
  foldl (λ s ev, (wizard_run strip s ev).1) s evs.

(** A session taken through the five steps to the question bank:
    "Military & Service", two themes, two audiences, one format. *)
Definition sample_scoping_widgets : scoping_widgets :=
  {| radio_value := λ _, "I'm an open book — capture it all";
     multiselect_value := λ _, ["Combat experiences"; "Impact on family & home life"];
     text_value := λ _, "US Army, 1968-1972" |}.

Definition sample_events : list event :=
  [ Run1 (Some "Military & Service");
    Run2 sample_scoping_widgets (Some Next);
    Run3 (λ l, bool_decide (l ∈ ["My Children"; "My Grandchildren"]))
         "I'm capturing a parent's story" "Grandpa Joe" "" (Some Next);
    Run4 (λ l, bool_decide (l = "Audio Recording"))
         "Within the next month" "" (Some Next);
    Run5 ("20261104_093000", "2026-11-04T09:30:00")
         ("20261104_093002", "2026-11-04T09:30:02")
         (Some "projects/legacy_Grandpa_Joe_20261104_093002.json") (Some Next) ].

Definition sample_wizard_state : wizard_state :=
  run_events strip_spaces init_state sample_events.

(** Editing widgets that show the stored questions untouched. *)
Definition untouched_widgets (questions : list (string * list string)) : edit_widgets :=
  {| edit_text := λ i j, default "" (cq ← questions !! i; cq.2 !! j);
     edit_pri := λ _ _, "Nice to Have";
     edit_delete := λ _ _, false;
     add_text := λ _, "";
     new_cat_name := "";
     new_cat_q := "" |}.

(** Editing widgets with every delete box ticked. *)
Definition delete_all_widgets : edit_widgets :=
  {| edit_text := λ _ _, "";
     edit_pri := λ _ _, "Optional";
     edit_delete := λ _ _, true;
     add_text := λ _, "";
     new_cat_name := "";
     new_cat_q := "" |}.

(** Editing widgets that add a category named like an existing one. *)
Definition add_existing_category_widgets (questions : list (string * list string))
  : edit_widgets :=
  {| edit_text := edit_text (untouched_widgets questions);
     edit_pri := λ _ _, "Nice to Have";
     edit_delete := λ _ _, false;
     add_text := λ _, "";
     new_cat_name := " Values & Life Lessons ";
     new_cat_q := "What would you tell a young recruit?" |}.

(** * Properties *)

(** ** Lists: appending if absent, and first-occurrence de-duplication *)

Section list_facts.
Implicit Types (x y : string) (l acc : list string).

Lemma filter_all (P : string → Prop) `{!∀ y, Decision (P y)} l :
  (∀ y, y ∈ l → P y) → filter P l = l.
Proof.
  induction l as [|y l IH]; intros Hall; [done|].
  rewrite filter_cons_True by (apply Hall; left).
  f_equal. apply IH. intros z Hz. apply Hall. by right.
Qed.

Lemma filter_filter_ne_notin acc x l :
  filter (λ y, y ∉ acc ++ [x]) l = filter (λ y, y ∉ acc) (filter (λ y, y ≠ x) l).
Proof.
  induction l as [|y l IH]; [done|].
  destruct (decide (y = x)) as [->|Hne].
  - rewrite filter_cons_False by (rewrite elem_of_app, list_elem_of_singleton; tauto).
    by rewrite (filter_cons_False (λ y, y ≠ x)) by tauto.
  - rewrite (filter_cons_True (λ y, y ≠ x)) by done.
    rewrite !filter_cons, IH.
    destruct (decide (y ∉ acc ++ [x])) as [Hy|Hy];
      destruct (decide (y ∉ acc)) as [Ha|Ha]; try done; exfalso.
    + apply Hy, elem_of_app. left. by apply dec_stable.
    + apply Hy. intros [?|?%list_elem_of_singleton]%elem_of_app; done.
Qed.

Lemma filter_ne_notin_in acc x l :
  x ∈ acc →
  filter (λ y, y ∉ acc) (filter (λ y, y ≠ x) l) = filter (λ y, y ∉ acc) l.
Proof.
  intros Hx. induction l as [|y l IH]; [done|].
  rewrite !filter_cons.
  destruct (decide (y ≠ x)) as [Hne|Heq]; rewrite ?filter_cons;
    destruct (decide (y ∉ acc)) as [Ha|Ha]; rewrite ?IH; try done.
  exfalso. apply dec_stable in Heq. subst. done.
Qed.

Lemma foldl_push_new acc l :
  foldl push_new acc l = acc ++ filter (λ y, y ∉ acc) (dedup_first l).
Proof.
  revert acc. induction l as [|x l IH]; intros acc; simpl.
  - by rewrite app_nil_r.
  - rewrite IH. unfold push_new. rewrite filter_cons.
    case_bool_decide as Hx; destruct (decide (x ∉ acc)) as [Hn|Hn]; try done.
    + by rewrite filter_ne_notin_in.
    + by rewrite filter_filter_ne_notin, <- app_assoc.
Qed.

Lemma dedup_first_foldl l : dedup_first l = foldl push_new [] l.
Proof.
  rewrite foldl_push_new. simpl. symmetry. apply filter_all.
  intros y _. apply not_elem_of_nil.
Qed.

Lemma elem_of_dedup_first x l : x ∈ dedup_first l ↔ x ∈ l.
Proof.
  induction l as [|y l IH]; simpl; [done|].
  rewrite !elem_of_cons, list_elem_of_filter, IH.
  destruct (decide (x = y)); naive_solver.
Qed.

Lemma NoDup_dedup_first l : NoDup (dedup_first l).
Proof.
  induction l as [|y l IH]; simpl; [constructor|].
  constructor.
  - rewrite list_elem_of_filter. naive_solver.
  - by apply NoDup_filter.
Qed.

Lemma dedup_first_NoDup l : NoDup l → dedup_first l = l.
Proof.
  induction 1 as [|x l Hx _ IH]; simpl; [done|].
  rewrite IH. f_equal. apply filter_all. intros y Hy ->. done.
Qed.

Lemma dedup_first_app_NoDup acc l :
  NoDup acc →
  dedup_first (acc ++ l) = acc ++ filter (λ y, y ∉ acc) (dedup_first l).
Proof.
  intros Hacc. rewrite dedup_first_foldl, foldl_app, <- dedup_first_foldl.
  rewrite dedup_first_NoDup by done. apply foldl_push_new.
Qed.

Lemma NoDup_foldl_push_new acc l : NoDup acc → NoDup (foldl push_new acc l).
Proof.
  intros Hacc. rewrite foldl_push_new. apply NoDup_app. split_and!; [done| |].
  - intros y Hy. rewrite list_elem_of_filter. naive_solver.
  - apply NoDup_filter, NoDup_dedup_first.
Qed.

Lemma elem_of_foldl_push_new x acc l :
  x ∈ foldl push_new acc l ↔ x ∈ acc ∨ x ∈ l.
Proof.
  rewrite foldl_push_new, elem_of_app, list_elem_of_filter, elem_of_dedup_first.
  destruct (decide (x ∈ acc)); naive_solver.
Qed.

Lemma foldl_push_new_prefix acc l : acc `prefix_of` foldl push_new acc l.
Proof. rewrite foldl_push_new. by apply prefix_app_r. Qed.

End list_facts.

(** ** The scan over the scoping answers *)

Section scan_facts.
Context (QUESTIONS_BY_CATEGORY LEGACY_TYPE_CATEGORIES : gmap string loc).
Context (THEME_TO_CATEGORY : gmap string string).

Local Abbreviation expand_theme := (expand_theme THEME_TO_CATEGORY).
Local Abbreviation expand_answer := (expand_answer THEME_TO_CATEGORY).
Local Abbreviation select_categories :=
  (select_categories LEGACY_TYPE_CATEGORIES THEME_TO_CATEGORY).

Lemma bind_inr {A B} (x : A) (f : A → pyerr + B) : inr x ≫= f = f x.
Proof. done. Qed.

Lemma bind_inl {A B} (e : pyerr) (f : A → pyerr + B) : inl e ≫= f = inl e.
Proof. done. Qed.

Lemma table_get_hashable {V} (t : gmap string V) (k : pyval) :
  hashable k = true → table_get t k = inr (lookup_label t k).
Proof. by destruct k. Qed.

Lemma table_get_unhashable {V} (t : gmap string V) (k : pyval) :
  hashable k = false → table_get t k = inl TypeError.
Proof. by destruct k. Qed.

Lemma append_mapped_push_new (categories : list string) (mapped : option string) :
  append_mapped categories mapped
  = from_option (push_new categories) categories (mapped ≫= truthy).
Proof.
  destruct mapped as [c|]; [|done]. simpl. unfold truthy, push_new.
  case_bool_decide; [|done]. simpl.
  repeat case_bool_decide; done.
Qed.

Lemma expand_theme_hashable (categories : list string) (theme : pyval) :
  hashable theme = true →
  expand_theme categories theme
  = inr (foldl push_new categories (theme_categories THEME_TO_CATEGORY [theme])).
Proof.
  intros Hh. unfold expand_theme. rewrite table_get_hashable by done.
  simpl. unfold mret, pyerr_ret. f_equal.
  rewrite append_mapped_push_new. unfold theme_categories. simpl.
  by destruct (lookup_label THEME_TO_CATEGORY theme ≫= truthy).
Qed.

Lemma theme_categories_app (l1 l2 : list pyval) :
  theme_categories THEME_TO_CATEGORY (l1 ++ l2)
  = theme_categories THEME_TO_CATEGORY l1 ++ theme_categories THEME_TO_CATEGORY l2.
Proof. apply omap_app. Qed.

Lemma for_each_expand_theme (themes : list pyval) (categories : list string) :
  forallb hashable themes = true →
  for_each expand_theme categories themes
  = inr (foldl push_new categories (theme_categories THEME_TO_CATEGORY themes)).
Proof.
  revert categories. induction themes as [|t themes IH]; intros cats Hall; [done|].
  simpl in Hall. apply andb_true_iff in Hall as [Ht Hall]. simpl for_each.
  rewrite expand_theme_hashable, bind_inr by done.
  change (t :: themes) with ([t] ++ themes).
  rewrite theme_categories_app, foldl_app. by apply IH.
Qed.

Lemma expand_answer_ok (categories : list string) (q : string) (answer : pyval) :
  answer_ok answer = true →
  expand_answer categories answer
  = inr (foldl push_new categories
           (theme_categories THEME_TO_CATEGORY (scanned_labels [(q, answer)]))).
Proof.
  intros Hok. unfold scanned_labels. simpl. rewrite app_nil_r.
  destruct answer as [| |s|themes|]; try done.
  - by apply expand_theme_hashable.
  - by apply for_each_expand_theme.
Qed.

Lemma scanned_labels_cons (qa : string * pyval) (scoping : list (string * pyval)) :
  scanned_labels (qa :: scoping) = scanned_labels [qa] ++ scanned_labels scoping.
Proof. unfold scanned_labels. simpl. by rewrite app_nil_r. Qed.

Lemma scanned_labels_app (s1 s2 : list (string * pyval)) :
  scanned_labels (s1 ++ s2) = scanned_labels s1 ++ scanned_labels s2.
Proof. apply bind_app. Qed.

Lemma for_each_expand_answer (scoping : list (string * pyval)) (categories : list string) :
  forallb (λ qa, answer_ok qa.2) scoping = true →
  for_each (λ cats qa, expand_answer cats qa.2) categories scoping
  = inr (foldl push_new categories
           (theme_categories THEME_TO_CATEGORY (scanned_labels scoping))).
Proof.
  revert categories.
  induction scoping as [|[q a] scoping IH]; intros cats Hall; [done|].
  simpl in Hall. apply andb_true_iff in Hall as [Ha Hall]. simpl for_each.
  rewrite (scanned_labels_cons (q, a) scoping), theme_categories_app, foldl_app.
  rewrite (expand_answer_ok _ q), bind_inr by done.
  by apply IH.
Qed.

Lemma close_with_reflection_push_new (categories : list string) :
  close_with_reflection categories = push_new categories "Reflection & Legacy".
Proof. unfold close_with_reflection, push_new. by repeat case_bool_decide. Qed.

(** On an accepted input the first half of [generate_questions] returns
    the fold [selected]. *)
Lemma select_categories_accepts (pd : list (string * pyval)) (h : heap) :
  accepts pd = true →
  select_categories pd h = inr (selected LEGACY_TYPE_CATEGORIES THEME_TO_CATEGORY h pd).
Proof.
  unfold accepts, select_categories, selected, legacy_type_of, scoping_of, defaults_for.
  destruct (dict_get pd "legacy_type") as [lt|]; [|done].
  intros [Hlt Hsc]%andb_prop. simpl.
  rewrite table_get_hashable by done. simpl.
  destruct (dict_get pd "scoping_details") as [[| | | |kvs]|]; try done; simpl.
  - rewrite for_each_expand_answer by done. simpl.
    by rewrite close_with_reflection_push_new, foldl_app.
  - by rewrite close_with_reflection_push_new.
Qed.

(** ... and on any other input it raises. *)
Lemma for_each_expand_theme_raises (themes : list pyval) (categories : list string) :
  forallb hashable themes = false →
  for_each expand_theme categories themes = inl TypeError.
Proof.
  revert categories. induction themes as [|t themes IH]; intros cats Hall; [done|].
  simpl in Hall. simpl for_each. destruct (hashable t) eqn:Ht.
  - rewrite expand_theme_hashable, bind_inr by done. by apply IH.
  - unfold expand_theme. by rewrite table_get_unhashable.
Qed.

Lemma for_each_expand_answer_raises (scoping : list (string * pyval)) (categories : list string) :
  forallb (λ qa, answer_ok qa.2) scoping = false →
  for_each (λ cats qa, expand_answer cats qa.2) categories scoping = inl TypeError.
Proof.
  revert categories.
  induction scoping as [|[q a] scoping IH]; intros cats Hall; [done|].
  simpl in Hall. simpl for_each. destruct (answer_ok a) eqn:Ha.
  - rewrite (expand_answer_ok _ q), bind_inr by done. by apply IH.
  - destruct a; try done. simpl. by rewrite for_each_expand_theme_raises.
Qed.

Lemma select_categories_rejects (pd : list (string * pyval)) :
  accepts pd = false → ∃ e, ∀ h, select_categories pd h = inl e.
Proof.
  unfold accepts, select_categories.
  destruct (dict_get pd "legacy_type") as [lt|]; [|by eexists].
  simpl. destruct (hashable lt) eqn:Hlt.
  - destruct (dict_get pd "scoping_details") as [[| | | |kvs]|] eqn:Hsc;
      try done; try (eexists; intros h; by rewrite table_get_hashable by done).
    intros Hrej. exists TypeError. intros h.
    rewrite table_get_hashable by done. simpl.
    by rewrite for_each_expand_answer_raises by done.
  - intros _. exists TypeError. intros h. by rewrite table_get_unhashable by done.
Qed.

(** Loop steps that leave the accumulator alone can be dropped. *)
Lemma for_each_skip {A B} (body : A → B → pyerr + A) (x : B) (l1 l2 : list B) (acc : A) :
  (∀ a, body a x = inr a) →
  for_each body acc (l1 ++ x :: l2) = for_each body acc (l1 ++ l2).
Proof.
  intros Hskip. revert acc. induction l1 as [|y l1 IH]; intros acc; simpl.
  - by rewrite Hskip.
  - destruct (body acc y) as [e|acc']; [done|]. rewrite !bind_inr. apply IH.
Qed.

Lemma expand_theme_unknown (categories : list string) (s : string) :
  THEME_TO_CATEGORY !! s = None → expand_theme categories (PyStr s) = inr categories.
Proof. intros Hs. unfold expand_theme. simpl. by rewrite Hs. Qed.

(** A scalar answer that is not a theme label changes nothing. *)
Lemma select_categories_skip_scalar (lt : pyval) (pre post : list (string * pyval))
    (q s : string) (h : heap) :
  THEME_TO_CATEGORY !! s = None →
  select_categories (scope lt (pre ++ (q, PyStr s) :: post)) h
  = select_categories (scope lt (pre ++ post)) h.
Proof.
  intros Hs. unfold select_categories, scope. simpl.
  destruct (table_get LEGACY_TYPE_CATEGORIES lt) as [e|defaults]; [done|].
  rewrite !bind_inr.
  rewrite (for_each_skip _ (q, PyStr s)); [done|].
  intros cats. by apply expand_theme_unknown.
Qed.

(** An element of a list answer that is not a theme label changes
    nothing. *)
Lemma select_categories_skip_element (lt : pyval) (pre post : list (string * pyval))
    (q s : string) (xs ys : list pyval) (h : heap) :
  THEME_TO_CATEGORY !! s = None →
  select_categories (scope lt (pre ++ (q, PyList (xs ++ PyStr s :: ys)) :: post)) h
  = select_categories (scope lt (pre ++ (q, PyList (xs ++ ys)) :: post)) h.
Proof.
  intros Hs. unfold select_categories, scope. simpl.
  destruct (table_get LEGACY_TYPE_CATEGORIES lt) as [e|defaults]; [done|].
  rewrite !bind_inr. f_equal.
  generalize (from_option (read h) [] defaults). intros cats. revert cats.
  induction pre as [|[q' a'] pre IH]; intros cats; simpl.
  - rewrite for_each_skip; [done|]. intros a. by apply expand_theme_unknown.
  - destruct (expand_answer cats a') as [e|cats']; [done|]. rewrite !bind_inr. apply IH.
Qed.

End scan_facts.

(** ** The heap: reading, allocating, and ordered dicts of list objects *)

Section heap_facts.
Implicit Types (h k : heap) (l : loc) (d : list (string * loc)).

Lemma read_app h k l : l < length h → read (h ++ k) l = read h l.
Proof. intros Hl. unfold read. by rewrite lookup_app_l. Qed.

Lemma read_alloc h (xs : list string) : read (h ++ [xs]) (length h) = xs.
Proof. unfold read. by rewrite list_lookup_middle. Qed.

Lemma read_lookup h l : l < length h → h !! l = Some (read h l).
Proof.
  intros Hl. unfold read. by destruct (lookup_lt_is_Some_2 h l Hl) as [xs ->].
Qed.

Lemma live_app (table : gmap string loc) h k : live table h → live table (h ++ k).
Proof.
  intros Hlive c l Hc. rewrite length_app. specialize (Hlive c l Hc). simpl in *. lia.
Qed.

Lemma questions_for_app (pool : gmap string loc) h k (c : string) :
  live pool h → questions_for pool (h ++ k) c = questions_for pool h c.
Proof.
  intros Hlive. unfold questions_for.
  destruct (pool !! c) as [l|] eqn:Hc; [|done]. simpl.
  apply read_app. by apply (Hlive c l).
Qed.

Lemma defaults_for_app (table : gmap string loc) h k (lt : pyval) :
  live table h → defaults_for table (h ++ k) lt = defaults_for table h lt.
Proof.
  intros Hlive. unfold defaults_for.
  destruct (lookup_label table lt) as [l|] eqn:Hc; [|done]. simpl.
  apply read_app. destruct lt; try done. by apply (Hlive s l).
Qed.

Lemma contents_app h k d :
  Forall (λ l, l < length h) d.*2 → contents (h ++ k) d = contents h d.
Proof.
  rewrite Forall_fmap. intros Hd. unfold contents. apply Forall_fmap_ext.
  eapply Forall_impl; [done|]. intros [c l] Hl. simpl in Hl.
  unfold prod_map. simpl. by rewrite read_app.
Qed.

Lemma contents_dict_set h d (c : string) l :
  contents h (dict_set d c l) = dict_set (contents h d) c (read h l).
Proof.
  induction d as [|[c' l'] d IH]; [done|].
  change (contents h ((c', l') :: d)) with ((c', read h l') :: contents h d).
  simpl dict_set. destruct (decide (c' = c)); [done|].
  change (contents h ((c', l') :: dict_set d c l))
    with ((c', read h l') :: contents h (dict_set d c l)).
  by rewrite IH.
Qed.

Lemma contents_keys h d : (contents h d).*1 = d.*1.
Proof.
  unfold contents. rewrite <- list_fmap_compose. apply list_fmap_ext.
  by intros _ [c l] _.
Qed.

Lemma dict_set_locs (P : loc → Prop) d (c : string) l :
  Forall P d.*2 → P l → Forall P (dict_set d c l).*2.
Proof.
  intros Hd Hl. induction d as [|[c' l'] d IH]; simpl.
  - by constructor.
  - rewrite fmap_cons, Forall_cons in Hd. destruct Hd as [Hl' Hd].
    destruct (decide (c' = c)); rewrite fmap_cons; constructor; auto.
Qed.

End heap_facts.

(** ** The assembly loop *)

Section assemble_facts.
Context (QUESTIONS_BY_CATEGORY : gmap string loc).
Implicit Types (h k : heap) (cats ks : list string).

Local Abbreviation assemble := (assemble QUESTIONS_BY_CATEGORY).
Local Abbreviation questions_for := (questions_for QUESTIONS_BY_CATEGORY).

Lemma collect_ext (qf qf' : string → list string) cats r :
  (∀ c, qf c = qf' c) → collect qf cats r = collect qf' cats r.
Proof.
  intros Hext. revert r. induction cats as [|c cats IH]; intros r; [done|].
  unfold collect in *. simpl. by rewrite Hext, IH.
Qed.

(** The loop only allocates; what it returns denotes [collect] of the
    pool's lists as they were when the loop started; every list it
    adds to the result is a new object. *)
Lemma assemble_spec cats :
  ∀ (res : list (string * loc)) h,
    live QUESTIONS_BY_CATEGORY h →
    Forall (λ l, l < length h) res.*2 →
    ∃ r' k,
      assemble cats res h = (r', h ++ k)
      ∧ contents (h ++ k) r' = collect (questions_for h) cats (contents h res)
      ∧ Forall (λ l, l < length (h ++ k)) r'.*2
      ∧ Forall (λ l, l ∈ res.*2 ∨ length h ≤ l) r'.*2.
Proof.
  induction cats as [|cat cats IH]; intros res h Hlive Hres.
  - exists res, []. rewrite app_nil_r. split_and!; [done|done|done|].
    apply Forall_forall. auto.
  - simpl assemble. fold (questions_for h cat).
    unfold collect. simpl foldl. fold (collect (questions_for h) cats).
    case_bool_decide as Hq.
    + unfold alloc.
      destruct (IH (dict_set res cat (length h)) (h ++ [questions_for h cat]))
        as (r' & k & Hrun & Hval & Hlt & Hfresh).
      { by apply live_app. }
      { apply dict_set_locs.
        - eapply Forall_impl; [done|]. intros l Hl. rewrite length_app. simpl in *. lia.
        - rewrite length_app. simpl. lia. }
      exists r', ([questions_for h cat] ++ k). rewrite app_assoc.
      split_and!; [done| |done|].
      * rewrite Hval. rewrite contents_dict_set, read_alloc, contents_app by done.
        apply collect_ext. intros c. by apply questions_for_app.
      * eapply Forall_impl; [done|]. intros l [Hin|Hge]; simpl in *.
        -- clear -Hin. induction res as [|[c' l'] res IHres]; simpl in Hin.
           ++ apply list_elem_of_singleton in Hin. right. lia.
           ++ destruct (decide (c' = cat)); rewrite fmap_cons, elem_of_cons in Hin;
                rewrite fmap_cons, elem_of_cons.
              ** destruct Hin as [->|Hin]; [right; simpl; lia | left; by right].
              ** destruct Hin as [->|Hin]; [left; by left|].
                 destruct (IHres Hin) as [?|?]; [left; by right | by right].
        -- right. rewrite length_app in Hge. simpl in Hge. lia.
    + destruct (IH res h Hlive Hres) as (r' & k & Hrun & Hval & Hlt & Hfresh).
      exists r', k. done.
Qed.

Lemma push_new_cons_ne (x c : string) ks :
  x ≠ c → push_new (x :: ks) c = x :: push_new ks c.
Proof.
  intros Hne. unfold push_new.
  repeat case_bool_decide; try done; exfalso; set_solver.
Qed.

Lemma dict_set_with_questions (qf : string → list string) ks (c : string) :
  dict_set (with_questions qf <$> ks) c (qf c) = with_questions qf <$> push_new ks c.
Proof.
  induction ks as [|x ks IH]; [done|].
  rewrite fmap_cons. change (with_questions qf x) with (x, qf x).
  simpl dict_set. destruct (decide (x = c)) as [->|Hne].
  - unfold push_new. rewrite bool_decide_eq_true_2 by left. done.
  - by rewrite IH, push_new_cons_ne.
Qed.

(** Pool misses are skipped, repeated categories keep their first
    position. *)
Lemma collect_with_questions (qf : string → list string) cats ks :
  collect qf cats (with_questions qf <$> ks)
  = with_questions qf <$> foldl push_new ks (filter (λ c, qf c ≠ []) cats).
Proof.
  revert ks. induction cats as [|c cats IH]; intros ks; [done|].
  unfold collect in *. simpl. rewrite filter_cons.
  destruct (decide (qf c ≠ [])) as [Hq|Hq].
  - rewrite bool_decide_eq_true_2 by done. simpl.
    by rewrite dict_set_with_questions, IH.
  - rewrite bool_decide_eq_false_2 by done. apply IH.
Qed.

Lemma assemble_fresh cats h :
  live QUESTIONS_BY_CATEGORY h →
  ∃ r k,
    assemble cats [] h = (r, h ++ k)
    ∧ contents (h ++ k) r
      = with_questions (questions_for h)
          <$> dedup_first (filter (λ c, questions_for h c ≠ []) cats)
    ∧ Forall (λ l, length h ≤ l < length (h ++ k)) r.*2.
Proof.
  intros Hlive.
  destruct (assemble_spec cats [] h Hlive) as (r & k & Hrun & Hval & Hlt & Hfresh);
    [constructor|].
  exists r, k. split_and!; [done| |].
  - rewrite Hval. change (contents h []) with (with_questions (questions_for h) <$> []).
    by rewrite collect_with_questions, <- dedup_first_foldl.
  - apply Forall_forall. intros l Hl.
    rewrite Forall_forall in Hlt, Hfresh.
    destruct (Hfresh l Hl) as [Hin|Hge]; [by apply elem_of_nil in Hin|].
    split; [done|by apply Hlt].
Qed.

End assemble_facts.

(** ** The whole function, for any tables *)

Section run_facts.
Context (QUESTIONS_BY_CATEGORY LEGACY_TYPE_CATEGORIES : gmap string loc).
Context (THEME_TO_CATEGORY : gmap string string).

Local Abbreviation run :=
  (generate_questions QUESTIONS_BY_CATEGORY LEGACY_TYPE_CATEGORIES THEME_TO_CATEGORY).
Local Abbreviation questions_for := (questions_for QUESTIONS_BY_CATEGORY).
Local Abbreviation selected := (selected LEGACY_TYPE_CATEGORIES THEME_TO_CATEGORY).

Lemma generate_questions_returns (pd : list (string * pyval)) (h : heap) :
  accepts pd = true →
  run pd h = inr (assemble QUESTIONS_BY_CATEGORY (selected h pd) [] h).
Proof.
  intros Hacc. unfold generate_questions.
  by rewrite select_categories_accepts.
Qed.

Lemma generate_questions_raises (pd : list (string * pyval)) :
  accepts pd = false → ∃ e, ∀ h, run pd h = inl e.
Proof.
  intros Hrej.
  destruct (select_categories_rejects LEGACY_TYPE_CATEGORIES THEME_TO_CATEGORY pd Hrej)
    as [e He].
  exists e. intros h. unfold generate_questions. by rewrite He.
Qed.

(** The function returns exactly on the accepted inputs. *)
Lemma generate_questions_returns_iff (pd : list (string * pyval)) (h : heap) :
  (∃ out, run pd h = inr out) ↔ accepts pd = true.
Proof.
  split.
  - intros [out Hout]. destruct (accepts pd) eqn:Hacc; [done|].
    destruct (generate_questions_raises pd Hacc) as [e He].
    rewrite He in Hout. discriminate Hout.
  - intros Hacc. eexists. by apply generate_questions_returns.
Qed.

(** Only the two keys the function reads matter. *)
Lemma generate_questions_scope (pd : list (string * pyval)) (lt : pyval)
    (scoping : list (string * pyval)) (h : heap) :
  dict_get pd "legacy_type" = Some lt →
  dict_get pd "scoping_details" = Some (PyDict scoping) →
  run pd h = run (scope lt scoping) h.
Proof.
  intros Hlt Hsc. unfold generate_questions, select_categories.
  rewrite Hlt, Hsc. reflexivity.
Qed.

Lemma generate_questions_accepts (pd : list (string * pyval)) (h : heap) :
  live QUESTIONS_BY_CATEGORY h →
  accepts pd = true →
  ∃ r k,
    run pd h = inr (r, h ++ k)
    ∧ contents (h ++ k) r
      = with_questions (questions_for h)
          <$> dedup_first (filter (λ c, questions_for h c ≠ []) (selected h pd))
    ∧ Forall (λ l, length h ≤ l < length (h ++ k)) r.*2.
Proof.
  intros Hlive Hacc. rewrite generate_questions_returns by done.
  destruct (assemble_fresh QUESTIONS_BY_CATEGORY (selected h pd) h Hlive)
    as (r & k & -> & Hval & Hfresh).
  by exists r, k.
Qed.

End run_facts.

(** ** The shipped tables *)

Lemma dict_display_fold {V} (kvs : list (string * V)) (m : gmap string V) (k : string) :
  NoDup kvs.*1 →
  foldl (λ m kv, <[kv.1 := kv.2]> m) m kvs !! k
  = from_option Some (m !! k) (dict_get kvs k).
Proof.
  revert m. induction kvs as [|[k' v'] kvs IH]; intros m Hnd; [done|].
  rewrite fmap_cons in Hnd. apply NoDup_cons in Hnd as [Hk' Hnd].
  simpl. rewrite IH by done. destruct (decide (k' = k)) as [->|Hne].
  - rewrite lookup_insert_eq.
    assert (dict_get kvs k = None) as ->; [|done].
    clear -Hk'. induction kvs as [|[k2 v2] kvs IH]; [done|]. simpl.
    rewrite fmap_cons, not_elem_of_cons in Hk'. destruct Hk' as [Hne Hk'].
    simpl in Hne. destruct (decide (k2 = k)); [done|]. by apply IH.
  - by rewrite lookup_insert_ne.
Qed.

(** A dict display without repeated keys is read like the display. *)
Lemma dict_display_lookup {V} (kvs : list (string * V)) (k : string) :
  NoDup kvs.*1 → dict_display kvs !! k = dict_get kvs k.
Proof.
  intros Hnd. unfold dict_display. rewrite dict_display_fold by done.
  rewrite lookup_empty. by destruct (dict_get kvs k).
Qed.

Lemma shipped_live_pool : live QUESTIONS_BY_CATEGORY module_heap.
Proof. unfold live. compute_done. Qed.

Lemma shipped_live_defaults : live LEGACY_TYPE_CATEGORIES module_heap.
Proof. unfold live. compute_done. Qed.

(** After import, the two tables of lists hold what their displays say. *)
Lemma pool_get_declared (c : string) :
  pool_get QUESTIONS_BY_CATEGORY module_heap c = dict_get QUESTIONS_BY_CATEGORY_literal c.
Proof.
  rewrite <- dict_display_lookup by compute_done.
  assert (omap (λ l, module_heap !! l) QUESTIONS_BY_CATEGORY
          = dict_display QUESTIONS_BY_CATEGORY_literal) as <- by compute_done.
  by rewrite lookup_omap.
Qed.

Lemma defaults_declared (lt : string) :
  pool_get LEGACY_TYPE_CATEGORIES module_heap lt
  = dict_get LEGACY_TYPE_CATEGORIES_literal lt.
Proof.
  rewrite <- dict_display_lookup by compute_done.
  assert (omap (λ l, module_heap !! l) LEGACY_TYPE_CATEGORIES
          = dict_display LEGACY_TYPE_CATEGORIES_literal) as <- by compute_done.
  by rewrite lookup_omap.
Qed.

Lemma theme_declared (label : string) :
  THEME_TO_CATEGORY !! label = dict_get THEME_TO_CATEGORY_literal label.
Proof. apply dict_display_lookup. compute_done. Qed.

Lemma master_questions_declared (c : string) :
  master_questions c = default [] (dict_get QUESTIONS_BY_CATEGORY_literal c).
Proof.
  rewrite <- pool_get_declared. unfold master_questions, questions_for, pool_get, read.
  by destruct (QUESTIONS_BY_CATEGORY !! c).
Qed.

(** Every shipped default list is duplicate-free and names pooled
    categories only; every shipped theme maps to a truthy, pooled
    category; the closing category is pooled. *)
Lemma shipped_defaults_ok :
  map_Forall (λ _ l, NoDup (read module_heap l)
                     ∧ Forall (λ c, master_questions c ≠ []) (read module_heap l))
             LEGACY_TYPE_CATEGORIES.
Proof. compute_done. Qed.

Lemma shipped_themes_ok :
  map_Forall (λ _ c, c ≠ "" ∧ master_questions c ≠ []) THEME_TO_CATEGORY.
Proof. compute_done. Qed.

Lemma reflection_pooled : master_questions "Reflection & Legacy" ≠ [].
Proof. compute_done. Qed.

Lemma shipped_defaults_NoDup (lt : pyval) : NoDup (shipped_defaults lt).
Proof.
  unfold shipped_defaults, defaults_for.
  destruct lt as [| |s| |]; try constructor. simpl.
  destruct (LEGACY_TYPE_CATEGORIES !! s) as [l|] eqn:Hl; [|constructor].
  by destruct (shipped_defaults_ok s l Hl).
Qed.

Lemma shipped_defaults_pooled (lt : pyval) :
  Forall (λ c, master_questions c ≠ []) (shipped_defaults lt).
Proof.
  unfold shipped_defaults, defaults_for.
  destruct lt as [| |s| |]; try constructor. simpl.
  destruct (LEGACY_TYPE_CATEGORIES !! s) as [l|] eqn:Hl; [|constructor].
  by destruct (shipped_defaults_ok s l Hl).
Qed.

Lemma theme_categories_pooled (labels : list pyval) :
  Forall (λ c, master_questions c ≠ []) (theme_categories THEME_TO_CATEGORY labels).
Proof.
  apply Forall_forall. intros c Hc. unfold theme_categories in Hc.
  apply list_elem_of_omap in Hc as (v & _ & Hv).
  destruct v as [| |s| |]; try discriminate Hv. unfold lookup_label in Hv.
  destruct (THEME_TO_CATEGORY !! s) as [c'|] eqn:Hs; [|discriminate Hv].
  destruct (shipped_themes_ok s c' Hs) as [_ Hp].
  unfold mbind, option_bind, truthy in Hv.
  case_bool_decide; [|discriminate Hv]. by injection Hv as <-.
Qed.

(** No shipped theme maps to a falsy name, so the truthiness test never
    filters. *)
Lemma theme_categories_shipped (labels : list pyval) :
  theme_categories THEME_TO_CATEGORY labels = omap (lookup_label THEME_TO_CATEGORY) labels.
Proof.
  unfold theme_categories. apply list_omap_ext, Forall2_same_length_lookup.
  split; [done|]. intros i v v' Hv Hv'. assert (v' = v) as -> by congruence.
  destruct v as [| |s| |]; try reflexivity. unfold lookup_label.
  destruct (THEME_TO_CATEGORY !! s) as [c|] eqn:Hs; [|reflexivity].
  destruct (shipped_themes_ok s c Hs) as [Hne _].
  unfold mbind, option_bind, truthy. by rewrite bool_decide_eq_true_2.
Qed.

(** Heaps that extend the freshly imported module agree with it on the
    tables' lists. *)
Lemma shipped_questions_for (h : heap) (c : string) :
  module_heap `prefix_of` h →
  questions_for QUESTIONS_BY_CATEGORY h c = master_questions c.
Proof. intros [k ->]. apply questions_for_app, shipped_live_pool. Qed.

Lemma shipped_selected_prefix (h : heap) (pd : list (string * pyval)) :
  module_heap `prefix_of` h →
  selected LEGACY_TYPE_CATEGORIES THEME_TO_CATEGORY h pd = shipped_selected pd.
Proof.
  intros [k ->]. unfold shipped_selected, selected.
  by rewrite defaults_for_app by apply shipped_live_defaults.
Qed.

Lemma shipped_live_prefix (h : heap) :
  module_heap `prefix_of` h → live QUESTIONS_BY_CATEGORY h.
Proof. intros [k ->]. apply live_app, shipped_live_pool. Qed.

(** The selected sequence is the first-occurrence de-duplication of
    defaults, theme-derived categories and the closing category. *)
Lemma shipped_selected_dedup (pd : list (string * pyval)) :
  shipped_selected pd
  = dedup_first (shipped_defaults (legacy_type_of pd)
                 ++ theme_categories THEME_TO_CATEGORY (scanned_labels (scoping_of pd))
                 ++ ["Reflection & Legacy"]).
Proof.
  unfold shipped_selected, selected. fold (shipped_defaults (legacy_type_of pd)).
  rewrite foldl_push_new.
  by rewrite (dedup_first_app_NoDup (shipped_defaults (legacy_type_of pd)))
    by apply shipped_defaults_NoDup.
Qed.

Lemma shipped_selected_NoDup (pd : list (string * pyval)) : NoDup (shipped_selected pd).
Proof. rewrite shipped_selected_dedup. apply NoDup_dedup_first. Qed.

Lemma shipped_selected_pooled (pd : list (string * pyval)) :
  Forall (λ c, master_questions c ≠ []) (shipped_selected pd).
Proof.
  apply Forall_forall. intros c. rewrite shipped_selected_dedup, elem_of_dedup_first.
  rewrite !elem_of_app, list_elem_of_singleton. intros [Hc|[Hc| ->]].
  - revert c Hc. apply Forall_forall, shipped_defaults_pooled.
  - revert c Hc. apply Forall_forall, theme_categories_pooled.
  - apply reflection_pooled.
Qed.

(** What a call with the shipped tables returns, on any accepted input
    and in any heap that extends the freshly imported module. *)
Lemma shipped_run (pd : list (string * pyval)) (h : heap) :
  module_heap `prefix_of` h →
  accepts pd = true →
  ∃ r k,
    shipped_generate_questions pd h = inr (r, h ++ k)
    ∧ contents (h ++ k) r = with_questions master_questions <$> shipped_selected pd
    ∧ r.*1 = shipped_selected pd
    ∧ Forall (λ l, length h ≤ l < length (h ++ k)) r.*2.
Proof.
  intros Hpre Hacc.
  destruct (generate_questions_accepts QUESTIONS_BY_CATEGORY LEGACY_TYPE_CATEGORIES
              THEME_TO_CATEGORY pd h (shipped_live_prefix h Hpre) Hacc)
    as (r & k & Hrun & Hval & Hfresh).
  assert (contents (h ++ k) r = with_questions master_questions <$> shipped_selected pd)
    as Hval'.
  { rewrite Hval, shipped_selected_prefix by done.
    rewrite filter_all.
    - rewrite dedup_first_NoDup by apply shipped_selected_NoDup.
      apply list_fmap_ext. intros _ c _. unfold with_questions.
      by rewrite shipped_questions_for.
    - intros c Hc. rewrite shipped_questions_for by done.
      revert c Hc. apply Forall_forall, shipped_selected_pooled. }
  exists r, k. split_and!; [done|done| |done].
  rewrite <- (contents_keys (h ++ k)), Hval', <- list_fmap_compose.
  apply list_fmap_id.
Qed.

(** Each entry of a returned dict refers to a list object created by the
    call, holding the master pool's questions for its category. *)
Lemma shipped_entry (pd : list (string * pyval)) (h : heap)
    (r : list (string * loc)) (h1 : heap) (c : string) (l : loc) :
  module_heap `prefix_of` h →
  shipped_generate_questions pd h = inr (r, h1) →
  (c, l) ∈ r →
  h1 !! l = Some (master_questions c)
  ∧ master_questions c ≠ []
  ∧ length h ≤ l < length h1.
Proof.
  intros Hpre Hrun Hin.
  assert (accepts pd = true) as Hacc.
  { eapply generate_questions_returns_iff. by eexists. }
  destruct (shipped_run pd h Hpre Hacc) as (r0 & k & Hrun0 & Hval & Hkeys & Hfresh).
  rewrite Hrun in Hrun0. injection Hrun0 as <- ->.
  rewrite Forall_forall in Hfresh.
  assert (length h ≤ l < length (h ++ k)) as Hl.
  { apply Hfresh, list_elem_of_fmap. by exists (c, l). }
  assert (read (h ++ k) l = master_questions c) as Hread.
  { assert ((c, read (h ++ k) l) ∈ contents (h ++ k) r) as Hc.
    { unfold contents. apply list_elem_of_fmap. by exists (c, l). }
    rewrite Hval in Hc. apply list_elem_of_fmap in Hc as (c' & Heq & _).
    unfold with_questions in Heq. by injection Heq as <- ->. }
  split_and!; [|..|apply Hl|apply Hl].
  - rewrite read_lookup by apply Hl. by rewrite Hread.
  - assert (c ∈ shipped_selected pd) as Hc.
    { rewrite <- Hkeys. apply list_elem_of_fmap. by exists (c, l). }
    clear -Hc. revert c Hc. apply Forall_forall, shipped_selected_pooled.
Qed.

Lemma pool_get_app (pool : gmap string loc) (h k : heap) (c : string) :
  live pool h → pool_get pool (h ++ k) c = pool_get pool h c.
Proof.
  intros Hlive. unfold pool_get. destruct (pool !! c) as [l|] eqn:Hc; [|done].
  simpl. apply lookup_app_l. by apply (Hlive c l).
Qed.

Lemma mutate_prefix (h0 h : heap) (l : loc) (xs : list string) :
  h0 `prefix_of` h → length h0 ≤ l → h0 `prefix_of` mutate h l xs.
Proof.
  intros [k ->] Hl. unfold mutate. rewrite insert_app_r_alt by done.
  by apply prefix_app_r.
Qed.

Lemma dict_get_elem_of {V} (d : list (string * V)) (c : string) :
  c ∈ d.*1 → ∃ v, dict_get d c = Some v ∧ (c, v) ∈ d.
Proof.
  induction d as [|[c' v'] d IH]; [by intros ?%elem_of_nil|].
  rewrite fmap_cons, elem_of_cons. intros Hc. simpl.
  destruct (decide (c' = c)) as [->|Hne].
  - exists v'. split; [done|left].
  - destruct Hc as [->|Hc]; [done|]. destruct (IH Hc) as (v & Hv & Hin).
    exists v. split; [done|by right].
Qed.

(** ** Positions in a category sequence *)

Lemma index_of_app_l (c : string) (l1 l2 : list string) (i : nat) :
  index_of c l1 = Some i → index_of c (l1 ++ l2) = Some i.
Proof.
  revert i. induction l1 as [|x l1 IH]; intros i; [done|]. simpl.
  destruct (decide (x = c)); [done|].
  destruct (index_of c l1) as [j|]; [|done]. by rewrite (IH j).
Qed.

Lemma index_of_app_r (c : string) (l1 l2 : list string) :
  index_of c l1 = None →
  index_of c (l1 ++ l2) = (λ j, length l1 + j) <$> index_of c l2.
Proof.
  induction l1 as [|x l1 IH]; simpl.
  - intros _. by destruct (index_of c l2).
  - destruct (decide (x = c)); [done|].
    destruct (index_of c l1) as [j|]; [done|]. intros _. rewrite IH by done.
    by destruct (index_of c l2).
Qed.

Lemma index_of_elem_of (c : string) (l : list string) :
  c ∈ l → is_Some (index_of c l).
Proof.
  induction l as [|x l IH]; [by intros ?%elem_of_nil|].
  rewrite elem_of_cons. intros Hc. simpl.
  destruct (decide (x = c)) as [->|Hne]; [by eexists|].
  destruct Hc as [->|Hc]; [done|]. destruct (IH Hc) as [j ->]. by eexists.
Qed.

Lemma index_of_lookup (c : string) (l : list string) (i : nat) :
  index_of c l = Some i → l !! i = Some c.
Proof.
  revert i. induction l as [|x l IH]; intros i; [done|]. simpl.
  destruct (decide (x = c)) as [->|Hne]; [by intros [= <-]|].
  destruct (index_of c l) as [j|]; [|done]. intros [= <-]. by apply IH.
Qed.

(** * The selector against its specification *)

(** C6. For the archetype "Faith & Spiritual Journey" with no scoping
    answers, the generated category sequence is exactly "Faith &
    Spirituality", "Values & Life Lessons", "Reflection & Legacy": whether
    [scoping_details] is missing, is the empty dict, or is the dict
    [build_project_data] builds from a session without stored answers. *)
Theorem C6_faith_defaults (project_id created_at : string) :
  let expected := inr [ "Faith & Spirituality"; "Values & Life Lessons";
                        "Reflection & Legacy" ] in
  categories_for [("legacy_type", PyStr "Faith & Spiritual Journey")] = expected
  ∧ categories_for (scope (PyStr "Faith & Spiritual Journey") []) = expected
  ∧ guide_categories (session "Faith & Spiritual Journey" []) project_id created_at
    = expected.
Proof. split_and!; vm_compute; reflexivity. Qed.

(** C1. The closing category is present exactly once but is not always
    last.  For "Full Life Story" (whose defaults already end with
    "Reflection & Legacy") and the theme "Military Service", the closing
    step finds the category present and leaves it where it is, so the
    guide ends with "Military & Service". *)
Theorem C1_reflection_not_last (project_id created_at : string) :
  ∃ cats,
    guide_categories
      (session "Full Life Story" [("themes", PyList [PyStr "Military Service"])])
      project_id created_at = inr cats
    ∧ cats = [ "Childhood & Growing Up"; "Family & Relationships";
               "Career & Professional Life"; "Values & Life Lessons";
               "Adventures & Experiences"; "Reflection & Legacy";
               "Military & Service" ]
    ∧ index_of "Reflection & Legacy" cats = Some 5
    ∧ last cats = Some "Military & Service".
Proof. eexists. split_and!; [vm_compute; reflexivity | reflexivity..]. Qed.

(** C2, as stated, fails: "service_scope" of "Military & Service" is a
    free-text question, and when its answer happens to be the theme label
    "Travel & Adventures" the guide gains the category "Adventures &
    Experiences", which it does not have when the answer is left empty. *)
Lemma C2_free_text_label_adds_category :
  (∃ lt_data q,
      dict_get LEGACY_TYPES "Military & Service" = Some lt_data
      ∧ q ∈ follow_up_questions lt_data
      ∧ key q = "service_scope" ∧ type q = text)
  ∧ guide_categories
      (session "Military & Service" [("service_scope", PyStr "Travel & Adventures")])
      "20261104_093000" "2026-11-04T09:30:00"
    = inr [ "Military & Service"; "Values & Life Lessons"; "Reflection & Legacy";
            "Adventures & Experiences" ]
  ∧ guide_categories
      (session "Military & Service" [("service_scope", PyStr "")])
      "20261104_093000" "2026-11-04T09:30:00"
    = inr [ "Military & Service"; "Values & Life Lessons"; "Reflection & Legacy" ].
Proof.
  split_and!.
  - eexists _, _. split_and!; [vm_compute; reflexivity|left|reflexivity|reflexivity].
  - vm_compute; reflexivity.
  - vm_compute; reflexivity.
Qed.

(** C2, amended.  The selector never sees question types: a scalar string
    answer, free text included, is looked up in [THEME_TO_CATEGORY].  An
    answer whose text is not a key of that table (such as
    "US Army, 1968-1972") contributes nothing: the call behaves exactly as
    if the answer were not there. *)
Theorem C2_free_text_not_a_label_is_inert
    (lt : pyval) (pre post : list (string * pyval)) (q s : string) (h : heap) :
  THEME_TO_CATEGORY !! s = None →
  shipped_generate_questions (scope lt (pre ++ (q, PyStr s) :: post)) h
  = shipped_generate_questions (scope lt (pre ++ post)) h.
Proof.
  intros Hs. unfold generate_questions.
  by rewrite select_categories_skip_scalar.
Qed.

Lemma C2_free_text_not_a_label_is_inert_witness :
  THEME_TO_CATEGORY !! "US Army, 1968-1972" = None
  ∧ shipped_generate_questions
      (scope (PyStr "Military & Service")
         ([] ++ ("What branch and era of service?", PyStr "US Army, 1968-1972")
             :: [("Which aspects of your service are most important to capture? (Select all that apply)",
                  PyList [PyStr "Combat experiences"])]))
      module_heap
    = shipped_generate_questions
        (scope (PyStr "Military & Service")
           ([] ++ [("Which aspects of your service are most important to capture? (Select all that apply)",
                    PyList [PyStr "Combat experiences"])]))
        module_heap.
Proof.
  split; [vm_compute; reflexivity|].
  apply (C2_free_text_not_a_label_is_inert (PyStr "Military & Service") []).
  vm_compute; reflexivity.
Defined.

(** C9. Every option label of every multiselect follow-up question of the
    catalog is a key of [THEME_TO_CATEGORY]; the catalog has eight
    archetypes. *)
Theorem C9_multiselect_labels_are_themes
    (name : string) (lt_data : legacy_type_data) (q : follow_up_question)
    (opts : list string) (label : string) :
  (name, lt_data) ∈ LEGACY_TYPES →
  q ∈ follow_up_questions lt_data →
  type q = multiselect →
  options q = Some opts →
  label ∈ opts →
  is_Some (THEME_TO_CATEGORY !! label) ∧ length LEGACY_TYPES = 8.
Proof.
  intros Hlt Hq Hty Hopts Hlabel. split; [|reflexivity].
  assert (Forall (λ o, is_Some (THEME_TO_CATEGORY !! o)) multiselect_labels) as Hall
    by compute_done.
  rewrite Forall_forall in Hall. apply Hall.
  unfold multiselect_labels.
  apply list_elem_of_bind. exists (name, lt_data). split; [|done].
  apply list_elem_of_bind. exists q. split; [|done].
  simpl. by rewrite Hty, Hopts.
Qed.

Lemma C9_multiselect_labels_are_themes_witness :
  is_Some (THEME_TO_CATEGORY !! "Community & fellowship") ∧ length LEGACY_TYPES = 8.
Proof.
  refine (C9_multiselect_labels_are_themes
            "Faith & Spiritual Journey"
            (default {| icon := ""; description := ""; follow_up_questions := [] |}
               (dict_get LEGACY_TYPES "Faith & Spiritual Journey"))
            (default {| key := ""; question := ""; type := text;
                        options := None; placeholder := None |}
               (follow_up_questions
                  (default {| icon := ""; description := ""; follow_up_questions := [] |}
                     (dict_get LEGACY_TYPES "Faith & Spiritual Journey")) !! 1))
            [ "Foundational beliefs & values"; "Key moments of spiritual growth";
              "How faith carried me through hard times"; "Community & fellowship";
              "Doubts, questions & honest wrestling"; "Prayers that were answered";
              "Spiritual mentors & teachers"; "Faith traditions I want to pass down";
              "How my faith evolved over time" ]
            "Community & fellowship" _ _ _ _ _).
  - vm_compute. do 6 right. left.
  - vm_compute. right. left.
  - reflexivity.
  - reflexivity.
  - do 3 right. left.
Defined.

(** C3. On every accepted input the returned category sequence is the
    first-occurrence de-duplication of: the archetype's default list in
    declaration order, then the categories of the scanned labels in scan
    order, then the closing category.  So it has no repetition, a category
    reached twice sits where it was first inserted, and the defaults come
    first, exactly as declared. *)
Theorem C3_dedup_by_first_occurrence (pd : list (string * pyval)) (h : heap) :
  module_heap `prefix_of` h →
  accepts pd = true →
  ∃ r h',
    shipped_generate_questions pd h = inr (r, h')
    ∧ r.*1 = dedup_first
               (shipped_defaults (legacy_type_of pd)
                ++ omap (lookup_label THEME_TO_CATEGORY) (scanned_labels (scoping_of pd))
                ++ ["Reflection & Legacy"])
    ∧ NoDup r.*1
    ∧ shipped_defaults (legacy_type_of pd) `prefix_of` r.*1
    ∧ ∀ lt, legacy_type_of pd = PyStr lt →
            shipped_defaults (legacy_type_of pd)
            = default [] (dict_get LEGACY_TYPE_CATEGORIES_literal lt).
Proof.
  intros Hpre Hacc.
  destruct (shipped_run pd h Hpre Hacc) as (r & k & Hrun & _ & Hkeys & _).
  exists r, (h ++ k). split_and!.
  - done.
  - by rewrite Hkeys, shipped_selected_dedup, theme_categories_shipped.
  - rewrite Hkeys. apply shipped_selected_NoDup.
  - rewrite Hkeys. apply foldl_push_new_prefix.
  - intros lt ->. rewrite <- defaults_declared.
    unfold shipped_defaults, defaults_for, pool_get, read, lookup_label.
    by destruct (LEGACY_TYPE_CATEGORIES !! lt).
Qed.

Lemma C3_dedup_by_first_occurrence_witness :
  module_heap `prefix_of` module_heap
  ∧ accepts overlapping_scope = true
  ∧ ∃ r h',
      shipped_generate_questions overlapping_scope module_heap = inr (r, h')
      ∧ r.*1 = [ "Childhood & Growing Up"; "Family & Relationships";
                 "Career & Professional Life"; "Values & Life Lessons";
                 "Adventures & Experiences"; "Reflection & Legacy";
                 "Military & Service"; "Faith & Spirituality" ].
Proof.
  split; [reflexivity|]. split; [vm_compute; reflexivity|].
  destruct (C3_dedup_by_first_occurrence overlapping_scope module_heap)
    as (r & h' & Hrun & Hkeys & _); [reflexivity|vm_compute; reflexivity|].
  exists r, h'. split; [exact Hrun|]. rewrite Hkeys. vm_compute. reflexivity.
Defined.

(** C4. A call is a function of its argument and of the tables' lists
    alone, and it changes no existing object: in any heap that extends the
    freshly imported module it either raises, and then raises the same
    exception in every such heap, or returns after only allocating, and
    then every other call on the same argument (in particular the next
    one, in the heap this call left) returns the same categories in the
    same order with the same question lists. *)
Theorem C4_deterministic (pd : list (string * pyval)) (h : heap) :
  module_heap `prefix_of` h →
  match shipped_generate_questions pd h with
  | inl e =>
      ∀ h', module_heap `prefix_of` h' → shipped_generate_questions pd h' = inl e
  | inr (r1, h1) =>
      h `prefix_of` h1
      ∧ ∀ h', module_heap `prefix_of` h' →
              ∃ r2 h2,
                shipped_generate_questions pd h' = inr (r2, h2)
                ∧ contents h2 r2 = contents h1 r1
  end.
Proof.
  intros Hpre. destruct (accepts pd) eqn:Hacc.
  - destruct (shipped_run pd h Hpre Hacc) as (r & k & -> & Hval & _).
    split; [by apply prefix_app_r|]. intros h' Hpre'.
    destruct (shipped_run pd h' Hpre' Hacc) as (r' & k' & Hrun' & Hval' & _).
    exists r', (h' ++ k'). split; [done|]. by rewrite Hval, Hval'.
  - destruct (generate_questions_raises QUESTIONS_BY_CATEGORY LEGACY_TYPE_CATEGORIES
                THEME_TO_CATEGORY pd Hacc) as [e He].
    rewrite He. intros h' _. apply He.
Qed.

Lemma C4_deterministic_witness :
  module_heap `prefix_of` module_heap
  ∧ match shipped_generate_questions overlapping_scope module_heap with
    | inl e =>
        ∀ h', module_heap `prefix_of` h' →
              shipped_generate_questions overlapping_scope h' = inl e
    | inr (r1, h1) =>
        module_heap `prefix_of` h1
        ∧ ∀ h', module_heap `prefix_of` h' →
                ∃ r2 h2,
                  shipped_generate_questions overlapping_scope h' = inr (r2, h2)
                  ∧ contents h2 r2 = contents h1 r1
    end.
Proof.
  split; [reflexivity|].
  apply (C4_deterministic overlapping_scope module_heap). reflexivity.
Defined.

(** C5. Every list in the result holds exactly the questions the master
    pool declares for its category, in the same order, and is a new list
    object: it did not exist before the call, so it is none of the pool's
    lists.  Changing the contents of a returned list therefore leaves the
    pool as declared, and a later call on the same argument returns the
    original lists again. *)
Theorem C5_fidelity_and_fresh_copies
    (pd : list (string * pyval)) (h : heap) (r : list (string * loc)) (h1 : heap) :
  module_heap `prefix_of` h →
  shipped_generate_questions pd h = inr (r, h1) →
  (∀ c l, (c, l) ∈ r →
          is_Some (h1 !! l)
          ∧ h1 !! l = dict_get QUESTIONS_BY_CATEGORY_literal c
          ∧ length h ≤ l)
  ∧ (∀ l xs, l ∈ r.*2 →
             (∀ c, pool_get QUESTIONS_BY_CATEGORY (mutate h1 l xs) c
                   = dict_get QUESTIONS_BY_CATEGORY_literal c)
             ∧ ∃ r' h2,
                 shipped_generate_questions pd (mutate h1 l xs) = inr (r', h2)
                 ∧ contents h2 r' = contents h1 r).
Proof.
  intros Hpre Hrun.
  split.
  - intros c l Hin.
    destruct (shipped_entry pd h r h1 c l Hpre Hrun Hin) as (Hl & Hne & Hge & _).
    split_and!; [by eexists| |done].
    rewrite Hl. rewrite master_questions_declared in Hne |- *.
    by destruct (dict_get QUESTIONS_BY_CATEGORY_literal c).
  - intros l xs Hl.
    assert (accepts pd = true) as Hacc.
    { eapply generate_questions_returns_iff. by eexists. }
    destruct (shipped_run pd h Hpre Hacc) as (r0 & k & Hrun0 & Hval & _).
    rewrite Hrun in Hrun0. injection Hrun0 as <- ->.
    assert (module_heap `prefix_of` mutate (h ++ k) l xs) as Hpre'.
    { apply mutate_prefix.
      - etrans; [done|]. by apply prefix_app_r.
      - apply list_elem_of_fmap in Hl as ([c l'] & -> & Hin).
        destruct (shipped_entry pd h r (h ++ k) c l' Hpre Hrun Hin) as (_ & _ & Hge & _).
        apply prefix_length in Hpre. exact (Nat.le_trans _ _ _ Hpre Hge). }
    split.
    + intros c. destruct Hpre' as [k' ->].
      rewrite pool_get_app by apply shipped_live_pool. apply pool_get_declared.
    + destruct (shipped_run pd _ Hpre' Hacc) as (r' & k' & Hrun' & Hval' & _).
      exists r', (mutate (h ++ k) l xs ++ k'). split; [done|]. by rewrite Hval, Hval'.
Qed.

Lemma C5_fidelity_and_fresh_copies_witness :
  module_heap `prefix_of` module_heap
  ∧ shipped_generate_questions overlapping_scope module_heap
    = inr (sample_result, sample_heap)
  ∧ (∀ c l, (c, l) ∈ sample_result →
            is_Some (sample_heap !! l)
            ∧ sample_heap !! l = dict_get QUESTIONS_BY_CATEGORY_literal c
            ∧ length module_heap ≤ l)
  ∧ (∀ l xs, l ∈ sample_result.*2 →
             (∀ c, pool_get QUESTIONS_BY_CATEGORY (mutate sample_heap l xs) c
                   = dict_get QUESTIONS_BY_CATEGORY_literal c)
             ∧ ∃ r' h2,
                 shipped_generate_questions overlapping_scope (mutate sample_heap l xs)
                 = inr (r', h2)
                 ∧ contents h2 r' = contents sample_heap sample_result).
Proof.
  split; [reflexivity|]. split; [vm_compute; reflexivity|].
  apply (C5_fidelity_and_fresh_copies overlapping_scope module_heap).
  - reflexivity.
  - vm_compute; reflexivity.
Defined.

(** C7. Missing table entries never raise, whatever the tables hold.  On
    every accepted input the call returns; the categories it returns are
    the selected ones that the pool has a non-empty list for; an archetype
    absent from the default table starts from the empty list; a category
    absent from the pool (or with an empty list) is not in the output; and
    a label absent from the theme map, as an element of a list answer or
    as a scalar answer, can be removed from the input without changing
    what is returned. *)
Theorem C7_missing_entries_degrade_gracefully
    (QBC LTC : gmap string loc) (T2C : gmap string string)
    (pd : list (string * pyval)) (h : heap) :
  live QBC h →
  accepts pd = true →
  ∃ r h',
    generate_questions QBC LTC T2C pd h = inr (r, h')
    ∧ r.*1 = dedup_first (filter (λ c, questions_for QBC h c ≠ []) (selected LTC T2C h pd))
    ∧ (lookup_label LTC (legacy_type_of pd) = None →
       defaults_for LTC h (legacy_type_of pd) = []
       ∧ r.*1 = filter (λ c, questions_for QBC h c ≠ [])
                  (dedup_first (theme_categories T2C (scanned_labels (scoping_of pd))
                                ++ ["Reflection & Legacy"])))
    ∧ (∀ c, questions_for QBC h c = [] → c ∉ r.*1)
    ∧ (∀ lt pre q xs s ys post,
         T2C !! s = None →
         pd = scope lt (pre ++ (q, PyList (xs ++ PyStr s :: ys)) :: post) →
         generate_questions QBC LTC T2C
           (scope lt (pre ++ (q, PyList (xs ++ ys)) :: post)) h = inr (r, h'))
    ∧ (∀ lt pre q s post,
         T2C !! s = None →
         pd = scope lt (pre ++ (q, PyStr s) :: post) →
         generate_questions QBC LTC T2C (scope lt (pre ++ post)) h = inr (r, h')).
Proof.
  intros Hlive Hacc.
  destruct (generate_questions_accepts QBC LTC T2C pd h Hlive Hacc)
    as (r & k & Hrun & Hval & _).
  assert (r.*1 = dedup_first (filter (λ c, questions_for QBC h c ≠ [])
                                (selected LTC T2C h pd))) as Hkeys.
  { rewrite <- (contents_keys (h ++ k)), Hval, <- list_fmap_compose.
    apply list_fmap_id. }
  exists r, (h ++ k). split_and!; [done|done| | | |].
  - intros Hlt. unfold defaults_for. rewrite Hlt. split; [done|].
    rewrite Hkeys. unfold selected, defaults_for. rewrite Hlt. simpl.
    rewrite <- dedup_first_foldl. apply dedup_first_NoDup.
    apply NoDup_filter, NoDup_dedup_first.
  - intros c Hc. rewrite Hkeys, elem_of_dedup_first, list_elem_of_filter. tauto.
  - intros lt pre q xs s ys post Hs ->. rewrite <- Hrun.
    unfold generate_questions. by rewrite select_categories_skip_element.
  - intros lt pre q s post Hs ->. rewrite <- Hrun.
    unfold generate_questions. by rewrite select_categories_skip_scalar.
Qed.

Lemma C7_missing_entries_degrade_gracefully_witness :
  live pool_without_health module_heap
  ∧ accepts degenerate_scope = true
  ∧ ∃ r h',
      generate_questions pool_without_health LEGACY_TYPE_CATEGORIES THEME_TO_CATEGORY
        degenerate_scope module_heap = inr (r, h')
      ∧ r.*1 = [ "Adventures & Experiences"; "Reflection & Legacy" ]
      ∧ ("Health & Resilience" ∉ r.*1)
      ∧ generate_questions pool_without_health LEGACY_TYPE_CATEGORIES THEME_TO_CATEGORY
          (scope (PyStr "Pets & Gardens")
             ([] ++ ("Which themes?",
                     PyList ([PyStr "Travel & Adventures"]
                             ++ [PyStr "I overcame something difficult"])) :: []))
          module_heap = inr (r, h').
Proof.
  assert (live pool_without_health module_heap) as Hlive
    by (unfold live; apply (bool_decide_unpack _); vm_compute; exact I).
  assert (accepts degenerate_scope = true) as Hacc by (vm_compute; reflexivity).
  split; [exact Hlive|]. split; [exact Hacc|].
  destruct (C7_missing_entries_degrade_gracefully
              pool_without_health LEGACY_TYPE_CATEGORIES THEME_TO_CATEGORY
              degenerate_scope module_heap Hlive Hacc)
    as (r & h' & Hrun & Hkeys & Hunknown & Hdrop & Helem & _).
  exists r, h'. split; [exact Hrun|]. split; [|split].
  - assert (lookup_label LEGACY_TYPE_CATEGORIES (legacy_type_of degenerate_scope) = None)
      as Hlt by (vm_compute; reflexivity).
    rewrite (proj2 (Hunknown Hlt)). vm_compute. reflexivity.
  - apply Hdrop. vm_compute. reflexivity.
  - apply (Helem (PyStr "Pets & Gardens") [] "Which themes?"
             [PyStr "Travel & Adventures"] "Stamp collecting"
             [PyStr "I overcame something difficult"] []).
    + vm_compute. reflexivity.
    + reflexivity.
Defined.

(** C8. For "Full Life Story", whenever some answer is the list "Travel &
    Adventures", "Military Service" in that order, "Adventures &
    Experiences" comes before "Military & Service" in the returned
    category sequence, whatever else was answered. *)
Theorem C8_adventures_before_military
    (pd : list (string * pyval)) (h : heap) (q : string) :
  module_heap `prefix_of` h →
  accepts pd = true →
  legacy_type_of pd = PyStr "Full Life Story" →
  (q, PyList [PyStr "Travel & Adventures"; PyStr "Military Service"]) ∈ scoping_of pd →
  ∃ r h' i j,
    shipped_generate_questions pd h = inr (r, h')
    ∧ index_of "Adventures & Experiences" r.*1 = Some i
    ∧ index_of "Military & Service" r.*1 = Some j
    ∧ i < j.
Proof.
  intros Hpre Hacc Hlt Hq.
  destruct (shipped_run pd h Hpre Hacc) as (r & k & Hrun & _ & Hkeys & _).
  set (D := [ "Childhood & Growing Up"; "Family & Relationships";
              "Career & Professional Life"; "Values & Life Lessons";
              "Adventures & Experiences"; "Reflection & Legacy" ]).
  assert (shipped_defaults (PyStr "Full Life Story") = D) as HD
    by (vm_compute; reflexivity).
  assert (∃ X, r.*1 = D ++ filter (λ y, y ∉ D) (dedup_first X)
               ∧ "Military & Service" ∈ X) as (X & HX & Hmil).
  { eexists. split.
    - rewrite Hkeys. unfold shipped_selected, selected.
      fold (shipped_defaults (legacy_type_of pd)). rewrite Hlt, HD.
      apply foldl_push_new.
    - apply elem_of_app. left. unfold theme_categories.
      apply list_elem_of_omap. exists (PyStr "Military Service"). split.
      + unfold scanned_labels. apply list_elem_of_bind.
        eexists. split; [|exact Hq]. simpl. right. left.
      + vm_compute. reflexivity. }
  assert ("Military & Service" ∉ D) as HnD
    by (apply (bool_decide_unpack _); vm_compute; exact I).
  destruct (index_of_elem_of "Military & Service" (filter (λ y, y ∉ D) (dedup_first X)))
    as [j' Hj'].
  { apply list_elem_of_filter. split; [done|]. by apply elem_of_dedup_first. }
  exists r, (h ++ k), 4, (length D + j'). split_and!.
  - done.
  - rewrite HX. by apply index_of_app_l.
  - rewrite HX, index_of_app_r by reflexivity. by rewrite Hj'.
  - simpl. lia.
Qed.

Lemma C8_adventures_before_military_witness :
  module_heap `prefix_of` module_heap
  ∧ accepts travel_then_military = true
  ∧ legacy_type_of travel_then_military = PyStr "Full Life Story"
  ∧ ("Which life themes are most important to include? (Select all that apply)",
     PyList [PyStr "Travel & Adventures"; PyStr "Military Service"])
    ∈ scoping_of travel_then_military
  ∧ ∃ r h' i j,
      shipped_generate_questions travel_then_military module_heap = inr (r, h')
      ∧ index_of "Adventures & Experiences" r.*1 = Some i
      ∧ index_of "Military & Service" r.*1 = Some j
      ∧ i < j.
Proof.
  assert (("Which life themes are most important to include? (Select all that apply)",
           PyList [PyStr "Travel & Adventures"; PyStr "Military Service"])
          ∈ scoping_of travel_then_military) as Hq by (right; left).
  split; [reflexivity|]. split; [vm_compute; reflexivity|].
  split; [reflexivity|]. split; [exact Hq|].
  apply (C8_adventures_before_military travel_then_military module_heap
           "Which life themes are most important to include? (Select all that apply)").
  - reflexivity.
  - vm_compute; reflexivity.
  - reflexivity.
  - exact Hq.
Defined.

(** C10. The shipped tables are complete: every category named by a
    default list or by the theme map is a key of the master pool with a
    non-empty question list.  Hence on every accepted input (any
    archetype name, known or not, and any answers) nothing is dropped
    by the assembly loop: the returned categories are exactly the selected
    ones; the result is not empty; and it holds "Reflection & Legacy"
    with the questions the pool declares for it. *)
Theorem C10_tables_complete_and_guide_nonempty
    (pd : list (string * pyval)) (h : heap) :
  module_heap `prefix_of` h →
  accepts pd = true →
  (∀ lt l c, LEGACY_TYPE_CATEGORIES !! lt = Some l → c ∈ read module_heap l →
             is_Some (QUESTIONS_BY_CATEGORY !! c) ∧ master_questions c ≠ [])
  ∧ (∀ label c, THEME_TO_CATEGORY !! label = Some c →
                is_Some (QUESTIONS_BY_CATEGORY !! c) ∧ master_questions c ≠ [])
  ∧ ∃ cats r h',
      select_categories LEGACY_TYPE_CATEGORIES THEME_TO_CATEGORY pd h = inr cats
      ∧ shipped_generate_questions pd h = inr (r, h')
      ∧ r.*1 = cats
      ∧ r ≠ []
      ∧ ∃ l, dict_get r "Reflection & Legacy" = Some l
             ∧ is_Some (h' !! l)
             ∧ h' !! l = dict_get QUESTIONS_BY_CATEGORY_literal "Reflection & Legacy".
Proof.
  intros Hpre Hacc.
  assert (∀ c, master_questions c ≠ [] → is_Some (QUESTIONS_BY_CATEGORY !! c)) as Hkey.
  { intros c. unfold master_questions, questions_for.
    destruct (QUESTIONS_BY_CATEGORY !! c); [by eexists|done]. }
  split_and!.
  - intros lt l c Hl Hc. destruct (shipped_defaults_ok lt l Hl) as [_ Hall].
    rewrite Forall_forall in Hall. split; [apply Hkey|]; by apply Hall.
  - intros label c Hc. destruct (shipped_themes_ok label c Hc) as [_ Hne].
    split; [by apply Hkey|done].
  - destruct (shipped_run pd h Hpre Hacc) as (r & k & Hrun & _ & Hkeys & _).
    assert ("Reflection & Legacy" ∈ r.*1) as Hin.
    { rewrite Hkeys. unfold shipped_selected, selected.
      apply elem_of_foldl_push_new. right. apply elem_of_app. right. left. }
    exists (shipped_selected pd), r, (h ++ k). split_and!.
    + rewrite select_categories_accepts by done.
      by rewrite shipped_selected_prefix.
    + done.
    + done.
    + intros ->. by apply elem_of_nil in Hin.
    + destruct (dict_get_elem_of r _ Hin) as (l & Hget & Hl).
      destruct (shipped_entry pd h r (h ++ k) _ l Hpre Hrun Hl) as (Hlook & Hne & _).
      exists l. split_and!; [done|by eexists|].
      rewrite Hlook. rewrite master_questions_declared in Hne |- *.
      by destruct (dict_get QUESTIONS_BY_CATEGORY_literal "Reflection & Legacy").
Qed.

Lemma C10_tables_complete_and_guide_nonempty_witness :
  module_heap `prefix_of` module_heap
  ∧ accepts (scope (PyStr "Pets & Gardens") []) = true
  ∧ ∃ r h',
      shipped_generate_questions (scope (PyStr "Pets & Gardens") []) module_heap
      = inr (r, h')
      ∧ r.*1 = ["Reflection & Legacy"]
      ∧ ∃ l, dict_get r "Reflection & Legacy" = Some l
             ∧ h' !! l = dict_get QUESTIONS_BY_CATEGORY_literal "Reflection & Legacy".
Proof.
  split; [reflexivity|]. split; [vm_compute; reflexivity|].
  destruct (C10_tables_complete_and_guide_nonempty
              (scope (PyStr "Pets & Gardens") []) module_heap)
    as (_ & _ & cats & r & h' & Hsel & Hrun & Hkeys & _ & l & Hget & _ & Hl);
    [reflexivity|vm_compute; reflexivity|].
  exists r, h'. split; [exact Hrun|]. split.
  - rewrite Hkeys.
    assert (select_categories LEGACY_TYPE_CATEGORIES THEME_TO_CATEGORY
              (scope (PyStr "Pets & Gardens") []) module_heap
            = inr ["Reflection & Legacy"]) as Hc by (vm_compute; reflexivity).
    rewrite Hc in Hsel. by injection Hsel as <-.
  - exists l. split; [exact Hget|exact Hl].
Defined.

(** * Further properties of [generate_questions] *)

Lemma generate_questions_inl (QBC LTC : gmap string loc) (T2C : gmap string string)
    (pd : list (string * pyval)) (h : heap) (e : pyerr) :
  generate_questions QBC LTC T2C pd h = inl e ↔ select_categories LTC T2C pd h = inl e.
Proof.
  unfold generate_questions.
  destruct (select_categories LTC T2C pd h) as [e'|cats].
  - rewrite bind_inl. split; intros [= ->]; reflexivity.
  - split; intros H; discriminate H.
Qed.

Lemma for_each_expand_answer_values (T2C : gmap string string)
    (scoping : list (string * pyval)) (categories : list string) :
  for_each (λ cats qa, expand_answer T2C cats qa.2) categories scoping
  = for_each (expand_answer T2C) categories scoping.*2.
Proof.
  revert categories. induction scoping as [|[q a] scoping IH]; intros cats; [done|].
  simpl. destruct (expand_answer T2C cats a) as [e|cats']; [done|].
  rewrite !bind_inr. apply IH.
Qed.

(** X1. Which exception a call raises is decided by the shape of the
    input alone, for any tables and heap: [KeyError] exactly when the key
    "legacy_type" is missing; [AttributeError] exactly when the legacy
    type is hashable and "scoping_details" is present but not a dict;
    [TypeError] exactly when the legacy type is a list or dict, or it is
    hashable, "scoping_details" is a dict and some list answer has a list
    or dict among its elements. *)
Theorem X1_exception_raised
    (QBC LTC : gmap string loc) (T2C : gmap string string)
    (pd : list (string * pyval)) (h : heap) :
  (generate_questions QBC LTC T2C pd h = inl KeyError
   ↔ dict_get pd "legacy_type" = None)
  ∧ (generate_questions QBC LTC T2C pd h = inl AttributeError
     ↔ ∃ lt v, dict_get pd "legacy_type" = Some lt
               ∧ hashable lt = true
               ∧ dict_get pd "scoping_details" = Some v
               ∧ ∀ kvs, v ≠ PyDict kvs)
  ∧ (generate_questions QBC LTC T2C pd h = inl TypeError
     ↔ ∃ lt, dict_get pd "legacy_type" = Some lt
             ∧ (hashable lt = false
                ∨ ∃ kvs, dict_get pd "scoping_details" = Some (PyDict kvs)
                         ∧ forallb (λ qa, answer_ok qa.2) kvs = false)).
Proof.
  rewrite !generate_questions_inl. unfold select_categories.
  destruct (dict_get pd "legacy_type") as [lt|] eqn:Hlt; simpl.
  2:{ split_and!; split; try done.
      - by intros (? & ? & ? & _).
      - by intros (? & ? & _). }
  destruct (hashable lt) eqn:Hh.
  2:{ rewrite table_get_unhashable by done. simpl. split_and!; split; try done.
      - intros (lt' & v & [= <-] & Hh' & _). congruence.
      - intros _. exists lt. split; [done|by left]. }
  rewrite table_get_hashable by done. rewrite bind_inr.
  destruct (dict_get pd "scoping_details") as [v|] eqn:Hsc.
  2:{ simpl. split_and!; split; try done.
      - by intros (? & ? & _ & _ & ? & _).
      - intros (lt' & [= <-] & [?|(kvs & ? & _)]); congruence. }
  destruct v as [|n|s|xs|kvs].
  1-4: rewrite bind_inl; split_and!; split; try done;
    [ intros _; eexists lt, _; split_and!; done
    | intros (lt' & [= <-] & [?|(kvs & [=] & _)]); congruence ].
  rewrite bind_inr.
  destruct (forallb (λ qa, answer_ok qa.2) kvs) eqn:Hok.
  - rewrite for_each_expand_answer by done. simpl. split_and!; split; try done.
    + intros (lt' & v & _ & _ & [= <-] & Hv). by destruct (Hv kvs).
    + intros (lt' & [= <-] & [?|(kvs' & [= <-] & ?)]); congruence.
  - rewrite for_each_expand_answer_raises by done. simpl. split_and!; split; try done.
    + intros (lt' & v & _ & _ & [= <-] & Hv). by destruct (Hv kvs).
    + intros _. exists lt. split; [done|]. right. by exists kvs.
Qed.

(** X2. The question texts that key [scoping_details] play no part: two
    inputs with the same legacy type and the same answers in the same
    order give the same result, for any tables. *)
Theorem X2_question_texts_irrelevant
    (QBC LTC : gmap string loc) (T2C : gmap string string)
    (lt : pyval) (scoping scoping' : list (string * pyval)) (h : heap) :
  scoping.*2 = scoping'.*2 →
  generate_questions QBC LTC T2C (scope lt scoping) h
  = generate_questions QBC LTC T2C (scope lt scoping') h.
Proof.
  intros Hvals. unfold generate_questions, select_categories, scope. simpl.
  destruct (table_get LTC lt) as [e|defaults]; [done|]. rewrite !bind_inr.
  by rewrite !for_each_expand_answer_values, Hvals.
Qed.

Lemma X2_question_texts_irrelevant_witness :
  [ ("Which life themes are most important to include? (Select all that apply)",
     PyList [PyStr "Military Service"]) ].*2
  = [ ("themes", PyList [PyStr "Military Service"]) ].*2
  ∧ shipped_generate_questions
      (scope (PyStr "Full Life Story")
         [ ("Which life themes are most important to include? (Select all that apply)",
            PyList [PyStr "Military Service"]) ]) module_heap
    = shipped_generate_questions
        (scope (PyStr "Full Life Story")
           [ ("themes", PyList [PyStr "Military Service"]) ]) module_heap.
Proof.
  split; [reflexivity|].
  apply X2_question_texts_irrelevant. reflexivity.
Defined.

Lemma accepts_scope (lt : pyval) (scoping : list (string * pyval)) :
  accepts (scope lt scoping) = hashable lt && forallb (λ qa, answer_ok qa.2) scoping.
Proof. reflexivity. Qed.

Lemma elem_of_shipped_selected (pd : list (string * pyval)) (c : string) :
  c ∈ shipped_selected pd
  ↔ c ∈ shipped_defaults (legacy_type_of pd)
    ∨ c ∈ theme_categories THEME_TO_CATEGORY (scanned_labels (scoping_of pd))
    ∨ c = "Reflection & Legacy".
Proof.
  unfold shipped_selected, selected. fold (shipped_defaults (legacy_type_of pd)).
  by rewrite elem_of_foldl_push_new, elem_of_app, list_elem_of_singleton.
Qed.

(** X3. Answering more never costs a category.  With the shipped tables,
    putting one more answer anywhere into the scoping dict keeps every
    category the guide had, and any category it gains is one the new
    answer's labels map to. *)
Theorem X3_more_answers_keep_categories
    (lt : pyval) (pre post : list (string * pyval)) (qa : string * pyval) (h : heap) :
  module_heap `prefix_of` h →
  accepts (scope lt (pre ++ qa :: post)) = true →
  ∃ r h1 r' h1',
    shipped_generate_questions (scope lt (pre ++ post)) h = inr (r, h1)
    ∧ shipped_generate_questions (scope lt (pre ++ qa :: post)) h = inr (r', h1')
    ∧ (∀ c, c ∈ r.*1 → c ∈ r'.*1)
    ∧ (∀ c, c ∈ r'.*1 →
            c ∈ r.*1 ∨ c ∈ theme_categories THEME_TO_CATEGORY (scanned_labels [qa])).
Proof.
  intros Hpre Hacc'.
  assert (accepts (scope lt (pre ++ post)) = true) as Hacc.
  { rewrite accepts_scope in Hacc' |- *.
    apply andb_true_iff in Hacc' as [Hlt Hall]. apply andb_true_iff. split; [done|].
    rewrite forallb_app in Hall |- *. simpl in Hall.
    apply andb_true_iff in Hall as [H1 [_ H2]%andb_true_iff].
    by apply andb_true_iff. }
  destruct (shipped_run _ h Hpre Hacc) as (r & k & Hrun & _ & Hkeys & _).
  destruct (shipped_run _ h Hpre Hacc') as (r' & k' & Hrun' & _ & Hkeys' & _).
  exists r, (h ++ k), r', (h ++ k'). rewrite Hkeys, Hkeys'.
  split_and!; [done|done| |]; intros c; rewrite !elem_of_shipped_selected;
    change (scoping_of (scope lt (pre ++ post))) with (pre ++ post);
    change (scoping_of (scope lt (pre ++ qa :: post))) with (pre ++ qa :: post);
    change (legacy_type_of (scope lt (pre ++ post))) with lt;
    change (legacy_type_of (scope lt (pre ++ qa :: post))) with lt;
    rewrite !scanned_labels_app, (scanned_labels_cons qa post), !theme_categories_app,
      !elem_of_app; tauto.
Qed.

Lemma X3_more_answers_keep_categories_witness :
  module_heap `prefix_of` module_heap
  ∧ accepts (scope (PyStr "Growing Up")
               ([("Which period would you like to focus on most?",
                  PyStr "Early childhood (birth to age 10)")]
                ++ ("What aspects of growing up are most important to capture? (Select all that apply)",
                    PyList [PyStr "Summer vacations & adventures"]) :: [])) = true
  ∧ ∃ r h1 r' h1',
      shipped_generate_questions
        (scope (PyStr "Growing Up")
           ([("Which period would you like to focus on most?",
              PyStr "Early childhood (birth to age 10)")] ++ [])) module_heap
      = inr (r, h1)
      ∧ shipped_generate_questions
          (scope (PyStr "Growing Up")
             ([("Which period would you like to focus on most?",
                PyStr "Early childhood (birth to age 10)")]
              ++ ("What aspects of growing up are most important to capture? (Select all that apply)",
                  PyList [PyStr "Summer vacations & adventures"]) :: [])) module_heap
        = inr (r', h1')
      ∧ (∀ c, c ∈ r.*1 → c ∈ r'.*1).
Proof.
  split; [reflexivity|]. split; [vm_compute; reflexivity|].
  destruct (X3_more_answers_keep_categories (PyStr "Growing Up")
              [("Which period would you like to focus on most?",
                PyStr "Early childhood (birth to age 10)")] []
              ("What aspects of growing up are most important to capture? (Select all that apply)",
               PyList [PyStr "Summer vacations & adventures"]) module_heap)
    as (r & h1 & r' & h1' & Hrun & Hrun' & Hsub & _);
    [reflexivity|vm_compute; reflexivity|].
  exists r, h1, r', h1'. split; [exact Hrun|]. split; [exact Hrun'|exact Hsub].
Defined.



Lemma dict_get_Some_elem_of {V} (d : list (string * V)) (c : string) (v : V) :
  dict_get d c = Some v → (c, v) ∈ d.
Proof.
  induction d as [|[c' v'] d IH]; [done|]. simpl.
  destruct (decide (c' = c)) as [->|Hne].
  - intros [= ->]. left.
  - intros Hd. right. by apply IH.
Qed.

Lemma master_questions_literal (c : string) :
  master_questions c ≠ [] → (c, master_questions c) ∈ QUESTIONS_BY_CATEGORY_literal.
Proof.
  intros Hne. apply dict_get_Some_elem_of.
  rewrite master_questions_declared in Hne |- *.
  by destruct (dict_get QUESTIONS_BY_CATEGORY_literal c).
Qed.

(** X5. The size of a guide.  With the shipped tables every guide has at
    least one and at most ten categories, and every category in it comes
    with at least eight and at most fifteen questions. *)
Theorem X5_guide_size (pd : list (string * pyval)) (h : heap) :
  module_heap `prefix_of` h →
  accepts pd = true →
  ∃ r h',
    shipped_generate_questions pd h = inr (r, h')
    ∧ 1 ≤ length r ≤ 10
    ∧ ∀ c l, (c, l) ∈ r → ∃ qs, h' !! l = Some qs ∧ 8 ≤ length qs ≤ 15.
Proof.
  intros Hpre Hacc.
  destruct (shipped_run pd h Hpre Hacc) as (r & k & Hrun & _ & Hkeys & _).
  exists r, (h ++ k). split; [done|]. split.
  - rewrite <- (length_fmap fst r), Hkeys. split.
    + assert ("Reflection & Legacy" ∈ shipped_selected pd) as Hin.
      { apply elem_of_shipped_selected. by right; right. }
      destruct (shipped_selected pd); [by apply elem_of_nil in Hin|simpl; lia].
    + change 10 with (length QUESTIONS_BY_CATEGORY_literal.*1).
      apply submseteq_length, NoDup_submseteq; [apply shipped_selected_NoDup|].
      intros c Hc. apply list_elem_of_fmap. exists (c, master_questions c).
      split; [done|]. apply master_questions_literal.
      revert c Hc. apply Forall_forall, shipped_selected_pooled.
  - intros c l Hin.
    destruct (shipped_entry pd h r (h ++ k) c l Hpre Hrun Hin) as (Hl & Hne & _).
    exists (master_questions c). split; [done|].
    assert (Forall (λ e, 8 ≤ length e.2 ≤ 15) QUESTIONS_BY_CATEGORY_literal) as Hall
      by compute_done.
    rewrite Forall_forall in Hall.
    apply (Hall (c, master_questions c)), master_questions_literal, Hne.
Qed.

Lemma X5_guide_size_witness :
  module_heap `prefix_of` module_heap
  ∧ accepts overlapping_scope = true
  ∧ ∃ r h',
      shipped_generate_questions overlapping_scope module_heap = inr (r, h')
      ∧ 1 ≤ length r ≤ 10
      ∧ ∀ c l, (c, l) ∈ r → ∃ qs, h' !! l = Some qs ∧ 8 ≤ length qs ≤ 15.
Proof.
  split; [reflexivity|]. split; [vm_compute; reflexivity|].
  apply (X5_guide_size overlapping_scope module_heap).
  - reflexivity.
  - vm_compute; reflexivity.
Defined.

(** X6. Only the set of chosen labels matters for which categories and
    questions a guide has.  With the shipped tables, two inputs with the
    same legacy type whose answers mention the same labels (in any order,
    any number of times, under any question) give guides with the same
    categories up to order, each with the same questions. *)
Theorem X6_same_labels_same_guide (pd pd' : list (string * pyval)) (h : heap) :
  module_heap `prefix_of` h →
  accepts pd = true →
  accepts pd' = true →
  legacy_type_of pd = legacy_type_of pd' →
  (∀ v, v ∈ scanned_labels (scoping_of pd) ↔ v ∈ scanned_labels (scoping_of pd')) →
  ∃ r h1 r' h1',
    shipped_generate_questions pd h = inr (r, h1)
    ∧ shipped_generate_questions pd' h = inr (r', h1')
    ∧ r.*1 ≡ₚ r'.*1
    ∧ ∀ c qs, (c, qs) ∈ contents h1 r ↔ (c, qs) ∈ contents h1' r'.
Proof.
  intros Hpre Hacc Hacc' Hlt Hlabels.
  destruct (shipped_run pd h Hpre Hacc) as (r & k & Hrun & Hval & Hkeys & _).
  destruct (shipped_run pd' h Hpre Hacc') as (r' & k' & Hrun' & Hval' & Hkeys' & _).
  assert (∀ c, c ∈ shipped_selected pd ↔ c ∈ shipped_selected pd') as Hsame.
  { intros c. rewrite !elem_of_shipped_selected, Hlt.
    unfold theme_categories. rewrite !list_elem_of_omap.
    split; (intros [?|[(v & Hv & ?)|?]]; [by left| |by right; right]);
      right; left; exists v; (split; [by apply Hlabels|done]). }
  exists r, (h ++ k), r', (h ++ k'). split_and!; [done|done| |].
  - rewrite Hkeys, Hkeys'.
    apply NoDup_Permutation; [apply shipped_selected_NoDup..|done].
  - intros c qs. rewrite Hval, Hval', !list_elem_of_fmap.
    split; intros (c' & Heq & Hc'); exists c'; (split; [done|]); by apply Hsame.
Qed.

Lemma X6_same_labels_same_guide_witness :
  module_heap `prefix_of` module_heap
  ∧ accepts overlapping_scope = true
  ∧ accepts (scope (PyStr "Full Life Story")
               [ ("themes", PyList [ PyStr "Faith & Spirituality"; PyStr "Military Service";
                                      PyStr "Hobbies & Passions"; PyStr "Travel & Adventures";
                                      PyStr "Military Service" ]) ]) = true
  ∧ ∃ r h1 r' h1',
      shipped_generate_questions overlapping_scope module_heap = inr (r, h1)
      ∧ shipped_generate_questions
          (scope (PyStr "Full Life Story")
             [ ("themes", PyList [ PyStr "Faith & Spirituality"; PyStr "Military Service";
                                    PyStr "Hobbies & Passions"; PyStr "Travel & Adventures";
                                    PyStr "Military Service" ]) ]) module_heap
        = inr (r', h1')
      ∧ r.*1 ≡ₚ r'.*1.
Proof.
  split; [reflexivity|]. split; [vm_compute; reflexivity|].
  split; [vm_compute; reflexivity|].
  destruct (X6_same_labels_same_guide overlapping_scope
              (scope (PyStr "Full Life Story")
                 [ ("themes", PyList [ PyStr "Faith & Spirituality"; PyStr "Military Service";
                                        PyStr "Hobbies & Passions"; PyStr "Travel & Adventures";
                                        PyStr "Military Service" ]) ]) module_heap)
    as (r & h1 & r' & h1' & Hrun & Hrun' & Hperm & _).
  - reflexivity.
  - vm_compute; reflexivity.
  - vm_compute; reflexivity.
  - reflexivity.
  - intros v. cbv -[elem_of]. rewrite !elem_of_cons, !elem_of_nil. tauto.
  - exists r, h1, r', h1'. split; [exact Hrun|]. split; [exact Hrun'|exact Hperm].
Defined.

(** * [build_project_data] and the path into the selector *)

Lemma dict_set_fresh {V} (d : list (string * V)) (k : string) (v : V) :
  k ∉ d.*1 → dict_set d k v = d ++ [(k, v)].
Proof.
  induction d as [|[k' v'] d IH]; [done|].
  rewrite fmap_cons, not_elem_of_cons. intros [Hne Hk]. simpl in *.
  rewrite decide_False by done. by rewrite IH.
Qed.

Lemma dict_set_Forall {V} (P : string * V → Prop) (d : list (string * V))
    (k : string) (v : V) :
  Forall P d → P (k, v) → Forall P (dict_set d k v).
Proof.
  intros Hd Hkv. induction d as [|[k' v'] d IH]; simpl.
  - by constructor.
  - apply Forall_cons in Hd as [Hh Hd].
    destruct (decide (k' = k)); constructor; auto.
Qed.

(** When the question texts of an archetype are pairwise different, the
    loop over its questions produces one entry per question. *)
Lemma build_scoping_distinct (lt_data : legacy_type_data) (answers : gmap string pyval) :
  NoDup (question <$> follow_up_questions lt_data) →
  build_scoping lt_data answers
  = (λ q, (question q, default (PyStr "") (answers !! key q)))
      <$> follow_up_questions lt_data.
Proof.
  unfold build_scoping.
  set (f := λ q, (question q, default (PyStr "") (answers !! key q))).
  assert (∀ qs acc,
            NoDup (acc.*1 ++ (question <$> qs)) →
            foldl (λ scoping q,
                     dict_set scoping (question q)
                       (default (PyStr "") (answers !! key q))) acc qs
            = acc ++ (f <$> qs)) as Hgen.
  { induction qs as [|q qs IH]; intros acc Hnd; simpl.
    - by rewrite app_nil_r.
    - rewrite dict_set_fresh.
      + rewrite IH; [by rewrite <- app_assoc|].
        rewrite fmap_app. simpl. rewrite <- app_assoc. exact Hnd.
      + apply NoDup_app in Hnd as (_ & Hdisj & _). intros Hin.
        apply (Hdisj _ Hin). rewrite fmap_cons. left. }
  intros Hnd. by rewrite (Hgen _ []).
Qed.

Lemma catalog_question_texts_distinct :
  Forall (λ e, NoDup (question <$> follow_up_questions e.2)) LEGACY_TYPES.
Proof. compute_done. Qed.

(** X7. What [build_project_data] hands on.  For a session whose legacy
    type names a catalog archetype the call returns a dict whose
    "legacy_type" is that name, whose "legacy_description" is the
    catalog's description, and whose "scoping_details" has exactly one
    entry per follow-up question of the archetype, in catalog order,
    keyed by the question text and holding the answer stored under the
    question's key, or the empty string when none is stored.  Answers
    stored under other keys are ignored. *)
Theorem X7_built_project_data
    (st : session_state) (project_id created_at : string)
    (lt : string) (lt_data : legacy_type_data) :
  st_legacy_type st = PyStr lt →
  dict_get LEGACY_TYPES lt = Some lt_data →
  ∃ pd,
    build_project_data st project_id created_at = inr pd
    ∧ dict_get pd "legacy_type" = Some (PyStr lt)
    ∧ dict_get pd "legacy_description" = Some (PyStr (description lt_data))
    ∧ dict_get pd "scoping_details"
      = Some (PyDict ((λ q, (question q,
                             default (PyStr "") (st_scoping_answers st !! key q)))
                        <$> follow_up_questions lt_data)).
Proof.
  intros Hlt Hdata. unfold build_project_data, legacy_types_item.
  rewrite Hlt, Hdata. simpl. eexists. split; [reflexivity|].
  split_and!; [reflexivity|reflexivity|].
  simpl. do 2 f_equal. apply build_scoping_distinct.
  assert (Forall (λ e, NoDup (question <$> follow_up_questions e.2)) LEGACY_TYPES)
    as Hall by apply catalog_question_texts_distinct.
  rewrite Forall_forall in Hall.
  apply (Hall (lt, lt_data)). by apply dict_get_Some_elem_of.
Qed.

Lemma X7_built_project_data_witness :
  st_legacy_type military_session = PyStr "Military & Service"
  ∧ dict_get LEGACY_TYPES "Military & Service" = Some military_service_data
  ∧ ∃ pd,
      build_project_data military_session "20261104_093000" "2026-11-04T09:30:00" = inr pd
      ∧ dict_get pd "scoping_details"
        = Some (PyDict
                  [ ("What branch and era of service?", PyStr "US Army, 1968-1972");
                    ("Which aspects of your service are most important to capture? (Select all that apply)",
                     PyList [PyStr "Combat experiences"; PyStr "Honoring fallen comrades"]);
                    ("Are there aspects of your service you'd prefer to keep private?",
                     PyStr "") ]).
Proof.
  split; [reflexivity|]. split; [vm_compute; reflexivity|].
  destruct (X7_built_project_data military_session "20261104_093000"
              "2026-11-04T09:30:00" "Military & Service" military_service_data)
    as (pd & Hrun & _ & _ & Hsc); [reflexivity|vm_compute; reflexivity|].
  exists pd. split; [exact Hrun|]. rewrite Hsc. vm_compute. reflexivity.
Defined.

Lemma build_scoping_answer_ok (lt_data : legacy_type_data) (answers : gmap string pyval) :
  map_Forall (λ _ v, answer_ok v = true) answers →
  forallb (λ qa, answer_ok qa.2) (build_scoping lt_data answers) = true.
Proof.
  intros Hans. apply forallb_forall. intros qa Hqa%list_elem_of_In. revert qa Hqa.
  apply Forall_forall. unfold build_scoping.
  generalize (follow_up_questions lt_data). intros qs.
  assert (Forall (λ qa : string * pyval, answer_ok qa.2 = true) []) as Hacc
    by constructor.
  revert Hacc. generalize (@nil (string * pyval)).
  induction qs as [|q qs IH]; intros acc Hacc; [done|]. simpl.
  apply IH, dict_set_Forall; [done|]. simpl.
  destruct (answers !! key q) as [v|] eqn:Hv; [|done]. by apply (Hans (key q)).
Qed.

Lemma catalog_defaults_nonempty :
  Forall (λ e, shipped_defaults (PyStr e.1) ≠ []) LEGACY_TYPES.
Proof. compute_done. Qed.

(** X8. The wizard's path cannot fail in the selector.  Whenever the
    session's legacy type names a catalog archetype and every stored
    scoping answer is a string or a list of hashable values (what the
    radio, multiselect and text widgets return), [build_project_data]
    followed by [generate_questions] returns a guide; its categories
    start with the archetype's default categories, of which there is at
    least one, and include "Reflection & Legacy". *)
Theorem X8_wizard_path_returns
    (st : session_state) (project_id created_at : string) (lt : string) :
  st_legacy_type st = PyStr lt →
  lt ∈ LEGACY_TYPES.*1 →
  map_Forall (λ _ v, answer_ok v = true) (st_scoping_answers st) →
  ∃ cats,
    guide_categories st project_id created_at = inr cats
    ∧ shipped_defaults (PyStr lt) ≠ []
    ∧ shipped_defaults (PyStr lt) `prefix_of` cats
    ∧ "Reflection & Legacy" ∈ cats.
Proof.
  intros Hlt Hin Hans.
  destruct (dict_get_elem_of LEGACY_TYPES lt Hin) as (lt_data & Hdata & Hmem).
  unfold guide_categories, build_project_data, legacy_types_item.
  rewrite Hlt, Hdata. simpl from_option. rewrite bind_inr.
  unfold mret at 1, pyerr_ret. rewrite bind_inr.
  match goal with |- context [categories_for ?d] => set (pd := d) end.
  assert (accepts pd = true) as Hacc.
  { unfold accepts, pd. simpl. by apply build_scoping_answer_ok. }
  destruct (shipped_run pd module_heap) as (r & k & Hrun & _ & Hkeys & _);
    [reflexivity|done|].
  exists r.*1. unfold categories_for. rewrite Hrun, bind_inr. split; [done|].
  split_and!.
  - assert (Forall (λ e, shipped_defaults (PyStr e.1) ≠ []) LEGACY_TYPES) as Hall
      by apply catalog_defaults_nonempty.
    rewrite Forall_forall in Hall. apply (Hall (lt, lt_data) Hmem).
  - rewrite Hkeys. apply foldl_push_new_prefix.
  - rewrite Hkeys. apply elem_of_shipped_selected. by right; right.
Qed.

Lemma X8_wizard_path_returns_witness :
  st_legacy_type military_session = PyStr "Military & Service"
  ∧ "Military & Service" ∈ LEGACY_TYPES.*1
  ∧ map_Forall (λ _ v, answer_ok v = true) (st_scoping_answers military_session)
  ∧ ∃ cats,
      guide_categories military_session "20261104_093000" "2026-11-04T09:30:00"
      = inr cats
      ∧ shipped_defaults (PyStr "Military & Service") `prefix_of` cats
      ∧ "Reflection & Legacy" ∈ cats.
Proof.
  assert ("Military & Service" ∈ LEGACY_TYPES.*1) as Hin
    by (apply (bool_decide_unpack _); vm_compute; exact I).
  assert (map_Forall (λ _ v, answer_ok v = true) (st_scoping_answers military_session))
    as Hans by (apply (bool_decide_unpack _); vm_compute; exact I).
  split; [reflexivity|]. split; [exact Hin|]. split; [exact Hans|].
  destruct (X8_wizard_path_returns military_session "20261104_093000"
              "2026-11-04T09:30:00" "Military & Service")
    as (cats & Hrun & _ & Hpre & Hrl); [reflexivity|exact Hin|exact Hans|].
  exists cats. split; [exact Hrun|]. split; [exact Hpre|exact Hrl].
Defined.

(** * [_safe] *)

Section safe_facts.
Implicit Types (c : N) (t u : list N) (rs : list (N * list N)).

Lemma str_replace_app (char : N) (repl t u : list N) :
  str_replace char repl (t ++ u) = str_replace char repl t ++ str_replace char repl u.
Proof. apply bind_app. Qed.

Lemma replace_all_app rs t u :
  foldl (λ text cr, str_replace cr.1 cr.2 text) (t ++ u) rs
  = foldl (λ text cr, str_replace cr.1 cr.2 text) t rs
    ++ foldl (λ text cr, str_replace cr.1 cr.2 text) u rs.
Proof.
  revert t u. induction rs as [|[char repl] rs IH]; intros t u; [done|].
  simpl. by rewrite str_replace_app, IH.
Qed.

Lemma safe_app t u : _safe (t ++ u) = _safe t ++ _safe u.
Proof. unfold _safe, latin1_replace. by rewrite replace_all_app, fmap_app. Qed.

Lemma safe_cons c t : _safe (c :: t) = _safe [c] ++ _safe t.
Proof. apply (safe_app [c] t). Qed.

Lemma replace_all_other rs c :
  c ∉ rs.*1 → foldl (λ text cr, str_replace cr.1 cr.2 text) [c] rs = [c].
Proof.
  induction rs as [|[char repl] rs IH]; [done|].
  rewrite fmap_cons, not_elem_of_cons. intros [Hne Hc]. simpl in *.
  rewrite decide_False by done. by apply IH.
Qed.

Lemma safe_other c :
  c ∉ replacements.*1 → _safe [c] = [if decide (c < 256)%N then c else 63%N].
Proof. intros Hc. unfold _safe. by rewrite replace_all_other. Qed.

Lemma plain_not_replaced c : plain c → c ∉ replacements.*1.
Proof.
  intros [Hlt Hne] Hin.
  assert (Forall (λ k, (256 ≤ k)%N ∨ k = 0xa0%N) replacements.*1) as Hall
    by compute_done.
  rewrite Forall_forall in Hall. destruct (Hall c Hin); [lia|done].
Qed.

Lemma safe_plain_char c : plain c → _safe [c] = [c].
Proof.
  intros Hc. rewrite safe_other by by apply plain_not_replaced.
  destruct Hc as [Hlt _]. by rewrite decide_True.
Qed.

(** The image of one character: plain, and one to three characters
    long. *)
Lemma safe_char c : Forall plain (_safe [c]) ∧ 1 ≤ length (_safe [c]) ≤ 3.
Proof.
  destruct (decide (c ∈ replacements.*1)) as [Hin|Hout].
  - unfold replacements in Hin. simpl in Hin.
    repeat (apply elem_of_cons in Hin as [->|Hin]);
      [ (split; [by compute_done | compute; lia]).. |].
    by apply elem_of_nil in Hin.
  - rewrite safe_other by done. split; [|simpl; lia].
    apply Forall_singleton. case_decide; [|by compute_done].
    split; [done|]. intros ->. apply Hout. compute_done.
Qed.

Lemma safe_plain_text t : Forall plain t → _safe t = t.
Proof.
  induction 1 as [|c t Hc _ IH]; [done|].
  by rewrite safe_cons, safe_plain_char, IH.
Qed.

Lemma safe_plain t : Forall plain (_safe t).
Proof.
  induction t as [|c t IH]; [constructor|].
  rewrite safe_cons. apply Forall_app. split; [apply (safe_char c)|done].
Qed.

Lemma safe_length t : length t ≤ length (_safe t) ≤ 3 * length t.
Proof.
  induction t as [|c t IH]; [simpl; lia|].
  rewrite safe_cons, length_app. destruct (safe_char c) as [_ Hc]. simpl. lia.
Qed.

End safe_facts.

(** X9. Whatever the input, [_safe] returns text made of latin-1 code
    points only, none of them the non-breaking space: text the core PDF
    fonts can always encode.  It never drops a character: each input
    character yields one to three output characters. *)
Theorem X9_safe_is_latin1 (text : list N) :
  Forall (λ c, (c < 256)%N ∧ c ≠ 0xa0%N) (_safe text)
  ∧ length text ≤ length (_safe text) ≤ 3 * length text.
Proof. split; [apply safe_plain|apply safe_length]. Qed.

(** X10. [_safe] is idempotent: sanitising sanitised text changes
    nothing (the page header sanitises fields that were sanitised when
    the document object was created). *)
Theorem X10_safe_idempotent (text : list N) : _safe (_safe text) = _safe text.
Proof. apply safe_plain_text, safe_plain. Qed.

(** X11. [_safe] works character by character: the sanitised
    concatenation is the concatenation of the sanitised parts, so
    sanitising a formatted string and formatting sanitised pieces give
    the same text. *)
Theorem X11_safe_concatenation (text1 text2 : list N) :
  _safe (text1 ++ text2) = _safe text1 ++ _safe text2.
Proof. apply safe_app. Qed.

(** X12. Text that is already latin-1 and has no non-breaking space
    passes through [_safe] unchanged. *)
Theorem X12_safe_keeps_plain_text (text : list N) :
  Forall (λ c, (c < 256)%N ∧ c ≠ 0xa0%N) text → _safe text = text.
Proof. apply safe_plain_text. Qed.

Lemma X12_safe_keeps_plain_text_witness :
  Forall (λ c, (c < 256)%N ∧ c ≠ 0xa0%N) [74; 111; 115; 233; 39; 115]%N
  ∧ _safe [74; 111; 115; 233; 39; 115]%N = [74; 111; 115; 233; 39; 115]%N.
Proof.
  assert (Forall (λ c, (c < 256)%N ∧ c ≠ 0xa0%N) [74; 111; 115; 233; 39; 115]%N)
    as Hplain by (apply (bool_decide_unpack _); vm_compute; exact I).
  split; [exact Hplain|]. apply X12_safe_keeps_plain_text, Hplain.
Defined.

(** * The wizard *)

Lemma legacy_types_item_catalog (lt : string) :
  lt ∈ LEGACY_TYPES.*1 → ∃ lt_data, legacy_types_item (PyStr lt) = inr lt_data
                                    ∧ dict_get LEGACY_TYPES lt = Some lt_data.
Proof.
  intros Hin. destruct (dict_get_elem_of LEGACY_TYPES lt Hin) as (lt_data & Hget & _).
  exists lt_data. unfold legacy_types_item. by rewrite Hget.
Qed.

Lemma build_project_data_catalog (f : session_state) (project_id created_at lt : string) :
  st_legacy_type f = PyStr lt →
  lt ∈ LEGACY_TYPES.*1 →
  map_Forall (λ _ v, answer_ok v = true) (st_scoping_answers f) →
  ∃ pd, build_project_data f project_id created_at = inr pd ∧ accepts pd = true.
Proof.
  intros Hlt Hin Hans. destruct (legacy_types_item_catalog lt Hin) as (lt_data & Hitem & _).
  unfold build_project_data. rewrite Hlt, Hitem, bind_inr.
  eexists. split; [reflexivity|].
  unfold accepts. simpl. by apply build_scoping_answer_ok.
Qed.

Lemma master_questions_nonblank (c : string) : Forall (λ q, q ≠ "") (master_questions c).
Proof.
  destruct (decide (master_questions c = [])) as [->|Hne]; [constructor|].
  assert (Forall (λ e, Forall (λ q, q ≠ "") e.2) QUESTIONS_BY_CATEGORY_literal) as Hall
    by compute_done.
  rewrite Forall_forall in Hall.
  apply (Hall (c, master_questions c)), master_questions_literal, Hne.
Qed.

Lemma guide_for_accepts (pd : list (string * pyval)) :
  accepts pd = true →
  guide_for pd = inr (with_questions master_questions <$> shipped_selected pd).
Proof.
  intros Hacc. destruct (shipped_run pd module_heap) as (r & k & Hrun & Hval & _);
    [reflexivity|done|].
  unfold guide_for. by rewrite Hrun, bind_inr, <- Hval.
Qed.

Lemma guide_for_ok (pd : list (string * pyval)) :
  accepts pd = true → ∃ guide, guide_for pd = inr guide ∧ guide_ok guide.
Proof.
  intros Hacc. eexists. split; [by apply guide_for_accepts|]. split.
  - assert ("Reflection & Legacy" ∈ shipped_selected pd) as Hin.
    { apply elem_of_shipped_selected. by right; right. }
    intros Hnil. apply fmap_nil_inv in Hnil. rewrite Hnil in Hin.
    by apply elem_of_nil in Hin.
  - apply Forall_fmap, Forall_forall. intros c Hc. simpl. split.
    + revert c Hc. apply Forall_forall, shipped_selected_pooled.
    + apply master_questions_nonblank.
Qed.

Lemma read_answers_ok (w : scoping_widgets) (questions : list follow_up_question) :
  map_Forall (λ _ v, answer_ok v = true) (read_answers w questions).
Proof.
  unfold read_answers.
  assert (map_Forall (λ (_ : string) v, answer_ok v = true) (∅ : gmap string pyval))
    as Hacc by apply map_Forall_empty.
  revert Hacc. generalize (∅ : gmap string pyval).
  induction questions as [|q questions IH]; intros acc Hacc; [done|]. simpl.
  apply IH, map_Forall_insert_2; [|done].
  destruct (type q); simpl; try done.
  induction (multiselect_value w (key q)) as [|x xs IHx]; [done|]. by simpl.
Qed.


Section wizard_facts.
Context (strip : string → string).
Implicit Types (s : wizard_state) (w : edit_widgets).

Local Abbreviation entry_ok :=
  (λ cq : string * list string, cq.2 ≠ [] ∧ Forall (λ q, q ≠ "") cq.2).

Lemma edit_question_nonblank w cat_idx acc q_idx :
  Forall (λ q, q ≠ "") acc.1 →
  Forall (λ q, q ≠ "") (edit_question strip w cat_idx acc q_idx).1.
Proof.
  intros Hacc. unfold edit_question.
  destruct (negb _ && _) eqn:Hc; [|done]. simpl.
  apply andb_true_iff in Hc as [_ Hne%bool_decide_eq_true].
  apply Forall_app. split; [done|]. by apply Forall_singleton.
Qed.

Lemma edit_category_nonblank w pressed cat_idx q_list up :
  Forall (λ q, q ≠ "") (edit_category strip w pressed cat_idx q_list up).1.
Proof.
  unfold edit_category.
  assert (Forall (λ q, q ≠ "")
            (foldl (edit_question strip w cat_idx) ([], up) (seq 0 (length q_list))).1)
    as Hloop.
  { assert (Forall (λ q : string, q ≠ "") ([], up).1) as Hacc by constructor.
    revert Hacc. generalize (([], up) : list string * list (string * string)).
    induction (seq 0 (length q_list)) as [|i rest IH]; intros acc Hacc; [done|].
    simpl. by apply IH, edit_question_nonblank. }
  case_bool_decide; [|done]. case_bool_decide; [|done]. simpl.
  apply Forall_app. split; [done|]. by apply Forall_singleton.
Qed.

Lemma edit_categories_ok w pressed questions :
  Forall entry_ok (edit_categories strip w pressed questions).1.
Proof.
  unfold edit_categories.
  assert (Forall entry_ok
            (([], []) : list (string * list string) * list (string * string)).1)
    as Hacc by constructor.
  revert Hacc.
  generalize (([], []) : list (string * list string) * list (string * string)).
  induction (zip (seq 0 (length questions)) questions) as [|ic ics IH];
    intros acc Hacc; [done|].
  simpl. apply IH. simpl. case_bool_decide as Hne; [|done].
  apply dict_set_Forall; [done|]. simpl. split; [done|].
  apply edit_category_nonblank.
Qed.

Lemma add_category_ok w pressed updated :
  Forall entry_ok updated.1 →
  Forall entry_ok (add_category strip w pressed updated).1.
Proof.
  intros Hup. unfold add_category.
  destruct (_ && _ && _) eqn:Hc; [|done]. simpl.
  apply andb_true_iff in Hc as [_ Hq%bool_decide_eq_true].
  apply dict_set_Forall; [done|]. simpl. split; [done|]. by apply Forall_singleton.
Qed.

(** A run from a state that satisfies the invariant raises nothing and
    ends in such a state. *)
Lemma wizard_run_inv s ev :
  wizard_inv strip s →
  wizard_inv strip (wizard_run strip s ev).1
  ∧ ∀ e, (wizard_run strip s ev).2 ≠ Some (Raised e).
Proof.
  intros Hinv.
  pose proof Hinv as (Hstep & Hlt & Hans & Hsc & Haud & Hfmt & Hsix & Hguide).
  unfold wizard_run, TOTAL_STEPS in Hstep |- *.
  (* the parts of the invariant that a run carries over unchanged *)
  assert (∀ n, n ≤ step s → 2 ≤ n →
            ∃ lt, st_legacy_type (fields s) = PyStr lt ∧ lt ∈ LEGACY_TYPES.*1)
    as Hlt' by (intros n ??; apply Hlt; lia).
  assert (∀ n, n ≤ step s → 3 ≤ n →
            ∃ lt lt_data (sw : scoping_widgets),
              st_legacy_type (fields s) = PyStr lt
              ∧ dict_get LEGACY_TYPES lt = Some lt_data
              ∧ st_scoping_answers (fields s)
                = read_answers sw (follow_up_questions lt_data))
    as Hsc' by (intros n ??; apply Hsc; lia).
  assert (∀ n, n ≤ step s → 4 ≤ n →
            st_audiences (fields s) ≠ [] ∧ strip (st_subject_name (fields s)) ≠ "")
    as Haud' by (intros n ??; apply Haud; lia).
  assert (∀ n, n ≤ step s → 5 ≤ n → st_delivery_formats (fields s) ≠ [])
    as Hfmt' by (intros n ??; apply Hfmt; lia).
  destruct (step s) as [|[|[|[|[|[|[|n]]]]]]] eqn:Hs; try lia;
    destruct ev as [sel | w2 pressed | checked rel name detail pressed
                    | checked timeline notes pressed
                    | brief_clock confirm_clock saved pressed | clock w pressed];
    try (split; [exact Hinv|done]).
  - (* step 1 *)
    unfold run_step1. destruct sel as [name|]; [|split; [exact Hinv|done]].
    case_bool_decide as Hin; [|split; [exact Hinv|done]].
    split; [|done]. unfold wizard_inv, TOTAL_STEPS. simpl.
    split_and!; try done; try lia. intros _. by exists name.
  - (* step 2 *)
    unfold run_step2. destruct (Hlt' 2) as (lt & Hlteq & Hin); [lia..|].
    destruct (legacy_types_item_catalog lt Hin) as (lt_data & Hitem & Hget).
    rewrite Hlteq, Hitem.
    destruct pressed as [[|]|]; (split; [|done]); [| |exact Hinv];
      unfold wizard_inv, TOTAL_STEPS; simpl.
    + split_and!; try done; try lia.
    + split_and!; try done; try lia.
      * intros _. by exists lt.
      * apply read_answers_ok.
      * intros _. by exists lt, lt_data, w2.
  - (* step 3 *)
    unfold run_step3.
    destruct pressed as [[|]|]; [| |split; [exact Hinv|done]].
    + split; [|done]. unfold wizard_inv, TOTAL_STEPS. simpl.
      split_and!; try done; try lia. intros _. apply (Hlt' 2); lia.
    + repeat case_bool_decide; try (split; [exact Hinv|done]).
      split; [|done]. unfold wizard_inv, TOTAL_STEPS. simpl.
      split_and!; try done; try lia.
      * intros _. apply (Hlt' 2); lia.
      * intros _. apply (Hsc' 3); lia.
      * intros _. split; [|done].
        by destruct (selected_labels AUDIENCE_OPTIONS checked).
  - (* step 4 *)
    unfold run_step4.
    destruct pressed as [[|]|]; [| |split; [exact Hinv|done]].
    + split; [|done]. unfold wizard_inv, TOTAL_STEPS. simpl.
      split_and!; try done; try lia.
      * intros _. apply (Hlt' 2); lia.
      * intros _. apply (Hsc' 3); lia.
    + case_bool_decide; try (split; [exact Hinv|done]).
      split; [|done]. unfold wizard_inv, TOTAL_STEPS. simpl.
      split_and!; try done; try lia.
      * intros _. apply (Hlt' 2); lia.
      * intros _. apply (Hsc' 3); lia.
      * intros _. apply (Haud' 4); lia.
      * intros _. by destruct (selected_labels DELIVERY_FORMATS checked).
  - (* step 5 *)
    unfold run_step5. destruct (Hlt' 2) as (lt & Hlteq & Hin); [lia..|].
    destruct (legacy_types_item_catalog lt Hin) as (lt_data & Hitem & Hget).
    rewrite Hlteq, Hitem.
    destruct (build_project_data_catalog (fields s) brief_clock.1 brief_clock.2 lt
                Hlteq Hin Hans) as (brief & -> & _).
    destruct pressed as [[|]|]; [| |split; [exact Hinv|done]].
    + split; [|done]. unfold wizard_inv, TOTAL_STEPS. simpl.
      split_and!; try done; try lia.
    + destruct (build_project_data_catalog (fields s) confirm_clock.1 confirm_clock.2 lt
                  Hlteq Hin Hans) as (pd & -> & Hacc).
      destruct saved as [path|]; [|split; [exact Hinv|done]].
      destruct (guide_for_ok pd Hacc) as (guide & -> & Hok).
      split; [|done]. unfold wizard_inv, TOTAL_STEPS. simpl.
      split_and!; try done; try lia.
      * intros _. by exists lt.
      * intros _. apply (Hsc' 3); lia.
      * intros _. apply (Haud' 4); lia.
      * intros _. apply (Hfmt' 5); lia.
  - (* step 6 *)
    unfold run_step6. destruct (Hsix eq_refl) as [Hgen [pd Hsaved]]. rewrite Hsaved.
    set (updated := add_category strip w pressed
                      (edit_categories strip w pressed (generated_questions s))).
    assert (Forall entry_ok updated.1) as Hup
      by apply add_category_ok, edit_categories_ok.
    set (s2 := if bool_decide (updated.1 ≠ [])
               then set_questions updated.1 updated.2 (questions_generated s) s
               else s).
    assert (fields s2 = fields s ∧ step s2 = 6
            ∧ questions_generated s2 = questions_generated s
            ∧ saved_project_data s2 = saved_project_data s
            ∧ guide_ok (generated_questions s2)) as (Hf2 & Hs2 & Hg2 & Hsv2 & Hok2).
    { unfold s2. case_bool_decide as Hne; simpl; split_and!; try done.
      by apply Hguide. }
    assert (wizard_inv strip s2) as Hinv2.
    { unfold wizard_inv, TOTAL_STEPS. rewrite Hf2, Hs2, Hg2, Hsv2.
      split_and!; try done; try lia;
        try (intros _;
             first [apply (Hlt' 2) | apply (Hsc' 3) | apply (Haud' 4) | apply (Hfmt' 5)];
             lia). }
    destruct pressed as [[| | |]|]; (split; [|done]); try exact Hinv2.
    unfold wizard_inv, TOTAL_STEPS. simpl. rewrite Hf2, Hg2.
    split_and!; try done; try lia;
      intros _;
      first [apply (Hlt' 2) | apply (Hsc' 3) | apply (Haud' 4) | apply (Hfmt' 5)];
      lia.
Qed.

Lemma init_state_inv : wizard_inv strip init_state.
Proof.
  unfold wizard_inv, TOTAL_STEPS. simpl. split_and!; try done; try lia.
Qed.

Lemma reachable_inv s : reachable strip s → wizard_inv strip s.
Proof.
  induction 1 as [|s ev _ IH]; [apply init_state_inv|].
  by apply wizard_run_inv.
Qed.

End wizard_facts.

Lemma reachable_run_events (strip : string → string) (s : wizard_state) (evs : list event) :
  reachable strip s → reachable strip (run_events strip s evs).
Proof.
  unfold run_events. revert s. induction evs as [|ev evs IH]; intros s Hs; [done|].
  simpl. apply IH. by constructor.
Qed.

Lemma sample_wizard_state_reachable : reachable strip_spaces sample_wizard_state.
Proof. apply reachable_run_events. constructor. Qed.

(** X13. The wizard's own logic never raises.  In every session state a
    user can bring about, whatever the widgets return and whichever
    button is pressed, the catalog lookup [LEGACY_TYPES[lt]],
    [build_project_data] and [generate_questions] return: a run ends
    normally or, at worst, with the project file not written.  (Drawing
    the page and producing the downloads are not part of the model.) *)
Theorem X13_wizard_never_raises
    (strip : string → string) (s : wizard_state) (ev : event) (e : pyerr) :
  reachable strip s → (wizard_run strip s ev).2 ≠ Some (Raised e).
Proof. intros Hs. by apply wizard_run_inv, reachable_inv. Qed.

Lemma X13_wizard_never_raises_witness :
  reachable strip_spaces sample_wizard_state
  ∧ (wizard_run strip_spaces sample_wizard_state
       (Run6 ("20261104_093100", "2026-11-04T09:31:00") delete_all_widgets (Some Back6))).2
    ≠ Some (Raised KeyError).
Proof.
  split; [apply sample_wizard_state_reachable|].
  apply X13_wizard_never_raises, sample_wizard_state_reachable.
Defined.



(** X15. What the later steps can rely on.  In every reachable session
    state at step 4 or later at least one audience is stored and the
    subject's name is not blank; at step 5 or later at least one delivery
    format is stored. *)
Theorem X15_wizard_validated_fields (strip : string → string) (s : wizard_state) :
  reachable strip s →
  (4 ≤ step s →
   st_audiences (fields s) ≠ [] ∧ strip (st_subject_name (fields s)) ≠ "")
  ∧ (5 ≤ step s → st_delivery_formats (fields s) ≠ []).
Proof. intros (_ & _ & _ & _ & Haud & Hfmt & _)%reachable_inv. by split. Qed.

Lemma X15_wizard_validated_fields_witness :
  reachable strip_spaces sample_wizard_state
  ∧ 4 ≤ step sample_wizard_state
  ∧ st_audiences (fields sample_wizard_state) ≠ []
  ∧ strip_spaces (st_subject_name (fields sample_wizard_state)) ≠ "".
Proof.
  assert (4 ≤ step sample_wizard_state) as H4 by (vm_compute; lia).
  split; [apply sample_wizard_state_reachable|]. split; [exact H4|].
  apply (X15_wizard_validated_fields strip_spaces sample_wizard_state
           sample_wizard_state_reachable), H4.
Defined.

(** X16. The question bank is never left empty or ragged.  In every
    reachable session state at step 6, whatever was edited, deleted or
    added, the stored guide has at least one category, no category
    without questions and no empty question, and the project data saved
    at confirmation is still there. *)
Theorem X16_wizard_guide_kept_well_formed (strip : string → string) (s : wizard_state) :
  reachable strip s →
  step s = 6 →
  generated_questions s ≠ []
  ∧ Forall (λ cq, cq.2 ≠ [] ∧ Forall (λ q, q ≠ "") cq.2) (generated_questions s)
  ∧ is_Some (saved_project_data s).
Proof.
  intros (_ & _ & _ & _ & _ & _ & Hsix & Hguide)%reachable_inv Hs.
  destruct (Hsix Hs) as [Hgen Hsaved]. destruct (Hguide Hgen) as [Hne Hall].
  by split_and!.
Qed.

Lemma X16_wizard_guide_kept_well_formed_witness :
  reachable strip_spaces sample_wizard_state
  ∧ step sample_wizard_state = 6
  ∧ generated_questions sample_wizard_state ≠ []
  ∧ Forall (λ cq, cq.2 ≠ [] ∧ Forall (λ q, q ≠ "") cq.2)
           (generated_questions sample_wizard_state)
  ∧ is_Some (saved_project_data sample_wizard_state).
Proof.
  split; [apply sample_wizard_state_reachable|]. split; [vm_compute; reflexivity|].
  apply (X16_wizard_guide_kept_well_formed strip_spaces sample_wizard_state
           sample_wizard_state_reachable).
  vm_compute; reflexivity.
Defined.

Section edit_facts.
Context (strip : string → string).
Implicit Types (s : wizard_state) (w : edit_widgets).

Lemma edit_category_all_deleted w pressed cat_idx q_list up :
  (∀ i j, edit_delete w i j = true) →
  pressed ≠ Some (AddQuestion cat_idx) →
  edit_category strip w pressed cat_idx q_list up = ([], up).
Proof.
  intros Hdel Hadd. unfold edit_category. rewrite bool_decide_eq_false_2 by done.
  generalize (([], up) : list string * list (string * string)).
  induction (seq 0 (length q_list)) as [|i rest IH]; intros acc; [done|].
  simpl. unfold edit_question at 2. rewrite Hdel. simpl. apply IH.
Qed.

Lemma edit_categories_all_deleted w pressed questions :
  (∀ i j, edit_delete w i j = true) →
  (∀ i, pressed ≠ Some (AddQuestion i)) →
  edit_categories strip w pressed questions = ([], []).
Proof.
  intros Hdel Hadd. unfold edit_categories.
  generalize (([], []) : list (string * list string) * list (string * string)).
  induction (zip (seq 0 (length questions)) questions) as [|ic ics IH];
    intros acc; [done|].
  cbn [foldl]. rewrite edit_category_all_deleted by done. cbn [fst snd].
  rewrite bool_decide_eq_false_2 by (intros Hne; by apply Hne).
  rewrite IH. by destruct acc.
Qed.

End edit_facts.

Lemma dict_get_dict_set {V} (d : list (string * V)) (k : string) (v : V) :
  dict_get (dict_set d k v) k = Some v.
Proof.
  induction d as [|[k' v'] d IH]; simpl.
  - by rewrite decide_True.
  - destruct (decide (k' = k)) as [->|Hne]; simpl.
    + by rewrite decide_True.
    + by rewrite decide_False.
Qed.

Lemma dict_set_keys {V} (d : list (string * V)) (k : string) (v : V) :
  k ∈ d.*1 → (dict_set d k v).*1 = d.*1.
Proof.
  induction d as [|[k' v'] d IH]; [by intros ?%elem_of_nil|].
  rewrite fmap_cons, elem_of_cons. intros Hk. simpl.
  destruct (decide (k' = k)) as [->|Hne]; [done|].
  destruct Hk as [->|Hk]; [done|]. rewrite fmap_cons. simpl. by rewrite IH.
Qed.

Lemma dict_set_not_nil {V} (d : list (string * V)) (k : string) (v : V) :
  dict_set d k v ≠ [].
Proof. destruct d as [|[k' v'] d]; simpl; [done|]. by destruct (decide (k' = k)). Qed.

Section edit_round_trip.
Context (strip : string → string).
Implicit Types (s : wizard_state) (w : edit_widgets).

(** The inner loop rebuilds a question list whose text boxes show the
    stored questions. *)
Lemma edit_category_untouched w pressed cat_idx q_list up :
  (∀ j q, q_list !! j = Some q →
          strip (edit_text w cat_idx j) = q ∧ q ≠ ""
          ∧ edit_delete w cat_idx j = false) →
  pressed ≠ Some (AddQuestion cat_idx) →
  (edit_category strip w pressed cat_idx q_list up).1 = q_list.
Proof.
  intros Hw Hadd. unfold edit_category. rewrite bool_decide_eq_false_2 by done.
  assert (∀ n a acc,
            a + n ≤ length q_list →
            acc.1 = take a q_list →
            (foldl (edit_question strip w cat_idx) acc (seq a n)).1
            = take (a + n) q_list) as Hloop.
  { induction n as [|n IH]; intros a acc Hlen Hacc.
    - by rewrite Nat.add_0_r.
    - cbn [seq foldl]. rewrite IH; [f_equal; lia|lia|].
      destruct (lookup_lt_is_Some_2 q_list a) as [q Hq]; [lia|].
      destruct (Hw a q Hq) as (Htext & Hne & Hdel).
      unfold edit_question. rewrite Htext, Hdel, bool_decide_eq_true_2 by done.
      simpl. rewrite Hacc. symmetry. by apply take_S_r. }
  rewrite (Hloop (length q_list) 0); [by rewrite take_ge by done|lia|done].
Qed.

(** The outer loop rebuilds the guide. *)
Lemma edit_categories_untouched w pressed questions :
  NoDup questions.*1 →
  Forall (λ cq, cq.2 ≠ []) questions →
  (∀ i c q_list j q,
     questions !! i = Some (c, q_list) → q_list !! j = Some q →
     strip (edit_text w i j) = q ∧ q ≠ "" ∧ edit_delete w i j = false) →
  (∀ i, pressed ≠ Some (AddQuestion i)) →
  (edit_categories strip w pressed questions).1 = questions.
Proof.
  intros Hnd Hne Hw Hadd. unfold edit_categories.
  assert (∀ n a acc,
            a + n = length questions →
            acc.1 = take a questions →
            (foldl (λ acc ic,
                      let edited := edit_category strip w pressed ic.1 ic.2.2 acc.2 in
                      (if bool_decide (edited.1 ≠ [])
                       then dict_set acc.1 ic.2.1 edited.1
                       else acc.1, edited.2))
                   acc (zip (seq a n) (drop a questions))).1
            = questions) as Hloop.
  { induction n as [|n IH]; intros a acc Hlen Hacc.
    - simpl. rewrite Hacc. apply take_ge. lia.
    - destruct (lookup_lt_is_Some_2 questions a) as [[c q_list] Hcq]; [lia|].
      rewrite (drop_S _ _ _ Hcq). cbn [seq zip zip_with foldl]. apply IH; [lia|].
      cbn [fst snd].
      rewrite edit_category_untouched by (eauto using Hw).
      assert (q_list ≠ []) as Hq.
      { rewrite Forall_forall in Hne. apply (Hne (c, q_list)).
        by eapply list_elem_of_lookup_2. }
      rewrite bool_decide_eq_true_2 by done. rewrite Hacc.
      rewrite dict_set_fresh.
      + symmetry. by apply take_S_r.
      + intros Hin. apply list_elem_of_fmap in Hin as ([c' q'] & Heq & Hin).
        simpl in Heq. subst c'.
        apply list_elem_of_lookup in Hin as [i Hi].
        apply lookup_take_Some in Hi as [Hi Hlt].
        assert (questions.*1 !! i = Some c) as H1 by (by rewrite list_lookup_fmap, Hi).
        assert (questions.*1 !! a = Some c) as H2 by (by rewrite list_lookup_fmap, Hcq).
        pose proof (NoDup_lookup _ _ _ _ Hnd H1 H2). lia. }
  apply (Hloop (length questions) 0); [lia|done].
Qed.

End edit_round_trip.

(** X17. The guide cannot be emptied.  At step 6, when every delete box
    is ticked and no "Add" button is pressed, the run finds nothing to
    keep and therefore stores nothing: the guide and the priorities stay
    exactly as they were. *)
Theorem X17_deleting_everything_changes_nothing
    (strip : string → string) (s : wizard_state) (clock : string * string)
    (w : edit_widgets) (pressed : option button6) :
  step s = 6 →
  is_Some (saved_project_data s) →
  (∀ i j, edit_delete w i j = true) →
  (∀ i, pressed ≠ Some (AddQuestion i)) →
  pressed ≠ Some AddCategory →
  generated_questions (wizard_run strip s (Run6 clock w pressed)).1
  = generated_questions s
  ∧ priority_map (wizard_run strip s (Run6 clock w pressed)).1 = priority_map s.
Proof.
  intros Hs [pd Hsaved] Hdel Hadd Hcat.
  unfold wizard_run. rewrite Hs. unfold run_step6. rewrite Hsaved.
  rewrite edit_categories_all_deleted by done.
  unfold add_category. rewrite (bool_decide_eq_false_2 (pressed = _)) by done.
  cbn [andb fst snd].
  rewrite (bool_decide_eq_false_2 (_ ≠ _)) by (intros Hne; by apply Hne).
  by destruct pressed as [[| | |]|].
Qed.

Lemma X17_deleting_everything_changes_nothing_witness :
  step sample_wizard_state = 6
  ∧ is_Some (saved_project_data sample_wizard_state)
  ∧ generated_questions
      (wizard_run strip_spaces sample_wizard_state
         (Run6 ("20261104_093100", "2026-11-04T09:31:00") delete_all_widgets None)).1
    = generated_questions sample_wizard_state.
Proof.
  assert (is_Some (saved_project_data sample_wizard_state)) as Hsaved
    by (vm_compute; eexists; reflexivity).
  split; [vm_compute; reflexivity|]. split; [exact Hsaved|].
  apply (X17_deleting_everything_changes_nothing strip_spaces sample_wizard_state
           ("20261104_093100", "2026-11-04T09:31:00") delete_all_widgets None);
    [vm_compute; reflexivity|exact Hsaved|reflexivity|discriminate..].
Defined.

(** X18. Showing the question bank does not change it.  At step 6 every
    run stores what the widgets hold.  When the text boxes hold the
    stored questions, no delete box is ticked and no "Add" button is
    pressed, the stored guide is rebuilt exactly as it was, provided its
    category names are pairwise different, no category is empty, and no
    question is empty or changed by [strip]. *)
Theorem X18_untouched_render_keeps_guide
    (strip : string → string) (s : wizard_state) (clock : string * string)
    (w : edit_widgets) (pressed : option button6) :
  step s = 6 →
  is_Some (saved_project_data s) →
  NoDup (generated_questions s).*1 →
  Forall (λ cq, cq.2 ≠ [] ∧ Forall (λ q, q ≠ "" ∧ strip q = q) cq.2)
         (generated_questions s) →
  (∀ i c q_list j q,
     generated_questions s !! i = Some (c, q_list) → q_list !! j = Some q →
     edit_text w i j = q ∧ edit_delete w i j = false) →
  (∀ i, pressed ≠ Some (AddQuestion i)) →
  pressed ≠ Some AddCategory →
  generated_questions (wizard_run strip s (Run6 clock w pressed)).1
  = generated_questions s.
Proof.
  intros Hs [pd Hsaved] Hnd Hok Hw Hadd Hcat.
  unfold wizard_run. rewrite Hs. unfold run_step6. rewrite Hsaved.
  unfold add_category. rewrite (bool_decide_eq_false_2 (pressed = _)) by done.
  cbn [andb].
  assert ((edit_categories strip w pressed (generated_questions s)).1
          = generated_questions s) as Hsame.
  { apply edit_categories_untouched; [done| | |done].
    - eapply Forall_impl; [exact Hok|]. by intros cq [? _].
    - intros i c q_list j q Hi Hj. destruct (Hw i c q_list j q Hi Hj) as [-> ->].
      rewrite Forall_forall in Hok.
      destruct (Hok (c, q_list)) as [_ Hqs]; [by eapply list_elem_of_lookup_2|].
      rewrite Forall_forall in Hqs.
      destruct (Hqs q) as [Hne Hstrip]; [by eapply list_elem_of_lookup_2|].
      by split_and!. }
  case_bool_decide as Hne.
  - destruct pressed as [[| | |]|]; simpl; exact Hsame.
  - by destruct pressed as [[| | |]|].
Qed.

Lemma untouched_widgets_show (questions : list (string * list string))
    (i j : nat) (c q : string) (q_list : list string) :
  questions !! i = Some (c, q_list) → q_list !! j = Some q →
  edit_text (untouched_widgets questions) i j = q
  ∧ edit_delete (untouched_widgets questions) i j = false.
Proof. intros Hi Hj. simpl. rewrite Hi. simpl. by rewrite Hj. Qed.

Lemma X18_untouched_render_keeps_guide_witness :
  step sample_wizard_state = 6
  ∧ is_Some (saved_project_data sample_wizard_state)
  ∧ NoDup (generated_questions sample_wizard_state).*1
  ∧ Forall (λ cq, cq.2 ≠ [] ∧ Forall (λ q, q ≠ "" ∧ strip_spaces q = q) cq.2)
           (generated_questions sample_wizard_state)
  ∧ generated_questions
      (wizard_run strip_spaces sample_wizard_state
         (Run6 ("20261104_093100", "2026-11-04T09:31:00")
            (untouched_widgets (generated_questions sample_wizard_state)) None)).1
    = generated_questions sample_wizard_state.
Proof.
  assert (is_Some (saved_project_data sample_wizard_state)) as Hsaved
    by (vm_compute; eexists; reflexivity).
  assert (NoDup (generated_questions sample_wizard_state).*1) as Hnd
    by (apply (bool_decide_unpack _); vm_compute; exact I).
  assert (Forall (λ cq, cq.2 ≠ [] ∧ Forall (λ q, q ≠ "" ∧ strip_spaces q = q) cq.2)
                 (generated_questions sample_wizard_state)) as Hok
    by (apply (bool_decide_unpack _); vm_compute; exact I).
  split; [vm_compute; reflexivity|]. split; [exact Hsaved|].
  split; [exact Hnd|]. split; [exact Hok|].
  apply (X18_untouched_render_keeps_guide strip_spaces sample_wizard_state
           ("20261104_093100", "2026-11-04T09:31:00")
           (untouched_widgets (generated_questions sample_wizard_state)) None);
    [vm_compute; reflexivity|exact Hsaved|exact Hnd|exact Hok| |discriminate..].
  intros i c q_list j q. apply untouched_widgets_show.
Defined.

(** X19. "Add Category" with the name of a category that is still in the
    guide does not add anything: that category keeps its place, and its
    questions are replaced by the single new question.  In general, after
    a successful "Add Category" the named category holds exactly the new
    question, which gets the priority "Nice to Have". *)
Theorem X19_add_category_replaces_existing
    (strip : string → string) (s : wizard_state) (clock : string * string)
    (w : edit_widgets) :
  step s = 6 →
  is_Some (saved_project_data s) →
  strip (new_cat_name w) ≠ "" →
  strip (new_cat_q w) ≠ "" →
  let edited := edit_categories strip w (Some AddCategory) (generated_questions s) in
  let s' := (wizard_run strip s (Run6 clock w (Some AddCategory))).1 in
  dict_get (generated_questions s') (strip (new_cat_name w)) = Some [strip (new_cat_q w)]
  ∧ dict_get (priority_map s') (strip (new_cat_q w)) = Some "Nice to Have"
  ∧ (strip (new_cat_name w) ∈ edited.1.*1 →
     (generated_questions s').*1 = edited.1.*1).
Proof.
  intros Hs [pd Hsaved] Hname Hq edited s'. unfold s', wizard_run.
  rewrite Hs. unfold run_step6. rewrite Hsaved.
  unfold add_category. fold edited.
  rewrite (bool_decide_eq_true_2 (Some AddCategory = _)) by done.
  rewrite (bool_decide_eq_true_2 (strip (new_cat_name w) ≠ "")) by done.
  rewrite (bool_decide_eq_true_2 (strip (new_cat_q w) ≠ "")) by done.
  cbn [andb fst snd].
  rewrite bool_decide_eq_true_2 by apply dict_set_not_nil. cbn.
  split_and!.
  - apply dict_get_dict_set.
  - apply dict_get_dict_set.
  - apply dict_set_keys.
Qed.

Lemma X19_add_category_replaces_existing_witness :
  step sample_wizard_state = 6
  ∧ is_Some (saved_project_data sample_wizard_state)
  ∧ strip_spaces " Values & Life Lessons " ≠ ""
  ∧ strip_spaces "What would you tell a young recruit?" ≠ ""
  ∧ dict_get
      (generated_questions
         (wizard_run strip_spaces sample_wizard_state
            (Run6 ("20261104_093100", "2026-11-04T09:31:00")
               (add_existing_category_widgets (generated_questions sample_wizard_state))
               (Some AddCategory))).1)
      "Values & Life Lessons"
    = Some ["What would you tell a young recruit?"].
Proof.
  assert (is_Some (saved_project_data sample_wizard_state)) as Hsaved
    by (vm_compute; eexists; reflexivity).
  assert (strip_spaces " Values & Life Lessons " ≠ "") as Hname
    by (vm_compute; discriminate).
  assert (strip_spaces "What would you tell a young recruit?" ≠ "") as Hq
    by (vm_compute; discriminate).
  split; [vm_compute; reflexivity|]. split; [exact Hsaved|].
  split; [exact Hname|]. split; [exact Hq|].
  destruct (X19_add_category_replaces_existing strip_spaces sample_wizard_state
              ("20261104_093100", "2026-11-04T09:31:00")
              (add_existing_category_widgets (generated_questions sample_wizard_state)))
    as (Hget & _); [vm_compute; reflexivity|exact Hsaved|exact Hname|exact Hq|].
  exact Hget.
Defined.
